(** * Gotcha! username / e-mail OSINT engine: probe, dispatch and breach report

    A shallow embedding of the probing engine of the repository
    ([modules/engines/social_media.py], [modules/engines/username_hunter.py],
    [modules/engines/breach_checker.py], [modules/core/config.py]) and the
    properties its specification states about it.

    Conventions of the embedding.
    - Python [str] values are [string]s of 8-bit characters: the characters
      of a Latin-1 text or the bytes of a UTF-8 one, for in either one text
      occurs in another exactly when its characters do.  What [str.lower]
      returns is decided by the Unicode tables of the interpreter and not by
      this repository: the [State] holds it as [str_lower], and what is
      proved of the probes holds for every such function.  [Text.lower] is
      [str.lower] on Latin-1 text.
    - A Python dict that is iterated is an association list in insertion
      order ([dict_set] keeps keys unique, as assignment to a key does).
    - The objects' mutable attributes ([self.config], [self.session]) and the
      outside world (network, random source, the sessions opened so far) form
      one [State], threaded by the monad [M], whose computations end in a
      value or in a raised exception.
    - [asyncio.gather] hands the results back in the order of its arguments;
      the probes share nothing but the session they read, so a batch is the
      probes run in argument order, each exception kept as a value. *)

From Stdlib Require Import String Ascii List ZArith Bool Lia Arith.
Import ListNotations.

Local Open Scope string_scope.
Local Open Scope list_scope.

(** ** Text primitives *)

Module Text.

(** [str.lower] on one code point below 256: A-Z, and the Latin-1 capitals
    0xC0-0xDE without the multiplication sign 0xD7, move up by 32. *)
Definition lower_char (c : ascii) : ascii :=
  let n := nat_of_ascii c in
  if (Nat.leb 65 n && Nat.leb n 90)
     || (Nat.leb 192 n && Nat.leb n 222 && negb (Nat.eqb n 215))
  then ascii_of_nat (n + 32)
  else c.

Fixpoint lower (s : string) : string :=
  match s with
  | EmptyString => EmptyString
  | String c s' => String (lower_char c) (lower s')
  end.

(** [hay.startswith(needle)] *)
Fixpoint startswith (needle hay : string) : bool :=
  match needle, hay with
  | EmptyString, _ => true
  | String _ _, EmptyString => false
  | String a n', String b h' => Ascii.eqb a b && startswith n' h'
  end.

(** [needle in hay] on strings *)
Fixpoint contains (needle hay : string) : bool :=
  startswith needle hay
  || match hay with
     | EmptyString => false
     | String _ h' => contains needle h'
     end.

(** [item in items] on a list of strings *)
Definition in_list (item : string) (items : list string) : bool :=
  existsb (String.eqb item) items.

(** [str.lower] where only the letters A-Z have a small form: right for
    every text without other cased letters, in Latin-1 and in UTF-8. *)
Definition lower_ascii_char (c : ascii) : ascii :=
  let n := nat_of_ascii c in
  if Nat.leb 65 n && Nat.leb n 90 then ascii_of_nat (n + 32) else c.

Fixpoint lower_ascii (s : string) : string :=
  match s with
  | EmptyString => EmptyString
  | String c s' => String (lower_ascii_char c) (lower_ascii s')
  end.

(** The specification's notion: [ind] occurs somewhere in [body] when case
    is ignored - a piece of [body] and [ind] are the same once lowercased. *)
Definition ci_substring (lower : string -> string) (ind body : string) : Prop :=
  exists pre mid post,
    body = (pre ++ mid ++ post)%string /\ lower mid = lower ind.

(** What the source computes: [ind.lower() in body.lower()]. *)
Definition matches (lower : string -> string) (body ind : string) : bool :=
  contains (lower ind) (lower body).

End Text.

(** ** Exceptions and [str.format] *)

Inductive exn : Type :=
| TimeoutError (msg : string)   (* asyncio.TimeoutError and its subclasses *)
| Exception (msg : string).     (* every other subclass of Exception *)

(** [str(e)] *)
Definition str_exn (e : exn) : string :=
  match e with
  | TimeoutError m => m
  | Exception m => m
  end.

Definition prepend (p : string) (r : exn + string) : exn + string :=
  match r with
  | inl e => inl e
  | inr s => inr (p ++ s)%string
  end.

(** [tmpl.format(arg)] with one positional argument.  [{}] is the
    automatically numbered field, [{{] and [}}] are the escaped braces; a
    second [{}] finds no argument, and a single brace is an error.  Other
    replacement fields ([{0}], [{name}], conversions, format specs) are absent
    from every template of the catalogs and are counted as raising. *)
Fixpoint format_from (used : bool) (tmpl arg : string) {struct tmpl}
  : exn + string :=
  match tmpl with
  | EmptyString => inr EmptyString
  | String c rest =>
      if Ascii.eqb c "{" then
        match rest with
        | EmptyString =>
            inl (Exception "Single '{' encountered in format string")
        | String d rest' =>
            if Ascii.eqb d "{" then prepend "{" (format_from used rest' arg)
            else if Ascii.eqb d "}" then
              if used
              then inl (Exception
                     "Replacement index 1 out of range for positional args tuple")
              else prepend arg (format_from true rest' arg)
            else inl (Exception "unsupported replacement field")
        end
      else if Ascii.eqb c "}" then
        match rest with
        | EmptyString =>
            inl (Exception "Single '}' encountered in format string")
        | String d rest' =>
            if Ascii.eqb d "}" then prepend "}" (format_from used rest' arg)
            else inl (Exception "Single '}' encountered in format string")
        end
      else prepend (String c EmptyString) (format_from used rest arg)
  end.

Definition format (tmpl arg : string) : exn + string :=
  format_from false tmpl arg.

(** ** Configuration ([core/config.py]) *)

(** What a configuration file can hold where a number is expected. *)
Inductive Unfit : Type := IsStr | IsList | IsDict | IsNone.

Definition type_name (u : Unfit) : string :=
  match u with
  | IsStr => "str"
  | IsList => "list"
  | IsDict => "dict"
  | IsNone => "NoneType"
  end.

(** The value under [delay_between_requests], as far as a pause tells values
    apart: a number (an int, a finite float, a bool), or something else. *)
Inductive Delay : Type :=
| Number
| NotNumber (u : Unfit).

(** The keys of the configuration the engines read.  [load_config] merges the
    file over the defaults, so each of them is always present. *)
Record Config : Type := {
  user_agents : list string;
  timeout : Z;
  max_workers : Z;
  verify_ssl : bool;
  delay_between_requests : Delay
}.

Definition default_config : Config := {|
  user_agents :=
    [ "Mozilla/5.0 (Windows NT 10.0; Win64; x64) AppleWebKit/537.36 (KHTML, like Gecko) Chrome/91.0.4472.124 Safari/537.36";
      "Mozilla/5.0 (Macintosh; Intel Mac OS X 10_15_7) AppleWebKit/537.36 (KHTML, like Gecko) Chrome/91.0.4472.124 Safari/537.36";
      "Mozilla/5.0 (X11; Linux x86_64) AppleWebKit/537.36 (KHTML, like Gecko) Chrome/91.0.4472.124 Safari/537.36";
      "Mozilla/5.0 (Windows NT 10.0; Win64; x64; rv:89.0) Gecko/20100101 Firefox/89.0";
      "Mozilla/5.0 (Macintosh; Intel Mac OS X 10.15; rv:89.0) Gecko/20100101 Firefox/89.0" ];
  timeout := 10;
  max_workers := 50;
  verify_ssl := true;
  delay_between_requests := Number
|}.

(** ** Sessions, the network and the state of a hunt *)

(** An [aiohttp.ClientSession] as [create_session] builds it. *)
Record Session : Type := {
  sid : nat;                (* identity of the instance *)
  total_timeout : Z;        (* ClientTimeout(total=...) *)
  limit : Z;                (* TCPConnector(limit=...) *)
  ssl : bool;               (* TCPConnector(verify_ssl=...) *)
  default_user_agent : string
}.

(** What a GET hands back: the status line, and the body that
    [response.text()] reads afterwards (or the failure of that read). *)
Record Response : Type := {
  status : Z;
  text : exn + string
}.

Inductive Event : Type :=
| Opened (s : nat)                  (* ClientSession(...) *)
| Get (s : nat) (url : string)      (* session.get(url) *)
| ReadBody (url : string)           (* response.text() *)
| Closed (s : nat)                  (* session.close() returned *)
| CloseFailed (s : nat).            (* session.close() raised *)

Record State : Type := {
  config : Config;                  (* self.config *)
  session : option Session;         (* self.session *)
  network : nat -> string -> exn + Response;
                                    (* outcome of the n-th GET, sent to a URL *)
  close_raises : nat -> option exn; (* does closing this session fail *)
  entropy : nat -> nat;             (* the random source *)
  str_lower : string -> string;     (* what str.lower returns *)
  draws : nat;                      (* random choices made so far *)
  sent : nat;                       (* GETs sent so far *)
  opened : nat;                     (* sessions created so far *)
  trace : list Event                (* what happened, oldest first *)
}.

Definition set_session (s : option Session) (st : State) : State :=
  {| config := config st; session := s; network := network st;
     close_raises := close_raises st; entropy := entropy st;
     str_lower := str_lower st;
     draws := draws st; sent := sent st; opened := opened st;
     trace := trace st |}.

Definition tick_draws (st : State) : State :=
  {| config := config st; session := session st; network := network st;
     close_raises := close_raises st; entropy := entropy st;
     str_lower := str_lower st;
     draws := S (draws st); sent := sent st; opened := opened st;
     trace := trace st |}.

Definition tick_sent (st : State) : State :=
  {| config := config st; session := session st; network := network st;
     close_raises := close_raises st; entropy := entropy st;
     str_lower := str_lower st;
     draws := draws st; sent := S (sent st); opened := opened st;
     trace := trace st |}.

Definition tick_opened (st : State) : State :=
  {| config := config st; session := session st; network := network st;
     close_raises := close_raises st; entropy := entropy st;
     str_lower := str_lower st;
     draws := draws st; sent := sent st; opened := S (opened st);
     trace := trace st |}.

Definition record (e : Event) (st : State) : State :=
  {| config := config st; session := session st; network := network st;
     close_raises := close_raises st; entropy := entropy st;
     str_lower := str_lower st;
     draws := draws st; sent := sent st; opened := opened st;
     trace := trace st ++ [e] |}.

(** ** The monad of the engines: state, and a value or a raised exception *)

Definition M (A : Type) : Type := State -> (exn + A) * State.

Definition ret {A} (a : A) : M A := fun st => (inr a, st).

Definition raise {A} (e : exn) : M A := fun st => (inl e, st).

Definition bind {A B} (m : M A) (k : A -> M B) : M B :=
  fun st =>
    match m st with
    | (inl e, st') => (inl e, st')
    | (inr a, st') => k a st'
    end.

Notation "x <- m ;; k" := (bind m (fun x => k))
  (at level 61, m at next level, right associativity).
Notation "m ;;; k" := (bind m (fun _ => k))
  (at level 61, right associativity).

(** A pure step that may raise. *)
Definition lift {A} (r : exn + A) : M A := fun st => (r, st).

(** [try: body / except ...: handler].  The handler receives the exception
    and tells the [except] clauses apart itself; what it raises is not caught
    again. *)
Definition try_except {A} (body : M A) (handler : exn -> M A) : M A :=
  fun st =>
    match body st with
    | (inl e, st') => handler e st'
    | (inr a, st') => (inr a, st')
    end.

(** [try: body / finally: cleanup]: an exception of the cleanup replaces the
    outcome of the body. *)
Definition try_finally {A} (body : M A) (cleanup : M unit) : M A :=
  fun st =>
    match body st with
    | (r, st') =>
        match cleanup st' with
        | (inl e, st'') => (inl e, st'')
        | (inr _, st'') => (r, st'')
        end
    end.

Definition get_config : M Config := fun st => (inr (config st), st).

Definition get_session : M (option Session) := fun st => (inr (session st), st).

(** The method [str.lower] of the interpreter. *)
Definition get_lower : M (string -> string) :=
  fun st => (inr (str_lower st), st).

(** [await asyncio.sleep(delay)]: the delay is compared with 0 first, which
    raises TypeError unless it is a number.  How long the pause lasts is not
    modelled. *)
Definition sleep (delay : Delay) : M unit :=
  match delay with
  | Number => ret tt
  | NotNumber u =>
      raise (Exception ("'<=' not supported between instances of '"
                        ++ type_name u ++ "' and 'int'")%string)
  end.


(** [random.choice(items)]: IndexError on an empty sequence. *)
Definition random_choice {A} (items : list A) : M A :=
  fun st =>
    match items with
    | [] => (inl (Exception "Cannot choose from an empty sequence"), st)
    | x :: _ =>
        (inr (nth (entropy st (draws st) mod length items) items x),
         tick_draws st)
    end.

(** [self.session.get(url, headers=headers)]: with no session the attribute
    access on [None] raises; otherwise the request is sent through the session
    and the network decides. *)
Definition session_get (url : string) (headers : list (string * string))
  : M Response :=
  fun st =>
    match session st with
    | None => (inl (Exception "'NoneType' object has no attribute 'get'"), st)
    | Some s =>
        (network st (sent st) url, record (Get (sid s) url) (tick_sent st))
    end.

(** [await response.text()] *)
Definition response_text (url : string) (response : Response) : M string :=
  fun st => (text response, record (ReadBody url) st).

(** [create_session] (the same in the three engines): nothing is opened when
    the user-agent pool is empty, since [random.choice] raises first. *)
Definition create_session : M unit :=
  cfg <- get_config ;;
  ua <- random_choice (user_agents cfg) ;;
  fun st =>
    let s := {| sid := opened st; total_timeout := timeout cfg;
                limit := max_workers cfg; ssl := verify_ssl cfg;
                default_user_agent := ua |} in
    (inr tt, set_session (Some s) (record (Opened (opened st)) (tick_opened st))).

(** [close_session]: [self.session] is reset only after [close()] returned. *)
Definition close_session : M unit :=
  fun st =>
    match session st with
    | None => (inr tt, st)
    | Some s =>
        match close_raises st (sid s) with
        | Some e => (inl e, record (CloseFailed (sid s)) st)
        | None => (inr tt, set_session None (record (Closed (sid s)) st))
        end
    end.

(** A task awaited under [return_exceptions=True]: the exception it raises
    is handed back as a value. *)
Definition capture {A} (task : M A) : M (exn + A) :=
  fun st => (inr (fst (task st)), snd (task st)).

(** [await asyncio.gather] of the tasks with [return_exceptions=True] *)
Fixpoint gather {A} (tasks : list (M A)) : M (list (exn + A)) :=
  match tasks with
  | [] => ret []
  | task :: rest =>
      result <- capture task ;;
      results <- gather rest ;;
      ret (result :: results)
  end.

(** ** Platform definitions and probe results *)

Record PlatformData : Type := {
  url : string;
  check_url : string;
  indicators : list string;
  not_found_indicators : list string
}.

(** A dict in insertion order. *)
Definition dict (V : Type) : Type := list (string * V).

Fixpoint dict_get {V} (d : dict V) (key : string) : option V :=
  match d with
  | [] => None
  | (k, v) :: d' => if String.eqb k key then Some v else dict_get d' key
  end.

(** [d[key] = value]: an existing key keeps its place. *)
Fixpoint dict_set {V} (d : dict V) (key : string) (value : V) : dict V :=
  match d with
  | [] => [(key, value)]
  | (k, v) :: d' =>
      if String.eqb k key then (k, value) :: d'
      else (k, v) :: dict_set d' key value
  end.

(** [d[key]] as an expression: KeyError when the key is missing. *)
Definition dict_item {V} (d : dict V) (key : string) : M V :=
  match dict_get d key with
  | Some v => ret v
  | None => raise (Exception ("'" ++ key ++ "'")%string)
  end.

(** The dict a probe returns.  A key the source leaves out is [None]. *)
Record ProbeResult : Type := {
  r_platform : string;
  r_username : string;
  r_url : string;
  r_exists : bool;
  r_status_code : option Z;
  r_response_time : option Z;
  r_additional_info : option (list (string * string));
  r_error : option string
}.

Definition found (r : ProbeResult) (info : list (string * string)) : ProbeResult :=
  {| r_platform := r_platform r; r_username := r_username r; r_url := r_url r;
     r_exists := true; r_status_code := r_status_code r;
     r_response_time := r_response_time r;
     r_additional_info := Some info; r_error := r_error r |}.

Definition set_exists (b : bool) (r : ProbeResult) : ProbeResult :=
  {| r_platform := r_platform r; r_username := r_username r; r_url := r_url r;
     r_exists := b; r_status_code := r_status_code r;
     r_response_time := r_response_time r;
     r_additional_info := r_additional_info r; r_error := r_error r |}.

(** The headers each probe sends. *)
Definition probe_headers (user_agent : string) : list (string * string) :=
  [ ("User-Agent", user_agent);
    ("Accept", "text/html,application/xhtml+xml,application/xml;q=0.9,*/*;q=0.8");
    ("Accept-Language", "en-US,en;q=0.5");
    ("Accept-Encoding", "gzip, deflate");
    ("Connection", "keep-alive");
    ("Upgrade-Insecure-Requests", "1") ].

(** The loop both hunts end with: keep what is a dict and has [exists]. *)
Fixpoint valid_results (results : list (exn + ProbeResult)) : list ProbeResult :=
  match results with
  | [] => []
  | inr result :: rest =>
      if r_exists result then result :: valid_results rest
      else valid_results rest
  | inl _ :: rest => valid_results rest
  end.

(** ** [SocialMediaHunter] ([engines/social_media.py]) *)

Module SocialMediaHunter.

Record Self : Type := {
  platforms : dict PlatformData
}.

(** [self.platforms] as [__init__] fills it. *)
Definition default_platforms : dict PlatformData :=
  [
    ("twitter", {| url := "https://twitter.com/{}";
        check_url := "https://twitter.com/{}";
        indicators := ["Profile"; "Joined"; "Following"; "Followers"];
        not_found_indicators := ["This account doesn't exist"; "Account suspended"] |});
    ("instagram", {| url := "https://instagram.com/{}";
        check_url := "https://instagram.com/{}";
        indicators := ["followers"; "following"; "posts"];
        not_found_indicators := ["Sorry, this page isn't available"] |});
    ("facebook", {| url := "https://facebook.com/{}";
        check_url := "https://facebook.com/{}";
        indicators := ["Facebook"];
        not_found_indicators := ["This content isn't available"] |});
    ("linkedin", {| url := "https://linkedin.com/in/{}";
        check_url := "https://linkedin.com/in/{}";
        indicators := ["LinkedIn"; "connections"; "Experience"];
        not_found_indicators := ["This profile doesn't exist"] |});
    ("github", {| url := "https://github.com/{}";
        check_url := "https://github.com/{}";
        indicators := ["repositories"; "followers"; "following"];
        not_found_indicators := ["Not Found"] |});
    ("youtube", {| url := "https://youtube.com/@{}";
        check_url := "https://youtube.com/@{}";
        indicators := ["subscribers"; "videos"; "YouTube"];
        not_found_indicators := ["This channel doesn't exist"] |});
    ("tiktok", {| url := "https://tiktok.com/@{}";
        check_url := "https://tiktok.com/@{}";
        indicators := ["Following"; "Followers"; "Likes"];
        not_found_indicators := ["Couldn't find this account"] |});
    ("reddit", {| url := "https://reddit.com/user/{}";
        check_url := "https://reddit.com/user/{}";
        indicators := ["Post Karma"; "Comment Karma"];
        not_found_indicators := ["page not found"] |});
    ("pinterest", {| url := "https://pinterest.com/{}";
        check_url := "https://pinterest.com/{}";
        indicators := ["Pinterest"; "pins"; "boards"];
        not_found_indicators := ["Sorry, we couldn't find that page"] |});
    ("snapchat", {| url := "https://snapchat.com/add/{}";
        check_url := "https://snapchat.com/add/{}";
        indicators := ["Snapchat"];
        not_found_indicators := ["Oh snap! Something went wrong"] |});
    ("discord", {| url := "https://discord.com/users/{}";
        check_url := "https://discord.com/users/{}";
        indicators := ["Discord"];
        not_found_indicators := ["User not found"] |});
    ("twitch", {| url := "https://twitch.tv/{}";
        check_url := "https://twitch.tv/{}";
        indicators := ["Twitch"; "followers"; "following"];
        not_found_indicators := ["Sorry. Unless you've got a time machine"] |});
    ("spotify", {| url := "https://open.spotify.com/user/{}";
        check_url := "https://open.spotify.com/user/{}";
        indicators := ["Spotify"; "playlists"];
        not_found_indicators := ["Page not found"] |});
    ("medium", {| url := "https://medium.com/@{}";
        check_url := "https://medium.com/@{}";
        indicators := ["Medium"; "followers"; "following"];
        not_found_indicators := ["Page not found"] |});
    ("devto", {| url := "https://dev.to/{}";
        check_url := "https://dev.to/{}";
        indicators := ["DEV Community"; "posts"; "followers"];
        not_found_indicators := ["404"] |});
    ("behance", {| url := "https://behance.net/{}";
        check_url := "https://behance.net/{}";
        indicators := ["Behance"; "projects"; "followers"];
        not_found_indicators := ["Page Not Found"] |});
    ("dribbble", {| url := "https://dribbble.com/{}";
        check_url := "https://dribbble.com/{}";
        indicators := ["Dribbble"; "shots"; "followers"];
        not_found_indicators := ["Page not found"] |});
    ("vimeo", {| url := "https://vimeo.com/{}";
        check_url := "https://vimeo.com/{}";
        indicators := ["Vimeo"; "videos"; "followers"];
        not_found_indicators := ["Page not found"] |});
    ("soundcloud", {| url := "https://soundcloud.com/{}";
        check_url := "https://soundcloud.com/{}";
        indicators := ["SoundCloud"; "followers"; "following"];
        not_found_indicators := ["We can't find that user"] |});
    ("tumblr", {| url := "https://{}.tumblr.com";
        check_url := "https://{}.tumblr.com";
        indicators := ["Tumblr"];
        not_found_indicators := ["There's nothing here"] |});
    ("flickr", {| url := "https://flickr.com/people/{}";
        check_url := "https://flickr.com/people/{}";
        indicators := ["Flickr"; "photos"];
        not_found_indicators := ["Page not found"] |});
    ("pornhub", {| url := "https://pornhub.com/users/{}";
        check_url := "https://pornhub.com/users/{}";
        indicators := ["profile"; "videos"; "subscribers"];
        not_found_indicators := ["User not found"; "Page not found"] |});
    ("xvideos", {| url := "https://xvideos.com/profiles/{}";
        check_url := "https://xvideos.com/profiles/{}";
        indicators := ["profile"; "videos"];
        not_found_indicators := ["User not found"; "Profile not found"] |});
    ("redtube", {| url := "https://redtube.com/users/{}";
        check_url := "https://redtube.com/users/{}";
        indicators := ["profile"; "videos"];
        not_found_indicators := ["User not found"] |});
    ("onlyfans", {| url := "https://onlyfans.com/{}";
        check_url := "https://onlyfans.com/{}";
        indicators := ["OnlyFans"; "profile"];
        not_found_indicators := ["User not found"; "Page not found"] |});
    ("chaturbate", {| url := "https://chaturbate.com/{}";
        check_url := "https://chaturbate.com/{}";
        indicators := ["chaturbate"; "profile"];
        not_found_indicators := ["User not found"] |});
    ("cam4", {| url := "https://cam4.com/{}";
        check_url := "https://cam4.com/{}";
        indicators := ["cam4"; "profile"];
        not_found_indicators := ["User not found"] |});
    ("myfreecams", {| url := "https://profiles.myfreecams.com/{}";
        check_url := "https://profiles.myfreecams.com/{}";
        indicators := ["MyFreeCams"; "profile"];
        not_found_indicators := ["Profile not found"] |});
    ("stripchat", {| url := "https://stripchat.com/{}";
        check_url := "https://stripchat.com/{}";
        indicators := ["stripchat"; "profile"];
        not_found_indicators := ["User not found"] |});
    ("livejasmin", {| url := "https://livejasmin.com/en/girl/{}";
        check_url := "https://livejasmin.com/en/girl/{}";
        indicators := ["LiveJasmin"; "profile"];
        not_found_indicators := ["Profile not found"] |});
    ("bongacams", {| url := "https://bongacams.com/{}";
        check_url := "https://bongacams.com/{}";
        indicators := ["BongaCams"; "profile"];
        not_found_indicators := ["User not found"] |});
    ("camsoda", {| url := "https://camsoda.com/{}";
        check_url := "https://camsoda.com/{}";
        indicators := ["CamSoda"; "profile"];
        not_found_indicators := ["User not found"] |});
    ("fetlife", {| url := "https://fetlife.com/users/{}";
        check_url := "https://fetlife.com/users/{}";
        indicators := ["FetLife"; "profile"; "kinks"];
        not_found_indicators := ["User not found"] |}) ].

Definition init : Self := {| platforms := default_platforms |}.

(** The list [hunt_username] spells out. *)
Definition adult_platforms : list string :=
  [ "pornhub"; "xvideos"; "redtube"; "onlyfans"; "chaturbate";
    "cam4"; "myfreecams"; "stripchat"; "livejasmin"; "bongacams";
    "camsoda"; "fetlife" ].

(** Every branch of the source is [pass]; the dict stays empty. *)
Definition extract_additional_info (content platform : string)
  : M (list (string * string)) :=
  ret [].

Definition check_username_on_platform
  (username platform : string) (platform_data : PlatformData) : M ProbeResult :=
  try_except
    (request_url <- lift (format (check_url platform_data) username) ;;
     cfg <- get_config ;;
     user_agent <- random_choice (user_agents cfg) ;;
     let headers := probe_headers user_agent in
     response <- session_get request_url headers ;;
     content <- response_text request_url response ;;
     profile_url <- lift (format (url platform_data) username) ;;
     let result :=
       {| r_platform := platform; r_username := username; r_url := profile_url;
          r_exists := false; r_status_code := Some (status response);
          r_response_time := Some 0%Z; r_additional_info := Some [];
          r_error := None |} in
     if (status response =? 200)%Z then
       lower <- get_lower ;;
       let positive_indicators :=
         existsb (Text.matches lower content) (indicators platform_data) in
       let negative_indicators :=
         existsb (Text.matches lower content)
           (not_found_indicators platform_data) in
       if positive_indicators && negb negative_indicators then
         info <- extract_additional_info content platform ;;
         ret (found result info)
       else ret result
     else if (status response =? 404)%Z then
       ret (set_exists false result)
     else ret result)
    (fun e =>
       match e with
       | TimeoutError _ =>
           profile_url <- lift (format (url platform_data) username) ;;
           ret {| r_platform := platform; r_username := username;
                  r_url := profile_url; r_exists := false;
                  r_status_code := Some 0%Z; r_response_time := None;
                  r_additional_info := None; r_error := Some "Timeout" |}
       | Exception _ =>
           profile_url <- lift (format (url platform_data) username) ;;
           ret {| r_platform := platform; r_username := username;
                  r_url := profile_url; r_exists := false;
                  r_status_code := Some 0%Z; r_response_time := None;
                  r_additional_info := None; r_error := Some (str_exn e) |}
       end).

(** The first loop of [hunt_username]: the platforms that will be probed. *)
Definition platforms_to_check (self : Self) (include_adult : bool)
  : dict PlatformData :=
  fold_left
    (fun acc entry =>
       if Text.in_list (fst entry) adult_platforms && negb include_adult
       then acc
       else dict_set acc (fst entry) (snd entry))
    (platforms self) [].

(** The second loop and the [gather]: one task per selected platform. *)
Definition dispatch (username : string) (selected : dict PlatformData)
  : M (list (exn + ProbeResult)) :=
  gather
    (map (fun entry => check_username_on_platform username (fst entry) (snd entry))
         selected).

Definition hunt_username (self : Self) (username : string) (include_adult : bool)
  : M (list ProbeResult) :=
  s <- get_session ;;
  match s with None => create_session | Some _ => ret tt end ;;;
  try_finally
    (results <- dispatch username (platforms_to_check self include_adult) ;;
     ret (valid_results results))
    (try_except close_session (fun _ => ret tt)).

Definition get_platform_list (self : Self) : list string :=
  map fst (platforms self).

Definition add_custom_platform (self : Self) (name url_pattern : string)
  (indicators not_found_indicators : list string) : Self :=
  {| platforms :=
       dict_set (platforms self) name
         {| url := url_pattern; check_url := url_pattern;
            indicators := indicators;
            not_found_indicators := not_found_indicators |} |}.

(** The loop of [hunt_multiple_usernames]: every name is hunted with the
    default [include_adult=False], a name that comes again overwrites its
    entry, and after each hunt comes the pause of the configuration. *)
Fixpoint hunt_each (self : Self) (usernames : list string)
  (results : dict (list ProbeResult)) : M (dict (list ProbeResult)) :=
  match usernames with
  | [] => ret results
  | username :: rest =>
      hits <- hunt_username self username false ;;
      let results := dict_set results username hits in
      cfg <- get_config ;;
      sleep (delay_between_requests cfg) ;;;
      hunt_each self rest results
  end.

Definition hunt_multiple_usernames (self : Self) (usernames : list string)
  : M (dict (list ProbeResult)) :=
  hunt_each self usernames [].

End SocialMediaHunter.

(** ** [UsernameHunter] ([engines/username_hunter.py]) *)

Module UsernameHunter.

Record Self : Type := {
  general_sites : dict PlatformData;
  developer_platforms : dict PlatformData;
  forums : dict PlatformData;
  gaming_platforms : dict PlatformData
}.

(** [self.general_sites] as [__init__] fills it. *)
Definition default_general_sites : dict PlatformData :=
  [
    ("pastebin", {| url := "https://pastebin.com/u/{}";
        check_url := "https://pastebin.com/u/{}";
        indicators := ["pastebin"; "Public Pastes"; "Profile"];
        not_found_indicators := ["Unknown User"; "Not Found"] |});
    ("about_me", {| url := "https://about.me/{}";
        check_url := "https://about.me/{}";
        indicators := ["about.me"; "profile"];
        not_found_indicators := ["Page not found"] |});
    ("gravatar", {| url := "https://gravatar.com/{}";
        check_url := "https://gravatar.com/{}";
        indicators := ["Gravatar"; "avatar"];
        not_found_indicators := ["Page not found"] |});
    ("keybase", {| url := "https://keybase.io/{}";
        check_url := "https://keybase.io/{}";
        indicators := ["Keybase"; "proofs"; "keys"];
        not_found_indicators := ["User not found"] |});
    ("hackernews", {| url := "https://news.ycombinator.com/user?id={}";
        check_url := "https://news.ycombinator.com/user?id={}";
        indicators := ["Hacker News"; "karma"; "submissions"];
        not_found_indicators := ["No such user"] |});
    ("product_hunt", {| url := "https://producthunt.com/@{}";
        check_url := "https://producthunt.com/@{}";
        indicators := ["Product Hunt"; "followers"; "following"];
        not_found_indicators := ["Page not found"] |});
    ("angel_list", {| url := "https://angel.co/{}";
        check_url := "https://angel.co/{}";
        indicators := ["AngelList"; "angel.co"];
        not_found_indicators := ["Page not found"] |});
    ("foursquare", {| url := "https://foursquare.com/{}";
        check_url := "https://foursquare.com/{}";
        indicators := ["Foursquare"; "check-ins"];
        not_found_indicators := ["Page not found"] |});
    ("last_fm", {| url := "https://last.fm/user/{}";
        check_url := "https://last.fm/user/{}";
        indicators := ["Last.fm"; "scrobbles"; "artists"];
        not_found_indicators := ["User not found"] |});
    ("mix_cloud", {| url := "https://mixcloud.com/{}";
        check_url := "https://mixcloud.com/{}";
        indicators := ["Mixcloud"; "cloudcasts"; "followers"];
        not_found_indicators := ["Page not found"] |});
    ("adultfriendfinder", {| url := "https://adultfriendfinder.com/profile/{}";
        check_url := "https://adultfriendfinder.com/profile/{}";
        indicators := ["AdultFriendFinder"; "profile"];
        not_found_indicators := ["Profile not found"; "User not found"] |});
    ("ashley_madison", {| url := "https://ashleymadison.com/profile/{}";
        check_url := "https://ashleymadison.com/profile/{}";
        indicators := ["Ashley Madison"; "profile"];
        not_found_indicators := ["Profile not found"] |});
    ("seeking", {| url := "https://seeking.com/member/{}";
        check_url := "https://seeking.com/member/{}";
        indicators := ["Seeking"; "profile"];
        not_found_indicators := ["Profile not found"] |});
    ("alt_com", {| url := "https://alt.com/profile/{}";
        check_url := "https://alt.com/profile/{}";
        indicators := ["Alt.com"; "profile"];
        not_found_indicators := ["Profile not found"] |});
    ("swappernet", {| url := "https://swappernet.com/{}";
        check_url := "https://swappernet.com/{}";
        indicators := ["SwapperNet"; "profile"];
        not_found_indicators := ["Profile not found"] |});
    ("faphouse", {| url := "https://faphouse.com/models/{}";
        check_url := "https://faphouse.com/models/{}";
        indicators := ["FapHouse"; "model"; "videos"];
        not_found_indicators := ["Model not found"] |});
    ("manyvids", {| url := "https://manyvids.com/Profile/{}/Store/Videos/";
        check_url := "https://manyvids.com/Profile/{}/Store/Videos/";
        indicators := ["ManyVids"; "profile"; "videos"];
        not_found_indicators := ["Profile not found"] |});
    ("clips4sale", {| url := "https://clips4sale.com/studio/{}";
        check_url := "https://clips4sale.com/studio/{}";
        indicators := ["Clips4Sale"; "studio"];
        not_found_indicators := ["Studio not found"] |});
    ("iwantclips", {| url := "https://iwantclips.com/store/{}";
        check_url := "https://iwantclips.com/store/{}";
        indicators := ["iWantClips"; "store"];
        not_found_indicators := ["Store not found"] |});
    ("justforfans", {| url := "https://justfor.fans/{}";
        check_url := "https://justfor.fans/{}";
        indicators := ["JustForFans"; "profile"];
        not_found_indicators := ["Profile not found"] |}) ].

(** [self.developer_platforms] *)
Definition default_developer_platforms : dict PlatformData :=
  [
    ("github", {| url := "https://github.com/{}";
        check_url := "https://github.com/{}";
        indicators := ["GitHub"; "repositories"; "followers"];
        not_found_indicators := ["Not Found"] |});
    ("gitlab", {| url := "https://gitlab.com/{}";
        check_url := "https://gitlab.com/{}";
        indicators := ["GitLab"; "projects"; "contributions"];
        not_found_indicators := ["Page not found"] |});
    ("bitbucket", {| url := "https://bitbucket.org/{}";
        check_url := "https://bitbucket.org/{}";
        indicators := ["Bitbucket"; "repositories"];
        not_found_indicators := ["Page not found"] |});
    ("stackoverflow", {| url := "https://stackoverflow.com/users/{}";
        check_url := "https://stackoverflow.com/users/{}";
        indicators := ["Stack Overflow"; "reputation"; "answers"];
        not_found_indicators := ["User not found"] |});
    ("codepen", {| url := "https://codepen.io/{}";
        check_url := "https://codepen.io/{}";
        indicators := ["CodePen"; "pens"; "followers"];
        not_found_indicators := ["Page not found"] |});
    ("replit", {| url := "https://replit.com/@{}";
        check_url := "https://replit.com/@{}";
        indicators := ["Replit"; "repls"];
        not_found_indicators := ["Page not found"] |});
    ("hackerone", {| url := "https://hackerone.com/{}";
        check_url := "https://hackerone.com/{}";
        indicators := ["HackerOne"; "reputation"; "reports"];
        not_found_indicators := ["Page not found"] |});
    ("bugcrowd", {| url := "https://bugcrowd.com/{}";
        check_url := "https://bugcrowd.com/{}";
        indicators := ["Bugcrowd"; "researcher"];
        not_found_indicators := ["Page not found"] |});
    ("kaggle", {| url := "https://kaggle.com/{}";
        check_url := "https://kaggle.com/{}";
        indicators := ["Kaggle"; "competitions"; "datasets"];
        not_found_indicators := ["Page not found"] |});
    ("dockerhub", {| url := "https://hub.docker.com/u/{}";
        check_url := "https://hub.docker.com/u/{}";
        indicators := ["Docker Hub"; "repositories"];
        not_found_indicators := ["Page not found"] |});
    ("npm", {| url := "https://npmjs.com/~{}";
        check_url := "https://npmjs.com/~{}";
        indicators := ["npm"; "packages"];
        not_found_indicators := ["Page not found"] |});
    ("pypi", {| url := "https://pypi.org/user/{}";
        check_url := "https://pypi.org/user/{}";
        indicators := ["PyPI"; "packages"];
        not_found_indicators := ["Page not found"] |}) ].

(** [self.forums] *)
Definition default_forums : dict PlatformData :=
  [
    ("reddit", {| url := "https://reddit.com/user/{}";
        check_url := "https://reddit.com/user/{}";
        indicators := ["Reddit"; "karma"; "posts"];
        not_found_indicators := ["page not found"] |});
    ("xda", {| url := "https://forum.xda-developers.com/member.php?username={}";
        check_url := "https://forum.xda-developers.com/member.php?username={}";
        indicators := ["XDA"; "posts"; "thanks"];
        not_found_indicators := ["User not found"] |});
    ("disqus", {| url := "https://disqus.com/by/{}";
        check_url := "https://disqus.com/by/{}";
        indicators := ["Disqus"; "comments"];
        not_found_indicators := ["Page not found"] |});
    ("discourse", {| url := "https://meta.discourse.org/u/{}";
        check_url := "https://meta.discourse.org/u/{}";
        indicators := ["Discourse"; "posts"; "topics"];
        not_found_indicators := ["Page not found"] |}) ].

(** [self.gaming_platforms] *)
Definition default_gaming_platforms : dict PlatformData :=
  [
    ("steam", {| url := "https://steamcommunity.com/id/{}";
        check_url := "https://steamcommunity.com/id/{}";
        indicators := ["Steam"; "games"; "profile"];
        not_found_indicators := ["The specified profile could not be found"] |});
    ("xbox", {| url := "https://xboxgamertag.com/search/{}";
        check_url := "https://xboxgamertag.com/search/{}";
        indicators := ["Xbox"; "gamertag"];
        not_found_indicators := ["Gamertag not found"] |});
    ("playstation", {| url := "https://psnprofiles.com/{}";
        check_url := "https://psnprofiles.com/{}";
        indicators := ["PSN"; "trophies"; "games"];
        not_found_indicators := ["User not found"] |});
    ("epic", {| url := "https://fortnitetracker.com/profile/all/{}";
        check_url := "https://fortnitetracker.com/profile/all/{}";
        indicators := ["Epic"; "stats"];
        not_found_indicators := ["Player not found"] |});
    ("battlenet", {| url := "https://playoverwatch.com/en-us/career/pc/{}";
        check_url := "https://playoverwatch.com/en-us/career/pc/{}";
        indicators := ["Overwatch"; "career"];
        not_found_indicators := ["Profile not found"] |});
    ("minecraft", {| url := "https://namemc.com/profile/{}";
        check_url := "https://namemc.com/profile/{}";
        indicators := ["Minecraft"; "UUID"];
        not_found_indicators := ["Profile not found"] |});
    ("roblox", {| url := "https://roblox.com/users/profile?username={}";
        check_url := "https://roblox.com/users/profile?username={}";
        indicators := ["Roblox"; "profile"];
        not_found_indicators := ["User not found"] |}) ].

Definition init : Self := {|
  general_sites := default_general_sites;
  developer_platforms := default_developer_platforms;
  forums := default_forums;
  gaming_platforms := default_gaming_platforms
|}.

(** The list [hunt_general_sites] spells out, which is also the key order of
    the dict [hunt_adult_platforms] builds. *)
Definition adult_platforms : list string :=
  [ "adultfriendfinder"; "ashley_madison"; "seeking"; "alt_com";
    "swappernet"; "faphouse"; "manyvids"; "clips4sale"; "iwantclips";
    "justforfans" ].

(** One handler for every exception, a timeout included, and no
    [status_code] in what it returns. *)
Definition check_username_on_platform
  (username platform : string) (platform_data : PlatformData) : M ProbeResult :=
  try_except
    (request_url <- lift (format (check_url platform_data) username) ;;
     cfg <- get_config ;;
     user_agent <- random_choice (user_agents cfg) ;;
     let headers := probe_headers user_agent in
     response <- session_get request_url headers ;;
     content <- response_text request_url response ;;
     profile_url <- lift (format (url platform_data) username) ;;
     let result :=
       {| r_platform := platform; r_username := username; r_url := profile_url;
          r_exists := false; r_status_code := Some (status response);
          r_response_time := None; r_additional_info := Some [];
          r_error := None |} in
     if (status response =? 200)%Z then
       lower <- get_lower ;;
       let positive_indicators :=
         existsb (Text.matches lower content) (indicators platform_data) in
       let negative_indicators :=
         existsb (Text.matches lower content)
           (not_found_indicators platform_data) in
       if positive_indicators && negb negative_indicators then
         ret (set_exists true result)
       else ret result
     else ret result)
    (fun e =>
       profile_url <- lift (format (url platform_data) username) ;;
       ret {| r_platform := platform; r_username := username;
              r_url := profile_url; r_exists := false;
              r_status_code := None; r_response_time := None;
              r_additional_info := None; r_error := Some (str_exn e) |}).

(** The task loop of [hunt_platforms] and its [gather]. *)
Definition dispatch (username : string) (selected : dict PlatformData)
  : M (list (exn + ProbeResult)) :=
  gather
    (map (fun entry => check_username_on_platform username (fst entry) (snd entry))
         selected).

Definition hunt_platforms (username : string) (platforms : dict PlatformData)
  : M (list ProbeResult) :=
  s <- get_session ;;
  match s with None => create_session | Some _ => ret tt end ;;;
  try_finally
    (results <- dispatch username platforms ;;
     ret (valid_results results))
    (try_except close_session (fun _ => ret tt)).

(** The loop of [hunt_general_sites]. *)
Definition platforms_to_check (self : Self) (include_adult : bool)
  : dict PlatformData :=
  fold_left
    (fun acc entry =>
       if Text.in_list (fst entry) adult_platforms && negb include_adult
       then acc
       else dict_set acc (fst entry) (snd entry))
    (general_sites self) [].

Definition hunt_general_sites (self : Self) (username : string)
  (include_adult : bool) : M (list ProbeResult) :=
  hunt_platforms username (platforms_to_check self include_adult).

Definition hunt_developer_platforms (self : Self) (username : string)
  : M (list ProbeResult) :=
  hunt_platforms username (developer_platforms self).

Definition hunt_forums (self : Self) (username : string) : M (list ProbeResult) :=
  hunt_platforms username (forums self).

Definition hunt_gaming_platforms (self : Self) (username : string)
  : M (list ProbeResult) :=
  hunt_platforms username (gaming_platforms self).

(** The dict display of [hunt_adult_platforms]: one subscript of
    [self.general_sites] per key, in order. *)
Fixpoint subscripts (d : dict PlatformData) (keys : list string)
  : M (dict PlatformData) :=
  match keys with
  | [] => ret []
  | key :: keys' =>
      value <- dict_item d key ;;
      rest <- subscripts d keys' ;;
      ret ((key, value) :: rest)
  end.

Definition hunt_adult_platforms (self : Self) (username : string)
  : M (list ProbeResult) :=
  adult <- subscripts (general_sites self) adult_platforms ;;
  hunt_platforms username adult.

Definition hunt_all_platforms (self : Self) (username : string)
  (include_adult : bool) : M (dict (list ProbeResult)) :=
  general <- hunt_general_sites self username include_adult ;;
  developer <- hunt_developer_platforms self username ;;
  forum <- hunt_forums self username ;;
  gaming <- hunt_gaming_platforms self username ;;
  let results :=
    [ ("general_sites", general); ("developer_platforms", developer);
      ("forums", forum); ("gaming_platforms", gaming) ] in
  if include_adult then
    adult <- hunt_adult_platforms self username ;;
    ret (dict_set results "adult_platforms" adult)
  else ret results.

End UsernameHunter.

(** ** [BreachChecker] ([engines/breach_checker.py]) *)

Module BreachChecker.

(** The dict a breach source returns. *)
Record BreachRecord : Type := {
  source : string;
  email : string;
  found : bool;
  breaches : option (list string);
  record_url : option string;
  note : string
}.

Record BreachReport : Type := {
  report_email : string;
  total_breaches_found : nat;
  breach_sources : list string;
  risk_level : string;
  recommendations : list string;
  last_checked : option string
}.

Definition check_haveibeenpwned (email : string) : M (option BreachRecord) :=
  try_except
    (cfg <- get_config ;;
     user_agent <- random_choice (user_agents cfg) ;;
     let web_url := ("https://haveibeenpwned.com/account/" ++ email)%string in
     response <- session_get web_url [] ;;
     if (status response =? 200)%Z then
       content <- response_text web_url response ;;
       lower <- get_lower ;;
       if existsb (fun indicator => Text.contains indicator (lower content))
            ["pwned"; "breach"; "found"]
       then ret (Some {| source := "Have I Been Pwned"; email := email;
                         found := true; breaches := Some [];
                         record_url := Some web_url;
                         note := "Manual verification required - automated checking requires API key" |})
       else ret None
     else ret None)
    (fun _ => ret None).

(** No request is made: after the headers are built the placeholder is
    returned. *)
Definition check_breachdirectory (email : string) : M (option BreachRecord) :=
  try_except
    (cfg <- get_config ;;
     user_agent <- random_choice (user_agents cfg) ;;
     ret (Some {| source := "Breach Directory"; email := email;
                  found := false; breaches := None; record_url := None;
                  note := "Manual check required at https://breachdirectory.org/" |}))
    (fun _ => ret None).

Definition check_local_breach_files (email : string) : M (list BreachRecord) :=
  ret [].

Definition check_pastebins (email : string) : M (list BreachRecord) :=
  ret [].

Definition check_social_media_breaches (email : string) : M (list BreachRecord) :=
  ret [].

Definition generate_breach_report (email : string) (results : list BreachRecord)
  : BreachReport :=
  match results with
  | [] =>
      {| report_email := email; total_breaches_found := length results;
         breach_sources := []; risk_level := "Unknown";
         recommendations := []; last_checked := None |}
  | _ :: _ =>
      {| report_email := email; total_breaches_found := length results;
         breach_sources := map source results;
         risk_level :=
           if Nat.leb 5 (length results) then "High"
           else if Nat.leb 2 (length results) then "Medium"
           else if Nat.leb 1 (length results) then "Low"
           else "Clean";
         recommendations :=
           [ "Change passwords for all accounts associated with this email";
             "Enable two-factor authentication where possible";
             "Monitor accounts for suspicious activity";
             "Consider using a password manager";
             "Check credit reports for unauthorized accounts" ];
         last_checked := None |}
  end.

(** The loop of [check_breaches] over the awaited checks.  The pause after
    each check stands inside the same [try]: when it raises, the result is
    appended already and the handler only logs, so it changes nothing that
    the loop hands on and is left out. *)
Fixpoint run_checks (checks : list (M (option BreachRecord)))
  (results : list BreachRecord) : M (list BreachRecord) :=
  match checks with
  | [] => ret results
  | check :: rest =>
      results' <-
        try_except
          (result <- check ;;
           match result with
           | Some r => ret (results ++ [r])
           | None => ret results
           end)
          (fun _ => ret results) ;;
      run_checks rest results'
  end.

Definition check_breaches (email : string) : M BreachReport :=
  s <- get_session ;;
  match s with None => create_session | Some _ => ret tt end ;;;
  try_finally
    (results <- run_checks [check_haveibeenpwned email; check_breachdirectory email] [] ;;
     local_results <- check_local_breach_files email ;;
     paste_results <- check_pastebins email ;;
     social_results <- check_social_media_breaches email ;;
     let results := results ++ local_results ++ paste_results ++ social_results in
     ret (generate_breach_report email results))
    (try_except close_session (fun _ => ret tt)).



End BreachChecker.

(** ** Vocabulary of the properties *)

(** The state a freshly constructed engine starts from: no session, nothing
    sent, nothing opened; texts are Latin-1. *)
Definition start (cfg : Config) (net : nat -> string -> exn + Response)
  (closing : nat -> option exn) (rnd : nat -> nat) : State :=
  {| config := cfg; session := None; network := net; close_raises := closing;
     entropy := rnd; str_lower := Text.lower;
     draws := 0; sent := 0; opened := 0; trace := [] |}.

(** The same state under another [str.lower]. *)
Definition with_lower (lower : string -> string) (st : State) : State :=
  {| config := config st; session := session st; network := network st;
     close_raises := close_raises st; entropy := entropy st;
     str_lower := lower;
     draws := draws st; sent := sent st; opened := opened st;
     trace := trace st |}.


(** Requests and body reads only, every request through session [s]. *)
Definition through (s : nat) (e : Event) : Prop :=
  match e with
  | Get s' _ => s' = s
  | ReadBody _ => True
  | _ => False
  end.

Fixpoint sessions_opened (events : list Event) : nat :=
  match events with
  | [] => 0
  | Opened _ :: rest => S (sessions_opened rest)
  | _ :: rest => sessions_opened rest
  end.

(** The URLs requested, in order. *)
Fixpoint requested (events : list Event) : list string :=
  match events with
  | [] => []
  | Get _ u :: rest => u :: requested rest
  | _ :: rest => requested rest
  end.

(** Classification by content: some positive indicator matches the body and
    no negative one does, a match being the test of the source - the
    indicator, lowercased, occurs in the lowercased body. *)
Definition hit (lower : string -> string) (pd : PlatformData)
  (content : string) : Prop :=
  (exists ind, In ind (indicators pd) /\ Text.matches lower content ind = true)
  /\ (forall ind, In ind (not_found_indicators pd) ->
                  Text.matches lower content ind = false).

(** The same on the specification's notion of a match. *)
Definition ci_hit (lower : string -> string) (pd : PlatformData)
  (content : string) : Prop :=
  (exists ind, In ind (indicators pd) /\ Text.ci_substring lower ind content)
  /\ (forall ind, In ind (not_found_indicators pd) ->
                  ~ Text.ci_substring lower ind content).

(** What stands behind a result that reports [exists]: the request of the
    probe was answered with status 200 and a body that is a hit. *)
Definition evidence (st : State) (username : string) (pd : PlatformData)
  (r : ProbeResult) : Prop :=
  r_status_code r = Some 200%Z /\ r_error r = None
  /\ exists request_url response content,
       format (check_url pd) username = inr request_url
       /\ network st (sent st) request_url = inr response
       /\ status response = 200%Z
       /\ text response = inr content
       /\ hit (str_lower st) pd content.

(** The state of a probe once its request went out through session [s]. *)
Definition after_get (st : State) (s : Session) (request_url : string) : State :=
  record (Get (sid s) request_url) (tick_sent (tick_draws st)).

(** ... and once the body was read as well. *)
Definition after_read (st : State) (s : Session) (request_url : string) : State :=
  record (ReadBody request_url) (after_get st s request_url).

(** Configuration and outside world are the same in both states. *)
Definition same_setup (st st' : State) : Prop :=
  config st' = config st /\ network st' = network st
  /\ close_raises st' = close_raises st /\ entropy st' = entropy st
  /\ str_lower st' = str_lower st.

(** From [st] to [st'] only probes ran: the session is untouched and the
    events [delta] were added, all of them requests through it. *)
Definition probes_only (st st' : State) (delta : list Event) : Prop :=
  same_setup st st' /\ session st' = session st /\ opened st' = opened st
  /\ trace st' = trace st ++ delta
  /\ forall s, session st = Some s -> Forall (through (sid s)) delta.

(** What [gather] holds for one platform: the dict of that platform, which
    reports [exists] only without an error and with status 200, or - when even
    the profile URL cannot be formed - the exception of [format]. *)
Definition probe_outcome (username : string) (entry : string * PlatformData)
  (o : exn + ProbeResult) : Prop :=
  match o with
  | inr r =>
      r_platform r = fst entry /\ r_username r = username
      /\ (r_exists r = true -> r_status_code r = Some 200%Z /\ r_error r = None)
  | inl e => format (url (snd entry)) username = inl e
  end.

(** The state in which the batch of a hunt starts: the open session is kept,
    a missing one is created, which fails on an empty user-agent pool. *)
Definition prepared (st : State) : option State :=
  match session st with
  | Some _ => Some st
  | None =>
      match user_agents (config st) with
      | [] => None
      | x :: _ =>
          Some (set_session
                  (Some {| sid := opened st;
                           total_timeout := timeout (config st);
                           limit := max_workers (config st);
                           ssl := verify_ssl (config st);
                           default_user_agent :=
                             nth (entropy st (draws st)
                                  mod length (user_agents (config st)))
                                 (user_agents (config st)) x |})
                  (record (Opened (opened st)) (tick_opened (tick_draws st))))
      end
  end.

(** The state a hunt leaves behind: the session closed and forgotten, or -
    when closing raised - still in place. *)
Definition released (st : State) : State :=
  match session st with
  | None => st
  | Some s =>
      match close_raises st (sid s) with
      | Some _ => record (CloseFailed (sid s)) st
      | None => set_session None (record (Closed (sid s)) st)
      end
  end.

(** The frame of every operation of the engines: a session is made sure of,
    the body runs, and the session is closed on the way out, a failure of the
    close being logged only. *)
Definition framed {A} (body : M A) : M A :=
  s <- get_session ;;
  match s with None => create_session | Some _ => ret tt end ;;;
  try_finally body (try_except close_session (fun _ => ret tt)).

(** [hunt_username] and [hunt_platforms]: the frame around a batch whose
    outcomes are cut down to the results that report [exists]. *)
Definition hunt_with (batch : M (list (exn + ProbeResult)))
  : M (list ProbeResult) :=
  framed (results <- batch ;; ret (valid_results results)).

(** The task loop and the [gather] of a hunt, over the probe of the engine. *)
Definition batch_of (probe : string -> string -> PlatformData -> M ProbeResult)
  (username : string) (selected : dict PlatformData)
  : M (list (exn + ProbeResult)) :=
  gather (map (fun entry => probe username (fst entry) (snd entry)) selected).


(** The requests among [delta] go to the check URLs of the selected
    platforms. *)
Definition aimed_at (username : string) (selected : dict PlatformData)
  (delta : list Event) : Prop :=
  forall u, In u (requested delta) ->
  exists entry, In entry selected
                /\ format (check_url (snd entry)) username = inr u.

(** Every key of the adult list is in the dict. *)
Definition has_keys (d : dict PlatformData) (keys : list string) : Prop :=
  forall key, In key keys -> dict_get d key <> None.

(** ** Concrete inputs

    The platform of the specification's scenarios, networks that answer every
    request the same way, and an engine state with the default
    configuration. *)

Definition x_test : PlatformData :=
  {| url := "https://x.test/{}"; check_url := "https://x.test/{}";
     indicators := ["profile"]; not_found_indicators := ["not found"] |}.

(** Every request is answered with this status and this body. *)
Definition reply (code : Z) (body : exn + string)
  : nat -> string -> exn + Response :=
  fun _ _ => inr {| status := code; text := body |}.

(** Every request fails with this exception. *)
Definition refuse (e : exn) : nat -> string -> exn + Response :=
  fun _ _ => inl e.

Definition lab (net : nat -> string -> exn + Response) : State :=
  start default_config net (fun _ => None) (fun _ => 0).

Definition lab_session : Session :=
  {| sid := 0; total_timeout := 10; limit := 50; ssl := true;
     default_user_agent := "Mozilla/5.0 (X11; Linux x86_64)" |}.

(** The same with session 0 already open, as a probe finds it. *)
Definition lab_open (net : nat -> string -> exn + Response) : State :=
  set_session (Some lab_session) (record (Opened 0) (tick_opened (lab net))).

(** The same engine where closing a session always fails. *)
Definition lab_stuck (net : nat -> string -> exn + Response) : State :=
  start default_config net
    (fun _ => Some (Exception "Session is closed")) (fun _ => 0).

(** An engine whose configuration file emptied the user-agent pool. *)
Definition lab_without_agents (net : nat -> string -> exn + Response) : State :=
  start {| user_agents := []; timeout := 10; max_workers := 50;
           verify_ssl := true; delay_between_requests := Number |}
    net (fun _ => None) (fun _ => 0).

(** Text beyond Latin-1, by the bytes of its UTF-8 encoding. *)
Definition utf8 (bytes : list nat) : string :=
  fold_right (fun b rest => String (ascii_of_nat b) rest) EmptyString bytes.

(** The Greek capitals alpha (U+0391) and sigma (U+03A3), the small alpha
    (U+03B1) and the two small sigmas: the one inside a word (U+03C3) and the
    one that ends it (U+03C2). *)
Definition capital_alpha : string := utf8 [206; 145].
Definition capital_sigma : string := utf8 [206; 163].
Definition small_alpha : string := utf8 [206; 177].
Definition small_sigma : string := utf8 [207; 131].
Definition final_sigma : string := utf8 [207; 130].

(** [str.lower] on UTF-8 text, for ASCII and the two Greek words of the
    scenario below: a capital sigma that ends a word becomes the final
    sigma, any other one the plain small sigma. *)
Definition lower_greek (s : string) : string :=
  if String.eqb s (capital_alpha ++ capital_sigma ++ capital_alpha)
  then (small_alpha ++ small_sigma ++ small_alpha)%string
  else if String.eqb s (capital_alpha ++ capital_sigma)
  then (small_alpha ++ final_sigma)%string
  else Text.lower_ascii s.

(** A platform whose one indicator is the word alpha-sigma. *)
Definition greek_test : PlatformData :=
  {| url := "https://x.test/{}"; check_url := "https://x.test/{}";
     indicators := [(capital_alpha ++ capital_sigma)%string];
     not_found_indicators := [] |}.

(** The engine with session 0 open, on UTF-8 text. *)
Definition lab_greek (net : nat -> string -> exn + Response) : State :=
  with_lower lower_greek (lab_open net).

(** A username hunter whose four catalogs are empty. *)
Definition bare_hunter : UsernameHunter.Self :=
  {| UsernameHunter.general_sites := [];
     UsernameHunter.developer_platforms := [];
     UsernameHunter.forums := [];
     UsernameHunter.gaming_platforms := [] |}.

(** ** More of [str]: split, strip, slices *)

Module Str.

(** [s.split(sep)] for a separator of one character: never empty. *)
Fixpoint split (sep : ascii) (s : string) : list string :=
  match s with
  | EmptyString => [EmptyString]
  | String c rest =>
      if Ascii.eqb c sep then EmptyString :: split sep rest
      else match split sep rest with
           | [] => [String c EmptyString]
           | first :: others => String c first :: others
           end
  end.

(** [c.isspace()] below 256: tab to carriage return, the four separators
    0x1C-0x1F, the space, NEL and the no-break space. *)
Definition is_space (c : ascii) : bool :=
  let n := nat_of_ascii c in
  (Nat.leb 9 n && Nat.leb n 13) || (Nat.leb 28 n && Nat.leb n 32)
  || Nat.eqb n 133 || Nat.eqb n 160.

Fixpoint lstrip (s : string) : string :=
  match s with
  | EmptyString => EmptyString
  | String c rest => if is_space c then lstrip rest else s
  end.

Fixpoint rstrip (s : string) : string :=
  match s with
  | EmptyString => EmptyString
  | String c rest =>
      match rstrip rest with
      | EmptyString => if is_space c then EmptyString else String c EmptyString
      | kept => String c kept
      end
  end.

(** [s.strip()] *)
Definition strip (s : string) : string := rstrip (lstrip s).

(** [s[n:]] *)
Fixpoint drop (n : nat) (s : string) : string :=
  match n, s with
  | O, _ => s
  | S _, EmptyString => EmptyString
  | S n', String _ rest => drop n' rest
  end.

(** [c in chars] for a character *)
Fixpoint has_char (c : ascii) (chars : list ascii) : bool :=
  match chars with
  | [] => false
  | d :: rest => Ascii.eqb c d || has_char c rest
  end.

Fixpoint all_chars (p : ascii -> bool) (s : string) : bool :=
  match s with
  | EmptyString => true
  | String c rest => p c && all_chars p rest
  end.

(** The characters of [s] that [p] rejects, in order. *)
Fixpoint without (p : ascii -> bool) (s : string) : string :=
  match s with
  | EmptyString => EmptyString
  | String c rest => if p c then without p rest else String c (without p rest)
  end.

Fixpoint count (c : ascii) (s : string) : nat :=
  match s with
  | EmptyString => 0
  | String d rest => (if Ascii.eqb c d then 1 else 0) + count c rest
  end.

End Str.

(** ** Regular expressions, as far as the validators use them *)

Module Regex.

Inductive regex : Type :=
| Never
| Eps
| Class (p : ascii -> bool)
| Seq (r1 r2 : regex)
| Alt (r1 r2 : regex)
| Star (r : regex).

Fixpoint nullable (r : regex) : bool :=
  match r with
  | Never => false
  | Eps => true
  | Class _ => false
  | Seq r1 r2 => nullable r1 && nullable r2
  | Alt r1 r2 => nullable r1 || nullable r2
  | Star _ => true
  end.

(** What is left of [r] once the character [c] has been read. *)
Fixpoint deriv (c : ascii) (r : regex) : regex :=
  match r with
  | Never => Never
  | Eps => Never
  | Class p => if p c then Eps else Never
  | Seq r1 r2 =>
      if nullable r1 then Alt (Seq (deriv c r1) r2) (deriv c r2)
      else Seq (deriv c r1) r2
  | Alt r1 r2 => Alt (deriv c r1) (deriv c r2)
  | Star r1 => Seq (deriv c r1) (Star r1)
  end.

(** The whole of [s] matches [r]. *)
Fixpoint fullmatch (r : regex) (s : string) : bool :=
  match s with
  | EmptyString => nullable r
  | String c rest => fullmatch (deriv c r) rest
  end.

(** [r+], [r?], [r{2,}] and [r{0,n}] *)
Definition plus (r : regex) : regex := Seq r (Star r).

Definition opt (r : regex) : regex := Alt Eps r.

Definition two_or_more (r : regex) : regex := Seq r (Seq r (Star r)).

Fixpoint up_to (n : nat) (r : regex) : regex :=
  match n with
  | O => Eps
  | S n' => opt (Seq r (up_to n' r))
  end.

(** [s] without the newline it ends with, if it ends with one. *)
Fixpoint chop_newline (s : string) : option string :=
  match s with
  | EmptyString => None
  | String c rest =>
      match rest with
      | EmptyString => if Ascii.eqb c "010" then Some EmptyString else None
      | String _ _ =>
          match chop_newline rest with
          | Some kept => Some (String c kept)
          | None => None
          end
      end
  end.

(** [re.match('^' r '$', s) is not None]: the dollar matches at the end of
    the string and also just before a newline that ends it. *)
Definition match_line (r : regex) (s : string) : bool :=
  fullmatch r s
  || match chop_newline s with
     | Some kept => fullmatch r kept
     | None => false
     end.

(** The language of [r]. *)
Inductive Matches : regex -> string -> Prop :=
| MEps : Matches Eps EmptyString
| MClass p c : p c = true -> Matches (Class p) (String c EmptyString)
| MSeq r1 r2 s1 s2 :
    Matches r1 s1 -> Matches r2 s2 -> Matches (Seq r1 r2) (s1 ++ s2)%string
| MAltL r1 r2 s : Matches r1 s -> Matches (Alt r1 r2) s
| MAltR r1 r2 s : Matches r2 s -> Matches (Alt r1 r2) s
| MStarNil r : Matches (Star r) EmptyString
| MStarApp r s1 s2 :
    Matches r s1 -> Matches (Star r) s2 -> Matches (Star r) (s1 ++ s2)%string.

End Regex.

(** ** [Validator] ([utils/validator.py]) *)

Module Validator.

Definition in_range (lo hi : nat) (c : ascii) : bool :=
  Nat.leb lo (nat_of_ascii c) && Nat.leb (nat_of_ascii c) hi.

(** [a-zA-Z] and [0-9] *)
Definition letter (c : ascii) : bool := in_range 97 122 c || in_range 65 90 c.

Definition digit (c : ascii) : bool := in_range 48 57 c.

(** [[a-zA-Z0-9._%+-]] *)
Definition local_char (c : ascii) : bool :=
  letter c || digit c || Str.has_char c ["."; "_"; "%"; "+"; "-"]%char.

(** [[a-zA-Z0-9.-]] *)
Definition host_char (c : ascii) : bool :=
  letter c || digit c || Str.has_char c ["."; "-"]%char.

(** [[a-zA-Z0-9._-]] *)
Definition username_char (c : ascii) : bool :=
  letter c || digit c || Str.has_char c ["."; "_"; "-"]%char.

(** [[a-zA-Z0-9]] and [[a-zA-Z0-9-]] *)
Definition alnum (c : ascii) : bool := letter c || digit c.

Definition label_char (c : ascii) : bool :=
  letter c || digit c || Ascii.eqb c "-".

Definition is_char (d c : ascii) : bool := Ascii.eqb c d.

(** [^[a-zA-Z0-9._%+-]+@[a-zA-Z0-9.-]+\.[a-zA-Z]{2,}$] *)
Definition email_pattern : Regex.regex :=
  Regex.Seq (Regex.plus (Regex.Class local_char))
    (Regex.Seq (Regex.Class (is_char "@"))
       (Regex.Seq (Regex.plus (Regex.Class host_char))
          (Regex.Seq (Regex.Class (is_char "."))
             (Regex.two_or_more (Regex.Class letter))))).

(** [^[a-zA-Z0-9._-]+$] *)
Definition username_pattern : Regex.regex :=
  Regex.plus (Regex.Class username_char).

(** [^(?:[a-zA-Z0-9](?:[a-zA-Z0-9-]{0,61}[a-zA-Z0-9])?\.)+[a-zA-Z]{2,}$] *)
Definition domain_pattern : Regex.regex :=
  Regex.Seq
    (Regex.plus
       (Regex.Seq (Regex.Class alnum)
          (Regex.Seq
             (Regex.opt
                (Regex.Seq (Regex.up_to 61 (Regex.Class label_char))
                   (Regex.Class alnum)))
             (Regex.Class (is_char ".")))))
    (Regex.two_or_more (Regex.Class letter)).

Definition is_valid_email (email : string) : bool :=
  if String.eqb email EmptyString then false
  else Regex.match_line email_pattern (Str.strip email).

Definition is_valid_username (username : string) : bool :=
  if String.eqb username EmptyString then false
  else
    let username := Str.strip username in
    if Nat.ltb (String.length username) 1 || Nat.ltb 50 (String.length username)
    then false
    else Regex.match_line username_pattern username.

Definition is_valid_domain (domain : string) : bool :=
  if String.eqb domain EmptyString then false
  else Regex.match_line domain_pattern (Str.strip domain).

(** The characters [re.sub] takes out: angle brackets, both quotes, the
    semicolon and the backslash. *)
Definition stripped_chars : list ascii :=
  ["<"; ">"; ascii_of_nat 34; "'"; ";"; ascii_of_nat 92]%char.

Definition sanitize_input (input_str : string) : string :=
  Str.without (fun c => Str.has_char c stripped_chars) (Str.strip input_str).

Definition validate_file_path (file_path : string) : bool :=
  if String.eqb file_path EmptyString then false
  else if Text.contains ".." file_path || Text.startswith "/" file_path then false
  else Nat.ltb 0 (String.length file_path)
       && Nat.ltb (String.length file_path) 255.

Definition validate_output_format (format_str : string) : bool :=
  Text.in_list (Text.lower format_str) ["json"; "csv"; "txt"; "xml"].

Definition dangerous_chars : list string :=
  ["<"; ">"; ":"; String (ascii_of_nat 34) EmptyString; "|"; "?"; "*";
   String (ascii_of_nat 92) EmptyString; "/"].

Definition is_safe_filename (filename : string) : bool :=
  if String.eqb filename EmptyString then false
  else negb (existsb (fun char => Text.contains char filename) dangerous_chars).

(** One pass over the prefixes, each taken off at most once. *)
Definition remove_prefixes (prefixes : list string) (normalized : string)
  : string :=
  fold_left
    (fun normalized prefix =>
       if Text.startswith prefix normalized
       then Str.drop (String.length prefix) normalized
       else normalized)
    prefixes normalized.

Definition normalize_username (username : string) : string :=
  if String.eqb username EmptyString then EmptyString
  else remove_prefixes ["@"; "user:"; "username:"]
         (Str.strip (Text.lower username)).

Definition normalize_email (email : string) : string :=
  if String.eqb email EmptyString then EmptyString
  else
    let normalized := Str.strip (Text.lower email) in
    if Text.startswith "mailto:" normalized then Str.drop 7 normalized
    else normalized.

(** What opening and reading the file of targets came to. *)
Inductive reading : Type :=
| NotFound                        (* FileNotFoundError *)
| Failed (msg : string)           (* any other exception, with its text *)
| Lines (lines : list string).    (* the lines, as iteration yields them *)

(** The body of the loop of [validate_targets_from_file] for one line. *)
Definition target_of_line (line : string) : option string :=
  let line := Str.strip line in
  if String.eqb line EmptyString || Text.startswith "#" line then None
  else if Text.contains "@" line then
    if is_valid_email line then Some line else None
  else
    if is_valid_username line then Some line else None.

Fixpoint valid_targets (lines : list string) : list string :=
  match lines with
  | [] => []
  | line :: rest =>
      match target_of_line line with
      | Some target => target :: valid_targets rest
      | None => valid_targets rest
      end
  end.

Definition validate_targets_from_file (file_path : string) (file : reading)
  : exn + list string :=
  match file with
  | NotFound => inl (Exception ("File not found: " ++ file_path)%string)
  | Failed msg =>
      inl (Exception ("Error reading file " ++ file_path ++ ": " ++ msg)%string)
  | Lines lines => inr (valid_targets lines)
  end.

End Validator.

(** ** [Config]: the configuration file ([core/config.py]) *)

Module ConfigFile.

(** What [json.load] yields and [json.dump] writes.  A float is kept as its
    text. *)
#[warnings="-register-all"]
Inductive json : Type :=
| JNull
| JBool (b : bool)
| JInt (n : Z)
| JFloat (repr : string)
| JStr (s : string)
| JList (items : list json)
| JDict (items : list (string * json)).

Definition strs (items : list string) : json := JList (map JStr items).

Definition default_items : dict json :=
  [ ("user_agents", strs (user_agents default_config));
    ("timeout", JInt 10);
    ("max_workers", JInt 50);
    ("delay_between_requests", JFloat "0.1");
    ("max_retries", JInt 3);
    ("verify_ssl", JBool true);
    ("proxy", JDict [("enabled", JBool false); ("http", JNull); ("https", JNull)]);
    ("output", JDict [("default_format", JStr "json");
                      ("save_screenshots", JBool false);
                      ("include_metadata", JBool true)]);
    ("social_media",
     JDict [("enabled", JBool true);
            ("platforms",
             strs ["twitter"; "instagram"; "facebook"; "linkedin"; "github";
                   "youtube"; "tiktok"; "snapchat"; "pinterest"; "reddit";
                   "discord"; "telegram"; "whatsapp"; "spotify"; "twitch"])]);
    ("developer_platforms",
     JDict [("enabled", JBool true);
            ("platforms",
             strs ["github"; "gitlab"; "bitbucket"; "stackoverflow"; "hackerone";
                   "bugcrowd"; "codepen"; "replit"; "devto"; "hackernoon";
                   "medium"; "kaggle"; "dockerhub"; "npm"; "pypi"])]);
    ("gaming_platforms",
     JDict [("enabled", JBool true);
            ("platforms",
             strs ["steam"; "xbox"; "playstation"; "nintendo"; "epic";
                   "twitch"; "discord"; "battlenet"; "origin"; "uplay"])]);
    ("breach_check",
     JDict [("enabled", JBool true);
            ("sources",
             strs ["haveibeenpwned"; "dehashed"; "intelx"; "breachdirectory"])]) ].

Definition type_name (v : json) : string :=
  match v with
  | JNull => "NoneType"
  | JBool _ => "bool"
  | JInt _ => "int"
  | JFloat _ => "float"
  | JStr _ => "str"
  | JList _ => "list"
  | JDict _ => "dict"
  end.

(** [k in container], for a string [k] *)
Definition contains (container : json) (k : string) : exn + bool :=
  match container with
  | JDict items =>
      inr match dict_get items k with Some _ => true | None => false end
  | JStr s => inr (Text.contains k s)
  | JList items =>
      inr (existsb (fun item => match item with
                                | JStr s => String.eqb s k
                                | _ => false
                                end) items)
  | _ => inl (Exception ("argument of type '" ++ type_name container
                         ++ "' is not iterable")%string)
  end.

(** [container[k]], for a string [k] *)
Definition getitem (container : json) (k : string) : exn + json :=
  match container with
  | JDict items =>
      match dict_get items k with
      | Some v => inr v
      | None => inl (Exception ("'" ++ k ++ "'")%string)
      end
  | JStr _ => inl (Exception "string indices must be integers, not 'str'")
  | JList _ =>
      inl (Exception "list indices must be integers or slices, not str")
  | _ => inl (Exception ("'" ++ type_name container
                         ++ "' object is not subscriptable")%string)
  end.

(** [container[k] = value], for a string [k] *)
Definition setitem (container : json) (k : string) (value : json)
  : exn + json :=
  match container with
  | JDict items => inr (JDict (dict_set items k value))
  | JList _ =>
      inl (Exception "list indices must be integers or slices, not str")
  | _ => inl (Exception ("'" ++ type_name container
                         ++ "' object does not support item assignment")%string)
  end.

(** The loop of [get]: [None] where the source returns the default. *)
Fixpoint walk (value : json) (keys : list string) : option json :=
  match keys with
  | [] => Some value
  | k :: rest =>
      match value with
      | JDict items =>
          match dict_get items k with
          | Some v => walk v rest
          | None => None
          end
      | _ => None
      end
  end.

Definition get (config : json) (key : string) (default : json) : json :=
  match walk config (Str.split "." key) with
  | Some v => v
  | None => default
  end.

(** The loop of [set] and its last assignment.  The dicts are updated in
    place in the source; here the updated child is put back into its parent,
    which is a dict whenever the subscript before succeeded.  A value is a
    tree of its own: a dict that [set] is handed while it is part of the
    configuration already would be shared by the two places from then on,
    which a tree does not show.  A configuration as [load_config] returns it
    shares nothing. *)
Fixpoint store (config : json) (keys : list string) (value : json)
  : exn + json :=
  match keys with
  | [] => inl (Exception "list index out of range")
  | [k] => setitem config k value
  | k :: rest =>
      match contains config k with
      | inl e => inl e
      | inr present =>
          match (if present then inr config else setitem config k (JDict [])) with
          | inl e => inl e
          | inr config1 =>
              match getitem config1 k with
              | inl e => inl e
              | inr child =>
                  match store child rest value with
                  | inl e => inl e
                  | inr child' => setitem config1 k child'
                  end
              end
          end
      end
  end.

(** The file at [self.config_file]. *)
Inductive file_state : Type :=
| Absent
| NotJSON                     (* text that json.load rejects *)
| Unusable (raised : exn)     (* cannot be opened, or its bytes not decoded *)
| Holds (document : json).

Record Self : Type := {
  config_file : file_state;
  config : json
}.

(** [{**defaults, **loaded}] *)
Definition merge (defaults loaded : dict json) : dict json :=
  fold_left (fun merged entry => dict_set merged (fst entry) (snd entry))
    loaded defaults.

(** [load_config]: the configuration and what the file holds afterwards.
    The [except] clause names JSONDecodeError (and FileNotFoundError) only:
    a file that [open] refuses or whose bytes are no text raises through,
    and so does the TypeError of the merge when the document is not an
    object.  Where the defaults are saved, the file is taken to be
    writable. *)
Definition load_config (file : file_state) : exn + (json * file_state) :=
  match file with
  | Holds (JDict loaded) => inr (JDict (merge default_items loaded), file)
  | Holds other =>
      inl (Exception ("'" ++ type_name other
                      ++ "' object is not a mapping")%string)
  | Unusable raised => inl raised
  | NotJSON => inr (JDict default_items, Holds (JDict default_items))
  | Absent => inr (JDict default_items, Holds (JDict default_items))
  end.

(** [Config(config_file)] *)
Definition init (file : file_state) : exn + Self :=
  match load_config file with
  | inl e => inl e
  | inr (loaded, file') => inr {| config_file := file'; config := loaded |}
  end.

(** [save_config()] with no argument.  The file is taken to be writable:
    [open] for writing does not raise. *)
Definition save_config (self : Self) : Self :=
  {| config_file := Holds (config self); config := config self |}.

(** [set]: when the walk raises, nothing has been changed and nothing is
    saved. *)
Definition set (self : Self) (key : string) (value : json) : exn + Self :=
  match store (config self) (Str.split "." key) value with
  | inl e => inl e
  | inr config' =>
      inr (save_config {| config_file := config_file self; config := config' |})
  end.

Definition user_agents (self : Self) : json :=
  get (config self) "user_agents" (JList []).

Definition timeout (self : Self) : json := get (config self) "timeout" (JInt 10).

Definition max_workers (self : Self) : json :=
  get (config self) "max_workers" (JInt 50).

Definition delay_between_requests (self : Self) : json :=
  get (config self) "delay_between_requests" (JFloat "0.1").

Definition max_retries (self : Self) : json :=
  get (config self) "max_retries" (JInt 3).

(** Vocabulary of the properties of the configuration. *)

Definition is_dict (v : json) : bool :=
  match v with
  | JDict _ => true
  | _ => false
  end.

(** An object none of whose keys is there twice. *)
Definition top_level_unique (c : json) : Prop :=
  exists items, c = JDict items /\ NoDup (map fst items).


End ConfigFile.

(** ** [EmailHunter.analyze_domain] ([engines/email_hunter.py]) *)

Module EmailHunter.

Record DomainInfo : Type := {
  domain : string;
  mx_records : list string;
  a_records : list string;
  ns_records : list string;
  txt_records : list string;
  is_disposable : bool;
  is_corporate : bool;
  domain_age : option string;
  registrar : option string
}.

Definition disposable_domains : list string :=
  [ "10minutemail.com"; "temp-mail.org"; "guerrillamail.com";
    "mailinator.com"; "yopmail.com"; "tempmail.net" ].

Definition free_providers : list string :=
  [ "gmail.com"; "yahoo.com"; "hotmail.com"; "outlook.com";
    "aol.com"; "icloud.com"; "protonmail.com" ].

(** [email.split('@')[1] if '@' in email else email] *)
Definition domain_of (email : string) : string :=
  if Text.contains "@" email
  then nth 1 (Str.split "@" email) EmptyString
  else email.

(** One lookup under its bare [except]: the records as text, or nothing. *)
Definition records (resolve : string -> string -> option (list string))
  (domain kind : string) : list string :=
  match resolve domain kind with
  | Some found => found
  | None => []
  end.

(** [analyze_domain], over what [dns.resolver.resolve] does: for a name and
    a record type, the answers as text, or [None] when it raises. *)
Definition analyze_domain (resolve : string -> string -> option (list string))
  (email : string) : DomainInfo :=
  let domain := domain_of email in
  let disposable := Text.in_list domain disposable_domains in
  {| domain := domain;
     mx_records := records resolve domain "MX";
     a_records := records resolve domain "A";
     ns_records := records resolve domain "NS";
     txt_records := records resolve domain "TXT";
     is_disposable := disposable;
     is_corporate := negb (Text.in_list domain free_providers) && negb disposable;
     domain_age := None;
     registrar := None |}.

End EmailHunter.

(** ** Vocabulary of the further properties *)

(** The page Have I Been Pwned serves for the address is answered with
    status 200 and, lowercased, holds one of the three words. *)
Definition hibp_page_matches (st : State) (email : string) : bool :=
  match network st (sent st)
          ("https://haveibeenpwned.com/account/" ++ email)%string with
  | inl _ => false
  | inr response =>
      (status response =? 200)%Z
      && match text response with
         | inl _ => false
         | inr content =>
             existsb (fun indicator =>
                        Text.contains indicator (str_lower st content))
               ["pwned"; "breach"; "found"]
         end
  end.

(** A template whose only replacement field is [{}]: an opening brace is
    followed by another one or by a closing one.  These are the templates
    on which [format] follows [str.format] to the letter; every template of
    the catalogs is one. *)
Fixpoint plain_template (tmpl : string) : bool :=
  match tmpl with
  | EmptyString => true
  | String c rest =>
      if Ascii.eqb c "{" then
        match rest with
        | EmptyString => true
        | String d rest' =>
            (Ascii.eqb d "{" || Ascii.eqb d "}") && plain_template rest'
        end
      else plain_template rest
  end.

(** The check URLs of the platforms are plain templates. *)
Definition plain_scope (platforms : dict PlatformData) : bool :=
  forallb (fun entry => plain_template (check_url (snd entry))) platforms.

(** The requests of a batch over [platforms] none of whose probes is kept
    from sending: one per platform, in order, to its check URL; a platform
    whose check URL cannot be formed gets none. *)
Definition check_urls (username : string) (platforms : dict PlatformData)
  : list string :=
  flat_map (fun entry =>
              match format (check_url (snd entry)) username with
              | inr request_url => [request_url]
              | inl _ => []
              end)
    platforms.

(** A fact about every character of the 256, settled case by case. *)
Ltac every_char c :=
  destruct c as [[] [] [] [] [] [] [] []]; try reflexivity; try discriminate.
(** ** Tactics for running the monadic code *)

Ltac unfold_probe :=
  cbv beta delta [SocialMediaHunter.check_username_on_platform
                  UsernameHunter.check_username_on_platform
                  SocialMediaHunter.extract_additional_info
                  try_except bind lift get_config get_lower random_choice
                  session_get response_text ret].

Ltac state_simpl :=
  cbv beta iota zeta;
  cbn [config session network close_raises entropy str_lower draws sent
       opened trace tick_draws tick_sent tick_opened record set_session
       after_get after_read fst snd].

Ltac split_on t := destruct t eqn:?; state_simpl.

(** Case analysis along the control flow of a probe. *)
Ltac split_probe :=
  state_simpl;
  repeat match goal with
    | |- context [match format ?t ?u with inl _ => _ | inr _ => _ end] =>
        split_on (format t u)
    | |- context [match user_agents ?c with [] => _ | _ :: _ => _ end] =>
        split_on (user_agents c)
    | |- context [match session ?s with Some _ => _ | None => _ end] =>
        split_on (session s)
    | |- context [network ?s ?n ?u] => split_on (network s n u)
    | |- context [match text ?r with inl _ => _ | inr _ => _ end] =>
        split_on (text r)
    | |- context [Z.eqb ?a ?b] => split_on (Z.eqb a b)
    | |- context [if ?a && negb ?b then _ else _] =>
        destruct a eqn:?; destruct b eqn:?; cbn [andb negb]; state_simpl
    | |- context [match ?e with TimeoutError _ => _ | Exception _ => _ end] =>
        split_on e
    end.

(** ** Examples: the primitives on concrete inputs *)

Example format_profile_url :
  format "https://x.test/{}" "testuser123" = inr "https://x.test/testuser123".
Proof. reflexivity. Qed.

Example format_second_field_raises :
  format "https://{}.x.test/{}" "a"
  = inl (Exception "Replacement index 1 out of range for positional args tuple").
Proof. reflexivity. Qed.

Example lower_mixed : Text.lower "Page Not Found" = "page not found".
Proof. reflexivity. Qed.

Example contains_inner :
  Text.contains "not found" "sorry, page not found" = true.
Proof. reflexivity. Qed.

Example contains_empty : Text.contains EmptyString EmptyString = true.
Proof. reflexivity. Qed.

(** ** Text: on Latin-1 the test of the source is the case-insensitive one *)

Lemma lower_char_eqb a b :
  Ascii.eqb (Text.lower_char a) (Text.lower_char b) = true
  <-> Text.lower_char a = Text.lower_char b.
Proof. apply Ascii.eqb_eq. Qed.

Lemma startswith_lower ind body :
  Text.startswith (Text.lower ind) (Text.lower body) = true
  <-> exists mid post,
        body = (mid ++ post)%string /\ Text.lower mid = Text.lower ind.
Proof.
  revert body. induction ind as [|a ind IH]; intros body; simpl.
  - split; [intros _|reflexivity].
    exists EmptyString, body. split; reflexivity.
  - destruct body as [|b body]; simpl.
    + split; [discriminate|].
      intros (mid & post & Hb & Hm). destruct mid; discriminate.
    + rewrite andb_true_iff, lower_char_eqb, IH. split.
      * intros (Hc & mid & post & -> & Hm).
        exists (String b mid), post. split; [reflexivity|].
        simpl. now rewrite Hc, Hm.
      * intros (mid & post & Hb & Hm). destruct mid as [|c mid]; [discriminate|].
        simpl in Hb, Hm. injection Hb as -> ->. injection Hm as Hc Hm.
        split; [now symmetry|]. now exists mid, post.
Qed.

Lemma matches_spec body ind :
  Text.matches Text.lower body ind = true
  <-> Text.ci_substring Text.lower ind body.
Proof.
  unfold Text.matches, Text.ci_substring.
  induction body as [|b body IH].
  - simpl. rewrite orb_false_r.
    change EmptyString with (Text.lower EmptyString) at 1.
    rewrite startswith_lower. split.
    + intros (mid & post & Hb & Hm). now exists EmptyString, mid, post.
    + intros (pre & mid & post & Hb & Hm).
      destruct pre; [|discriminate]. now exists mid, post.
  - simpl Text.lower. cbn [Text.contains]. rewrite orb_true_iff, IH.
    change (String (Text.lower_char b) (Text.lower body))
      with (Text.lower (String b body)).
    rewrite startswith_lower. split.
    + intros [(mid & post & Hb & Hm)|(pre & mid & post & Hb & Hm)].
      * now exists EmptyString, mid, post.
      * exists (String b pre), mid, post. now rewrite Hb.
    + intros (pre & mid & post & Hb & Hm). destruct pre as [|c pre].
      * left. now exists mid, post.
      * right. simpl in Hb. injection Hb as -> ->. now exists pre, mid, post.
Qed.

(** What a list of indicators comes to under the test of the source. *)
Lemma any_matches body lower inds :
  existsb (Text.matches lower body) inds = true
  <-> exists ind, In ind inds /\ Text.matches lower body ind = true.
Proof. apply existsb_exists. Qed.

Lemma none_matches body lower inds :
  existsb (Text.matches lower body) inds = false
  <-> forall ind, In ind inds -> Text.matches lower body ind = false.
Proof.
  induction inds as [|i inds IH]; simpl.
  - split; [intros _ ind []|reflexivity].
  - rewrite orb_false_iff, IH. split.
    + intros [H1 H2] ind [<-|Hin]; auto.
    + intros H. split; [apply H; now left|]. intros ind Hin. apply H. now right.
Qed.

(** ** One probe *)

Lemma hit_spec lower pd content :
  existsb (Text.matches lower content) (indicators pd) = true ->
  existsb (Text.matches lower content) (not_found_indicators pd) = false ->
  hit lower pd content.
Proof.
  intros Hp Hn. split; [now apply any_matches|now apply none_matches].
Qed.

Lemma hit_decides lower pd content :
  existsb (Text.matches lower content) (indicators pd)
  && negb (existsb (Text.matches lower content) (not_found_indicators pd))
  = true
  <-> hit lower pd content.
Proof.
  rewrite andb_true_iff, negb_true_iff, any_matches, none_matches.
  reflexivity.
Qed.

(** On Latin-1 text the test of the source and the specification's notion
    agree. *)
Lemma hit_on_latin1 pd content :
  hit Text.lower pd content <-> ci_hit Text.lower pd content.
Proof.
  unfold hit, ci_hit. split; intros [(ind & Hin & Hm) Hn].
  - split; [exists ind; split; [assumption|now apply matches_spec]|].
    intros neg Hneg Hc. apply matches_spec in Hc.
    rewrite (Hn neg Hneg) in Hc. discriminate.
  - split; [exists ind; split; [assumption|now apply matches_spec]|].
    intros neg Hneg.
    destruct (Text.matches Text.lower content neg) eqn:E; [|reflexivity].
    apply matches_spec in E. now destruct (Hn neg Hneg).
Qed.

Lemma social_probe_evidence username platform pd st r st' :
  SocialMediaHunter.check_username_on_platform username platform pd st
    = (inr r, st') ->
  r_exists r = true -> evidence st username pd r.
Proof.
  unfold_probe. split_probe.
  all: try (intros [= <- <-]; cbn; try discriminate).
  all: try (intros; discriminate).
  intros _.
  match goal with H : (_ =? _)%Z = true |- _ => apply Z.eqb_eq in H end.
  unfold evidence. cbn. split; [congruence|]. split; [reflexivity|].
  eexists _, _, _. repeat (split; [eassumption|]). now apply hit_spec.
Qed.

Lemma username_probe_evidence username platform pd st r st' :
  UsernameHunter.check_username_on_platform username platform pd st
    = (inr r, st') ->
  r_exists r = true -> evidence st username pd r.
Proof.
  unfold_probe. split_probe.
  all: try (intros [= <- <-]; cbn; try discriminate).
  all: try (intros; discriminate).
  intros _.
  match goal with H : (_ =? _)%Z = true |- _ => apply Z.eqb_eq in H end.
  unfold evidence. cbn. split; [congruence|]. split; [reflexivity|].
  eexists _, _, _. repeat (split; [eassumption|]). now apply hit_spec.
Qed.

Section ProbeOfARequest.

Variables (st : State) (username platform : string) (pd : PlatformData).
Variables (s : Session) (request_url profile_url : string).

Hypothesis session_open : session st = Some s.
Hypothesis agents : user_agents (config st) <> [].
Hypothesis request_formed : format (check_url pd) username = inr request_url.
Hypothesis profile_formed : format (url pd) username = inr profile_url.

Ltac follow :=
  unfold_probe; state_simpl;
  rewrite ?request_formed, ?profile_formed;
  destruct (user_agents (config st)) eqn:?; [congruence|];
  state_simpl; rewrite ?session_open; state_simpl.

Lemma social_probe_200 response content :
  network st (sent st) request_url = inr response ->
  status response = 200%Z -> text response = inr content ->
  exists r,
    SocialMediaHunter.check_username_on_platform username platform pd st
      = (inr r, after_read st s request_url)
    /\ r_status_code r = Some 200%Z
    /\ r_exists r
       = existsb (Text.matches (str_lower st) content) (indicators pd)
         && negb (existsb (Text.matches (str_lower st) content) (not_found_indicators pd)).
Proof.
  intros Hn Hs Ht. follow. rewrite Hn. state_simpl. rewrite Ht, Hs.
  state_simpl. cbn [Z.eqb Pos.eqb].
  destruct (existsb _ (indicators pd) && _) eqn:E;
    eexists; (split; [reflexivity|]); cbn; auto.
Qed.

Lemma username_probe_200 response content :
  network st (sent st) request_url = inr response ->
  status response = 200%Z -> text response = inr content ->
  exists r,
    UsernameHunter.check_username_on_platform username platform pd st
      = (inr r, after_read st s request_url)
    /\ r_status_code r = Some 200%Z
    /\ r_exists r
       = existsb (Text.matches (str_lower st) content) (indicators pd)
         && negb (existsb (Text.matches (str_lower st) content) (not_found_indicators pd)).
Proof.
  intros Hn Hs Ht. follow. rewrite Hn. state_simpl. rewrite Ht, Hs.
  state_simpl. cbn [Z.eqb Pos.eqb].
  destruct (existsb _ (indicators pd) && _) eqn:E;
    eexists; (split; [reflexivity|]); cbn; auto.
Qed.

(** On a 404 whose body could be read, the body and the indicators play no
    part in the result. *)
Lemma social_probe_404 response content :
  network st (sent st) request_url = inr response ->
  status response = 404%Z -> text response = inr content ->
  SocialMediaHunter.check_username_on_platform username platform pd st
  = (inr {| r_platform := platform; r_username := username;
            r_url := profile_url; r_exists := false;
            r_status_code := Some 404%Z; r_response_time := Some 0%Z;
            r_additional_info := Some []; r_error := None |},
     after_read st s request_url).
Proof.
  intros Hn Hs Ht. follow. rewrite Hn. state_simpl. rewrite Ht, Hs.
  reflexivity.
Qed.

Lemma username_probe_404 response content :
  network st (sent st) request_url = inr response ->
  status response = 404%Z -> text response = inr content ->
  UsernameHunter.check_username_on_platform username platform pd st
  = (inr {| r_platform := platform; r_username := username;
            r_url := profile_url; r_exists := false;
            r_status_code := Some 404%Z; r_response_time := None;
            r_additional_info := Some []; r_error := None |},
     after_read st s request_url).
Proof.
  intros Hn Hs Ht. follow. rewrite Hn. state_simpl. rewrite Ht, Hs.
  reflexivity.
Qed.

(** When reading the body fails, the status line is lost from the result. *)
Lemma social_probe_unreadable response e :
  network st (sent st) request_url = inr response ->
  text response = inl e ->
  SocialMediaHunter.check_username_on_platform username platform pd st
  = (inr {| r_platform := platform; r_username := username;
            r_url := profile_url; r_exists := false;
            r_status_code := Some 0%Z; r_response_time := None;
            r_additional_info := None;
            r_error := Some match e with
                            | TimeoutError _ => "Timeout"
                            | Exception m => m
                            end |},
     after_read st s request_url).
Proof.
  intros Hn Ht. follow. rewrite Hn. state_simpl. rewrite Ht.
  destruct e; reflexivity.
Qed.

Lemma username_probe_unreadable response e :
  network st (sent st) request_url = inr response ->
  text response = inl e ->
  UsernameHunter.check_username_on_platform username platform pd st
  = (inr {| r_platform := platform; r_username := username;
            r_url := profile_url; r_exists := false;
            r_status_code := None; r_response_time := None;
            r_additional_info := None; r_error := Some (str_exn e) |},
     after_read st s request_url).
Proof.
  intros Hn Ht. follow. rewrite Hn. state_simpl. rewrite Ht.
  state_simpl. reflexivity.
Qed.

(** A request that fails: the dedicated handler of the social hunter names a
    timeout, the single handler of the username hunter passes on [str(e)]. *)
Lemma social_probe_failed e :
  network st (sent st) request_url = inl e ->
  SocialMediaHunter.check_username_on_platform username platform pd st
  = (inr {| r_platform := platform; r_username := username;
            r_url := profile_url; r_exists := false;
            r_status_code := Some 0%Z; r_response_time := None;
            r_additional_info := None;
            r_error := Some match e with
                            | TimeoutError _ => "Timeout"
                            | Exception m => m
                            end |},
     after_get st s request_url).
Proof.
  intros Hn. follow. rewrite Hn.
  destruct e; reflexivity.
Qed.

Lemma username_probe_failed e :
  network st (sent st) request_url = inl e ->
  UsernameHunter.check_username_on_platform username platform pd st
  = (inr {| r_platform := platform; r_username := username;
            r_url := profile_url; r_exists := false;
            r_status_code := None; r_response_time := None;
            r_additional_info := None; r_error := Some (str_exn e) |},
     after_get st s request_url).
Proof.
  intros Hn. follow. rewrite Hn. state_simpl. reflexivity.
Qed.

End ProbeOfARequest.

(** ** A probe as a step of a batch *)

Ltac close_step :=
  eexists; split;
  [ unfold probes_only, same_setup; state_simpl;
    rewrite <- ?app_assoc; repeat split;
    first [ reflexivity
          | symmetry; apply app_nil_r
          | intros ? ?; cbn [app];
            repeat (apply Forall_cons || apply Forall_nil);
            cbn; try exact I; congruence ]
  | split;
    [ cbn; intros ? Hin; intuition (subst; auto)
    | cbn; repeat split; intros;
      try reflexivity; try assumption; try discriminate;
      match goal with
      | H : (_ =? _)%Z = true |- _ => apply Z.eqb_eq in H; congruence
      end ] ].

Lemma social_probe_step username platform pd st :
  exists delta,
    probes_only st
      (snd (SocialMediaHunter.check_username_on_platform
              username platform pd st)) delta
    /\ (forall u, In u (requested delta) ->
                  format (check_url pd) username = inr u)
    /\ probe_outcome username (platform, pd)
         (fst (SocialMediaHunter.check_username_on_platform
                 username platform pd st)).
Proof.
  unfold_probe. split_probe. all: close_step.
Qed.

Lemma username_probe_step username platform pd st :
  exists delta,
    probes_only st
      (snd (UsernameHunter.check_username_on_platform
              username platform pd st)) delta
    /\ (forall u, In u (requested delta) ->
                  format (check_url pd) username = inr u)
    /\ probe_outcome username (platform, pd)
         (fst (UsernameHunter.check_username_on_platform
                 username platform pd st)).
Proof.
  unfold_probe. split_probe. all: close_step.
Qed.

(** ** The frame of a hunt: session before, close after *)

Lemma same_setup_refl st : same_setup st st.
Proof. repeat split. Qed.

Lemma same_setup_trans st1 st2 st3 :
  same_setup st1 st2 -> same_setup st2 st3 -> same_setup st1 st3.
Proof.
  unfold same_setup. intros (A1 & A2 & A3 & A4 & A5) (B1 & B2 & B3 & B4 & B5).
  repeat split; congruence.
Qed.

Lemma requested_app d1 d2 : requested (d1 ++ d2) = requested d1 ++ requested d2.
Proof.
  induction d1 as [|e d1 IH]; [reflexivity|].
  destruct e; simpl; rewrite IH; reflexivity.
Qed.



Lemma probes_only_refl st : probes_only st st [].
Proof.
  unfold probes_only. split; [apply same_setup_refl|].
  repeat split; auto using app_nil_r.
Qed.

Lemma probes_only_trans st1 st2 st3 d1 d2 :
  probes_only st1 st2 d1 -> probes_only st2 st3 d2 ->
  probes_only st1 st3 (d1 ++ d2).
Proof.
  intros (A & As & Ao & At & Af) (B & Bs & Bo & Bt & Bf).
  split; [eapply same_setup_trans; eassumption|].
  split; [congruence|]. split; [congruence|].
  split; [rewrite Bt, At; symmetry; apply app_assoc|].
  intros s Hs. apply Forall_app. split; [auto|].
  apply Bf. congruence.
Qed.

Lemma framed_unfold {A} (body : M A) st :
  framed body st
  = match prepared st with
    | None => (inl (Exception "Cannot choose from an empty sequence"), st)
    | Some st1 => (fst (body st1), released (snd (body st1)))
    end.
Proof.
  cbv beta delta [framed prepared released bind get_session create_session
                   get_config random_choice try_finally try_except
                   close_session ret].
  destruct (session st) eqn:Hs.
  - destruct (body st) as [r st2]; cbn [fst snd];
      destruct (session st2) as [s2|]; try reflexivity;
      destruct (close_raises st2 (sid s2)); reflexivity.
  - destruct (user_agents (config st)) eqn:Ha; [reflexivity|].
    state_simpl.
    match goal with
    | |- context [body ?st1] => destruct (body st1) as [r st2]
    end; cbn [fst snd];
      destruct (session st2) as [s2|]; try reflexivity;
      destruct (close_raises st2 (sid s2)); reflexivity.
Qed.

Lemma hunt_with_unfold batch st :
  hunt_with batch st
  = match prepared st with
    | None => (inl (Exception "Cannot choose from an empty sequence"), st)
    | Some st1 =>
        (match fst (batch st1) with
         | inl e => inl e
         | inr results => inr (valid_results results)
         end,
         released (snd (batch st1)))
    end.
Proof.
  unfold hunt_with. rewrite framed_unfold. destruct (prepared st) as [st1|]; [|reflexivity].
  unfold bind, ret. destruct (batch st1) as [[e|results] st2]; reflexivity.
Qed.

Lemma prepared_kept st s :
  session st = Some s -> prepared st = Some st.
Proof. unfold prepared. now intros ->. Qed.

Lemma prepared_opens st :
  session st = None -> user_agents (config st) <> [] ->
  exists st1 s1,
    prepared st = Some st1 /\ session st1 = Some s1 /\ sid s1 = opened st
    /\ limit s1 = max_workers (config st)
    /\ same_setup st st1 /\ opened st1 = S (opened st)
    /\ trace st1 = trace st ++ [Opened (opened st)].
Proof.
  intros Hs Ha. unfold prepared. rewrite Hs.
  destruct (user_agents (config st)) eqn:E; [congruence|].
  eexists _, _. split; [reflexivity|]. cbn. repeat split.
Qed.

Lemma prepared_cases st :
  (prepared st = None /\ session st = None /\ user_agents (config st) = [])
  \/ exists st1 s1 pre,
       prepared st = Some st1 /\ session st1 = Some s1 /\ same_setup st st1
       /\ trace st1 = trace st ++ pre /\ requested pre = [].
Proof.
  destruct (session st) as [s|] eqn:Hs.
  - right. exists st, s, []. rewrite (prepared_kept st s Hs), app_nil_r.
    auto using same_setup_refl.
  - destruct (user_agents (config st)) eqn:Ha.
    + left. unfold prepared. now rewrite Hs, Ha.
    + right. destruct (prepared_opens st Hs) as (st1 & s1 & H1 & H2 & _ & _ & H3 & _ & H4);
        [congruence|].
      exists st1, s1, [Opened (opened st)]. auto.
Qed.

Lemma released_trace st :
  same_setup st (released st)
  /\ exists post, trace (released st) = trace st ++ post /\ requested post = [].
Proof.
  unfold released. destruct (session st) as [s|].
  - destruct (close_raises st (sid s)); (split; [repeat split|]);
      eexists [_]; split; reflexivity.
  - split; [apply same_setup_refl|]. exists []. now rewrite app_nil_r.
Qed.


Lemma valid_results_In r results :
  In r (valid_results results) <-> In (inr r) results /\ r_exists r = true.
Proof.
  induction results as [|[e|r'] results IH]; simpl.
  - tauto.
  - rewrite IH. split; [tauto|]. intros [[H|H] He]; [discriminate|tauto].
  - destruct (r_exists r') eqn:E; simpl; rewrite IH; split.
    + intros [->|[H1 H2]]; auto.
    + intros [[[= ->]|H] He]; auto.
    + tauto.
    + intros [[[= ->]|H] He]; [congruence|tauto].
Qed.


Lemma Forall2_In_right {A B} (R : A -> B -> Prop) xs ys y :
  Forall2 R xs ys -> In y ys -> exists x, In x xs /\ R x y.
Proof.
  induction 1 as [|x y' xs ys Hr _ IH]; simpl; [contradiction|].
  intros [->|Hin].
  - exists x. auto.
  - destruct (IH Hin) as (x' & Hx & Hr'). exists x'. auto.
Qed.

(** ** A batch of probes, for either engine *)

Section Batch.

Variable probe : string -> string -> PlatformData -> M ProbeResult.

Hypothesis probe_step :
  forall username platform pd st,
  exists delta,
    probes_only st (snd (probe username platform pd st)) delta
    /\ (forall u, In u (requested delta) ->
                  format (check_url pd) username = inr u)
    /\ probe_outcome username (platform, pd)
         (fst (probe username platform pd st)).

Variable username : string.

Lemma gather_probes (selected : dict PlatformData) :
  forall st,
  exists results st' delta,
    batch_of probe username selected st = (inr results, st')
    /\ probes_only st st' delta
    /\ aimed_at username selected delta
    /\ Forall2 (probe_outcome username) selected results.
Proof.
  induction selected as [|[platform pd] rest IH]; intros st.
  - exists [], st, []. split; [reflexivity|].
    split; [apply probes_only_refl|]. split; [intros u []|constructor].
  - unfold batch_of in *. cbn [map gather fst snd].
    destruct (probe_step username platform pd st) as (d1 & Hp & Hu & Ho).
    unfold bind at 1, capture.
    destruct (probe username platform pd st) as [o st1]. cbn [fst snd] in *.
    destruct (IH st1) as (rs & st2 & d2 & Hg & Hp2 & Hu2 & Hf).
    unfold bind, ret. rewrite Hg. exists (o :: rs), st2, (d1 ++ d2).
    split; [reflexivity|]. split; [eapply probes_only_trans; eassumption|].
    split; [|now constructor].
    intros u Hin. rewrite requested_app in Hin.
    apply in_app_or in Hin. destruct Hin as [Hin|Hin].
    + exists (platform, pd). split; [now left|]. now apply Hu.
    + destruct (Hu2 u Hin) as (entry & He & Hfmt).
      exists entry. split; [now right|assumption].
Qed.

(** With a session at hand or a user agent to open one with, the hunt
    returns, whatever the network did to the probes: the list it returns is
    what [gather] collected - one outcome per platform, in order - cut down to
    the results that report [exists]. *)
Lemma hunt_returns (selected : dict PlatformData) st :
  session st <> None \/ user_agents (config st) <> [] ->
  exists gathered st',
    hunt_with (batch_of probe username selected) st = (inr (valid_results gathered), st')
    /\ same_setup st st'
    /\ Forall2 (probe_outcome username) selected gathered.
Proof.
  intros Hready. rewrite hunt_with_unfold.
  destruct (prepared_cases st) as [(_ & Hs & Ha)|(st1 & s1 & pre & -> & _ & Hset & _)].
  - destruct Hready; congruence.
  - destruct (gather_probes selected st1)
      as (gathered & st2 & delta & -> & (Hset2 & _) & _ & Hf).
    cbn [fst snd]. exists gathered, (released st2).
    split; [reflexivity|]. split; [|assumption].
    eapply same_setup_trans; [eassumption|].
    eapply same_setup_trans; [eassumption|]. apply released_trace.
Qed.



(** Whatever the state, the requests of a hunt are those of its platforms,
    and so are the results it returns. *)
Lemma hunt_requests (selected : dict PlatformData) st :
  exists delta,
    trace (snd (hunt_with (batch_of probe username selected) st)) = trace st ++ delta
    /\ aimed_at username selected delta
    /\ forall returned r,
         fst (hunt_with (batch_of probe username selected) st) = inr returned ->
         In r returned ->
         exists entry, In entry selected /\ r_platform r = fst entry.
Proof.
  rewrite hunt_with_unfold.
  destruct (prepared_cases st)
    as [(-> & _)|(st1 & s1 & pre & -> & _ & _ & Hpre & Hq)].
  - exists []. cbn [fst snd]. rewrite app_nil_r.
    split; [reflexivity|]. split; [intros u []|discriminate].
  - destruct (gather_probes selected st1)
      as (gathered & st2 & delta & -> & (_ & _ & _ & Ht & _) & Hu & Hf).
    cbn [fst snd].
    destruct (released_trace st2) as (_ & post & Hpost & Hq').
    exists (pre ++ delta ++ post).
    split; [rewrite Hpost, Ht, Hpre, <- !app_assoc; reflexivity|]. split.
    + intros u. rewrite !requested_app, Hq, Hq', app_nil_r. apply Hu.
    + intros returned r [= <-] Hin. apply valid_results_In in Hin.
      destruct Hin as [Hin _].
      destruct (Forall2_In_right _ _ _ _ Hf Hin) as (entry & He & (Hp & _)).
      exists entry. auto.
Qed.


End Batch.

(** ** The hunts of the two engines *)

Lemma social_hunt_is_framed self username include_adult :
  SocialMediaHunter.hunt_username self username include_adult
  = hunt_with (batch_of SocialMediaHunter.check_username_on_platform username
                 (SocialMediaHunter.platforms_to_check self include_adult)).
Proof. reflexivity. Qed.

Lemma username_hunt_is_framed username platforms :
  UsernameHunter.hunt_platforms username platforms
  = hunt_with (batch_of UsernameHunter.check_username_on_platform username
                 platforms).
Proof. reflexivity. Qed.

Lemma dict_set_In {V} (d : dict V) key value entry :
  In entry (dict_set d key value) -> entry = (key, value) \/ In entry d.
Proof.
  induction d as [|[k v] d IH]; simpl.
  - intros [<-|[]]. now left.
  - destruct (String.eqb k key) eqn:E; simpl.
    + apply String.eqb_eq in E. subst k. intros [<-|H]; auto.
    + intros [<-|H]; auto. destruct (IH H); auto.
Qed.

(** The selection loop keeps entries of the catalog, and with
    [include_adult] off none whose name is on the adult list. *)
Lemma selection_In (adult : list string) include_adult
  (catalog acc : dict PlatformData) entry :
  In entry
    (fold_left
       (fun acc entry =>
          if Text.in_list (fst entry) adult && negb include_adult
          then acc
          else dict_set acc (fst entry) (snd entry))
       catalog acc) ->
  In entry acc
  \/ (In entry catalog
      /\ Text.in_list (fst entry) adult && negb include_adult = false).
Proof.
  revert acc. induction catalog as [|[k v] catalog IH]; intros acc; simpl.
  - auto.
  - intros H. apply IH in H. destruct H as [H|[H1 H2]]; [|now right; auto].
    destruct (Text.in_list k adult && negb include_adult) eqn:E; [now left|].
    apply dict_set_In in H. destruct H as [->|H]; [|now left].
    right. simpl. auto.
Qed.

Lemma social_selection self entry :
  In entry (SocialMediaHunter.platforms_to_check self false) ->
  In entry (SocialMediaHunter.platforms self)
  /\ Text.in_list (fst entry) SocialMediaHunter.adult_platforms = false.
Proof.
  intros H. apply selection_In in H. destruct H as [[]|[H1 H2]].
  now rewrite andb_true_r in H2.
Qed.

Lemma username_selection self entry :
  In entry (UsernameHunter.platforms_to_check self false) ->
  In entry (UsernameHunter.general_sites self)
  /\ Text.in_list (fst entry) UsernameHunter.adult_platforms = false.
Proof.
  intros H. apply selection_In in H. destruct H as [[]|[H1 H2]].
  now rewrite andb_true_r in H2.
Qed.


(** ** Scenarios of the specification *)

Example scenario_profile_page :
  fst (SocialMediaHunter.check_username_on_platform "testuser123" "x_test"
         x_test (lab_open (reply 200 (inr "testuser123's profile page"))))
  = inr {| r_platform := "x_test"; r_username := "testuser123";
           r_url := "https://x.test/testuser123"; r_exists := true;
           r_status_code := Some 200%Z; r_response_time := Some 0%Z;
           r_additional_info := Some []; r_error := None |}.
Proof. reflexivity. Qed.

Example scenario_page_not_found :
  fst (UsernameHunter.check_username_on_platform "testuser123" "x_test"
         x_test (lab_open (reply 200 (inr "Sorry, page not found"))))
  = inr {| r_platform := "x_test"; r_username := "testuser123";
           r_url := "https://x.test/testuser123"; r_exists := false;
           r_status_code := Some 200%Z; r_response_time := None;
           r_additional_info := Some []; r_error := None |}.
Proof. reflexivity. Qed.

Example scenario_both_indicators :
  fst (SocialMediaHunter.check_username_on_platform "testuser123" "x_test"
         x_test (lab_open (reply 200 (inr "Profile NOT FOUND"))))
  = inr {| r_platform := "x_test"; r_username := "testuser123";
           r_url := "https://x.test/testuser123"; r_exists := false;
           r_status_code := Some 200%Z; r_response_time := Some 0%Z;
           r_additional_info := Some []; r_error := None |}.
Proof. reflexivity. Qed.

(** ** C1: a batch with failing probes *)




(** Two platforms, the first of which cannot be reached: [gather] holds its
    dict with the error, the hunt returns the other one alone. *)
Example one_failure_of_two :
  UsernameHunter.dispatch "testuser123"
    [("down", x_test); ("x_test", x_test)]
    (lab_open (fun n _ =>
                 match n with
                 | 0 => inl (Exception "Cannot connect to host x.test:443")
                 | _ => inr {| status := 200;
                               text := inr "testuser123's profile page" |}
                 end))
  = (inr [ inr {| r_platform := "down"; r_username := "testuser123";
                  r_url := "https://x.test/testuser123"; r_exists := false;
                  r_status_code := None; r_response_time := None;
                  r_additional_info := None;
                  r_error := Some "Cannot connect to host x.test:443" |};
           inr {| r_platform := "x_test"; r_username := "testuser123";
                  r_url := "https://x.test/testuser123"; r_exists := true;
                  r_status_code := Some 200%Z; r_response_time := None;
                  r_additional_info := Some []; r_error := None |} ],
     snd (UsernameHunter.dispatch "testuser123"
            [("down", x_test); ("x_test", x_test)]
            (lab_open (fun n _ =>
                 match n with
                 | 0 => inl (Exception "Cannot connect to host x.test:443")
                 | _ => inr {| status := 200;
                               text := inr "testuser123's profile page" |}
                 end)))).
Proof. vm_compute. reflexivity. Qed.

(** Without a session and without a user agent the hunt does not start:
    [random.choice] raises in [create_session], before the [try]. *)
Example hunt_without_user_agents_raises :
  fst (UsernameHunter.hunt_platforms "testuser123" [("x_test", x_test)]
         (lab_without_agents (reply 404 (inr "gone"))))
  = inl (Exception "Cannot choose from an empty sequence").
Proof. vm_compute. reflexivity. Qed.

(** A profile template that cannot be formatted makes the handler of the
    probe raise as well; [gather] keeps the exception and the hunt goes on. *)
Example malformed_template_is_gathered :
  fst (UsernameHunter.dispatch "testuser123"
         [("broken", {| url := "https://x.test/{"; check_url := "https://x.test/{";
                        indicators := []; not_found_indicators := [] |});
          ("x_test", x_test)]
         (lab_open (reply 200 (inr "testuser123's profile page"))))
  = inr [ inl (Exception "Single '{' encountered in format string");
          inr {| r_platform := "x_test"; r_username := "testuser123";
                 r_url := "https://x.test/testuser123"; r_exists := true;
                 r_status_code := Some 200%Z; r_response_time := None;
                 r_additional_info := Some []; r_error := None |} ].
Proof. vm_compute. reflexivity. Qed.

(** ** C2: classification of a 200 response *)

(** C2, as stated, fails: the word alpha-sigma stands in the body
    alpha-sigma-alpha as it is, so it is a case-insensitive substring of it,
    and there is no negative indicator; yet neither engine reports [exists].
    [str.lower] turns the sigma that ends the indicator into the final
    sigma, and the sigma inside the body into the plain one. *)
Lemma lowercased_indicator_is_missed :
  (exists ind, In ind (indicators greek_test)
               /\ Text.ci_substring lower_greek ind
                    (capital_alpha ++ capital_sigma ++ capital_alpha))
  /\ ~ (exists ind, In ind (not_found_indicators greek_test)
                    /\ Text.ci_substring lower_greek ind
                         (capital_alpha ++ capital_sigma ++ capital_alpha))
  /\ (exists r st',
        SocialMediaHunter.check_username_on_platform "testuser123" "greek_test"
          greek_test
          (lab_greek (reply 200
                        (inr (capital_alpha ++ capital_sigma ++ capital_alpha)%string)))
        = (inr r, st')
        /\ r_status_code r = Some 200%Z /\ r_exists r = false)
  /\ (exists r st',
        UsernameHunter.check_username_on_platform "testuser123" "greek_test"
          greek_test
          (lab_greek (reply 200
                        (inr (capital_alpha ++ capital_sigma ++ capital_alpha)%string)))
        = (inr r, st')
        /\ r_status_code r = Some 200%Z /\ r_exists r = false).
Proof.
  split.
  { exists (capital_alpha ++ capital_sigma)%string. split; [now left|].
    exists EmptyString, (capital_alpha ++ capital_sigma)%string, capital_alpha.
    split; reflexivity. }
  split.
  { intros (ind & [] & _). }
  split; eexists _, _; (split; [vm_compute; reflexivity|]); split; reflexivity.
Qed.

(** C2 (amended): when the request of a probe is answered with status 200
    and a body, the result of either engine reports [exists] if and only if
    some positive indicator, lowercased by [str.lower], occurs in the
    lowercased body and no negative indicator does; a body in which a
    positive and a negative indicator are found is reported as not existing.
    On Latin-1 text, which [str.lower] lowercases character by character,
    that is the case-insensitive substring test. *)
Theorem exists_iff_positive_and_no_negative
  st username platform pd s request_url profile_url response content :
  session st = Some s ->
  user_agents (config st) <> [] ->
  format (check_url pd) username = inr request_url ->
  format (url pd) username = inr profile_url ->
  network st (sent st) request_url = inr response ->
  status response = 200%Z ->
  text response = inr content ->
  exists r1 r2 st',
    SocialMediaHunter.check_username_on_platform username platform pd st
      = (inr r1, st')
    /\ UsernameHunter.check_username_on_platform username platform pd st
      = (inr r2, st')
    /\ (r_exists r1 = true <->
        (exists ind, In ind (indicators pd)
                     /\ Text.contains (str_lower st ind) (str_lower st content)
                        = true)
        /\ ~ (exists ind, In ind (not_found_indicators pd)
                          /\ Text.contains (str_lower st ind)
                               (str_lower st content) = true))
    /\ (r_exists r2 = true <->
        (exists ind, In ind (indicators pd)
                     /\ Text.contains (str_lower st ind) (str_lower st content)
                        = true)
        /\ ~ (exists ind, In ind (not_found_indicators pd)
                          /\ Text.contains (str_lower st ind)
                               (str_lower st content) = true))
    /\ ((exists ind, In ind (indicators pd)
                     /\ Text.contains (str_lower st ind) (str_lower st content)
                        = true) ->
        (exists ind, In ind (not_found_indicators pd)
                     /\ Text.contains (str_lower st ind) (str_lower st content)
                        = true) ->
        r_exists r1 = false /\ r_exists r2 = false)
    /\ (str_lower st = Text.lower ->
        (r_exists r1 = true <->
         (exists ind, In ind (indicators pd)
                      /\ Text.ci_substring Text.lower ind content)
         /\ ~ (exists ind, In ind (not_found_indicators pd)
                           /\ Text.ci_substring Text.lower ind content))
        /\ (r_exists r2 = true <->
            (exists ind, In ind (indicators pd)
                         /\ Text.ci_substring Text.lower ind content)
            /\ ~ (exists ind, In ind (not_found_indicators pd)
                              /\ Text.ci_substring Text.lower ind content))).
Proof.
  intros Hs Ha Hreq Hurl Hnet Hst Htext.
  destruct (social_probe_200 st username platform pd s request_url profile_url
              Hs Ha Hreq Hurl response content Hnet Hst Htext)
    as (r1 & Hr1 & _ & He1).
  destruct (username_probe_200 st username platform pd s request_url
              profile_url Hs Ha Hreq Hurl response content Hnet Hst Htext)
    as (r2 & Hr2 & _ & He2).
  assert (Hiff : forall b : bool,
             b = existsb (Text.matches (str_lower st) content) (indicators pd)
                 && negb (existsb (Text.matches (str_lower st) content)
                            (not_found_indicators pd)) ->
             b = true <->
             (exists ind, In ind (indicators pd)
                          /\ Text.contains (str_lower st ind)
                               (str_lower st content) = true)
             /\ ~ (exists ind, In ind (not_found_indicators pd)
                               /\ Text.contains (str_lower st ind)
                                    (str_lower st content) = true)).
  { intros b ->. rewrite hit_decides. unfold hit, Text.matches. split.
    - intros [Hp Hn]. split; [assumption|].
      intros (ind & Hin & Hc). rewrite (Hn ind Hin) in Hc. discriminate.
    - intros [Hp Hn]. split; [assumption|].
      intros ind Hin.
      destruct (Text.contains (str_lower st ind) (str_lower st content)) eqn:E;
        [|reflexivity].
      exfalso. apply Hn. now exists ind. }
  assert (Hci : str_lower st = Text.lower ->
             forall b : bool,
             b = existsb (Text.matches (str_lower st) content) (indicators pd)
                 && negb (existsb (Text.matches (str_lower st) content)
                            (not_found_indicators pd)) ->
             b = true <->
             (exists ind, In ind (indicators pd)
                          /\ Text.ci_substring Text.lower ind content)
             /\ ~ (exists ind, In ind (not_found_indicators pd)
                               /\ Text.ci_substring Text.lower ind content)).
  { intros Hl b ->. rewrite hit_decides, Hl, hit_on_latin1. unfold ci_hit.
    split.
    - intros [Hp Hn]. split; [assumption|].
      intros (ind & Hin & Hc). exact (Hn ind Hin Hc).
    - intros [Hp Hn]. split; [assumption|].
      intros ind Hin Hc. apply Hn. now exists ind. }
  exists r1, r2, (after_read st s request_url).
  split; [assumption|]. split; [assumption|].
  split; [now apply Hiff|]. split; [now apply Hiff|].
  split.
  - intros Hp Hn. split.
    + pose proof (Hiff _ He1) as I1.
      destruct (r_exists r1); [|reflexivity].
      destruct (proj1 I1 eq_refl) as [_ Hno]. now destruct Hno.
    + pose proof (Hiff _ He2) as I2.
      destruct (r_exists r2); [|reflexivity].
      destruct (proj1 I2 eq_refl) as [_ Hno]. now destruct Hno.
  - intros Hl. split; [now apply (Hci Hl)|now apply (Hci Hl)].
Qed.

Lemma exists_iff_positive_and_no_negative_witness :
  exists r1 r2 st',
    SocialMediaHunter.check_username_on_platform "testuser123" "x_test" x_test
      (lab_open (reply 200 (inr "testuser123's profile page")))
      = (inr r1, st')
    /\ UsernameHunter.check_username_on_platform "testuser123" "x_test" x_test
         (lab_open (reply 200 (inr "testuser123's profile page")))
       = (inr r2, st')
    /\ (r_exists r1 = true <->
        (exists ind, In ind (indicators x_test)
                     /\ Text.ci_substring Text.lower ind
                          "testuser123's profile page")
        /\ ~ (exists ind, In ind (not_found_indicators x_test)
                          /\ Text.ci_substring Text.lower ind
                               "testuser123's profile page")).
Proof.
  destruct (exists_iff_positive_and_no_negative
              (lab_open (reply 200 (inr "testuser123's profile page")))
              "testuser123" "x_test" x_test lab_session
              "https://x.test/testuser123" "https://x.test/testuser123"
              {| status := 200; text := inr "testuser123's profile page" |}
              "testuser123's profile page")
    as (r1 & r2 & st' & H1 & H2 & _ & _ & _ & H3);
    [reflexivity | discriminate | reflexivity | reflexivity | reflexivity
    | reflexivity | reflexivity | ].
  exists r1, r2, st'. split; [exact H1|]. split; [exact H2|].
  exact (proj1 (H3 eq_refl)).
Defined.

(** ** C3: what a result that reports [exists] rests on *)

(** C3: whatever the identifier, the platform definition and the behaviour
    of the network, a result of [check_username_on_platform] (of either
    engine) reports [exists] only if it records status code 200, carries no
    error, and the body of the answer contained a positive indicator and no
    negative one; a result with any other status code does not report
    [exists]. *)
Theorem exists_only_with_status_200_and_hit username platform pd st r st' :
  SocialMediaHunter.check_username_on_platform username platform pd st
    = (inr r, st')
  \/ UsernameHunter.check_username_on_platform username platform pd st
     = (inr r, st') ->
  (r_exists r = true -> evidence st username pd r)
  /\ (r_status_code r <> Some 200%Z -> r_exists r = false).
Proof.
  intros Hrun.
  assert (He : r_exists r = true -> evidence st username pd r).
  { destruct Hrun as [Hrun|Hrun];
      eauto using social_probe_evidence, username_probe_evidence. }
  split; [assumption|].
  intros Hcode. destruct (r_exists r); [|reflexivity].
  destruct (He eq_refl) as (H200 & _). contradiction.
Qed.

Lemma exists_only_with_status_200_and_hit_witness :
  evidence (lab_open (reply 200 (inr "testuser123's profile page")))
    "testuser123" x_test
    {| r_platform := "x_test"; r_username := "testuser123";
       r_url := "https://x.test/testuser123"; r_exists := true;
       r_status_code := Some 200%Z; r_response_time := Some 0%Z;
       r_additional_info := Some []; r_error := None |}.
Proof.
  assert (Hrun : SocialMediaHunter.check_username_on_platform
                   "testuser123" "x_test" x_test
                   (lab_open (reply 200 (inr "testuser123's profile page")))
                 = (inr {| r_platform := "x_test"; r_username := "testuser123";
                           r_url := "https://x.test/testuser123";
                           r_exists := true;
                           r_status_code := Some 200%Z;
                           r_response_time := Some 0%Z;
                           r_additional_info := Some []; r_error := None |},
                    after_read
                      (lab_open (reply 200 (inr "testuser123's profile page")))
                      lab_session "https://x.test/testuser123"))
    by (vm_compute; reflexivity).
  destruct (exists_only_with_status_200_and_hit
              "testuser123" "x_test" x_test
              (lab_open (reply 200 (inr "testuser123's profile page")))
              _ _ (or_introl Hrun))
    as [Hev _].
  exact (Hev eq_refl).
Defined.

(** ** C4: the adult platforms and [include_adult] *)

(** C4: with [include_adult] off, [hunt_general_sites] and [hunt_username]
    take the platforms of the adult list out of the set before any probe is
    made: no selected platform is on the list, every request of the hunt goes
    to the check URL of a selected platform, and every result returned names
    a platform that is not on the list - for every identifier, catalog and
    state. *)
Theorem adult_platforms_are_not_dispatched username st :
  (forall self,
     (forall entry,
        In entry (UsernameHunter.platforms_to_check self false) ->
        In entry (UsernameHunter.general_sites self)
        /\ Text.in_list (fst entry) UsernameHunter.adult_platforms = false)
     /\ (exists delta,
           trace (snd (UsernameHunter.hunt_general_sites self username false st))
           = trace st ++ delta
           /\ aimed_at username (UsernameHunter.platforms_to_check self false)
                delta)
     /\ (forall returned r,
           fst (UsernameHunter.hunt_general_sites self username false st)
           = inr returned ->
           In r returned ->
           Text.in_list (r_platform r) UsernameHunter.adult_platforms = false))
  /\ (forall self,
        (forall entry,
           In entry (SocialMediaHunter.platforms_to_check self false) ->
           In entry (SocialMediaHunter.platforms self)
           /\ Text.in_list (fst entry) SocialMediaHunter.adult_platforms = false)
        /\ (exists delta,
              trace (snd (SocialMediaHunter.hunt_username self username false st))
              = trace st ++ delta
              /\ aimed_at username
                   (SocialMediaHunter.platforms_to_check self false) delta)
        /\ (forall returned r,
              fst (SocialMediaHunter.hunt_username self username false st)
              = inr returned ->
              In r returned ->
              Text.in_list (r_platform r) SocialMediaHunter.adult_platforms
              = false)).
Proof.
  split; intros self.
  - split; [apply username_selection|].
    unfold UsernameHunter.hunt_general_sites.
    rewrite username_hunt_is_framed.
    destruct (hunt_requests _ username_probe_step username
                (UsernameHunter.platforms_to_check self false) st)
      as (delta & Ht & Ha & Hr).
    split; [now exists delta|].
    intros returned r Hret Hin.
    destruct (Hr returned r Hret Hin) as (entry & He & ->).
    now apply (username_selection self).
  - split; [apply social_selection|].
    rewrite social_hunt_is_framed.
    destruct (hunt_requests _ social_probe_step username
                (SocialMediaHunter.platforms_to_check self false) st)
      as (delta & Ht & Ha & Hr).
    split; [now exists delta|].
    intros returned r Hret Hin.
    destruct (Hr returned r Hret Hin) as (entry & He & ->).
    now apply (social_selection self).
Qed.

(** The stock catalogs: what is left of them with [include_adult] off. *)
Example general_sites_without_adult :
  map fst (UsernameHunter.platforms_to_check UsernameHunter.init false)
  = [ "pastebin"; "about_me"; "gravatar"; "keybase"; "hackernews";
      "product_hunt"; "angel_list"; "foursquare"; "last_fm"; "mix_cloud" ].
Proof. reflexivity. Qed.

Example social_platforms_without_adult :
  length (SocialMediaHunter.platforms_to_check SocialMediaHunter.init false) = 21
  /\ length (SocialMediaHunter.platforms_to_check SocialMediaHunter.init true) = 33.
Proof. split; reflexivity. Qed.

(** ** C5: a 404 answer *)

(** C5, as stated, fails: on a 404 the body is read all the same, and when
    that read times out the result no longer shows the status line. *)
Lemma body_is_read_on_404 :
  In (ReadBody "https://x.test/testuser123")
     (trace (snd (SocialMediaHunter.check_username_on_platform
                    "testuser123" "x_test" x_test
                    (lab_open (reply 404 (inl (TimeoutError EmptyString)))))))
  /\ fst (SocialMediaHunter.check_username_on_platform
            "testuser123" "x_test" x_test
            (lab_open (reply 404 (inl (TimeoutError EmptyString)))))
     = inr {| r_platform := "x_test"; r_username := "testuser123";
              r_url := "https://x.test/testuser123"; r_exists := false;
              r_status_code := Some 0%Z; r_response_time := None;
              r_additional_info := None; r_error := Some "Timeout" |}
  /\ In (ReadBody "https://x.test/testuser123")
        (trace (snd (UsernameHunter.check_username_on_platform
                       "testuser123" "x_test" x_test
                       (lab_open (reply 404 (inr "gone")))))).
Proof.
  split; [|split].
  - vm_compute. tauto.
  - reflexivity.
  - vm_compute. tauto.
Qed.

(** C5 (amended): when the request of a probe is answered with status 404,
    the result of either engine does not report [exists].  The body is read
    before the status is looked at - the probe leaves the request and the
    read in the trace - but it is not searched: when it can be read, the
    result records status 404 and is the same for every body and every
    indicator list. *)
Theorem not_found_on_404
  st username platform pd s request_url profile_url response :
  session st = Some s ->
  user_agents (config st) <> [] ->
  format (check_url pd) username = inr request_url ->
  format (url pd) username = inr profile_url ->
  network st (sent st) request_url = inr response ->
  status response = 404%Z ->
  exists r1 r2,
    SocialMediaHunter.check_username_on_platform username platform pd st
      = (inr r1, after_read st s request_url)
    /\ UsernameHunter.check_username_on_platform username platform pd st
       = (inr r2, after_read st s request_url)
    /\ r_exists r1 = false /\ r_exists r2 = false
    /\ trace (after_read st s request_url)
       = trace st ++ [Get (sid s) request_url; ReadBody request_url]
    /\ (forall content, text response = inr content ->
        r1 = {| r_platform := platform; r_username := username;
                r_url := profile_url; r_exists := false;
                r_status_code := Some 404%Z; r_response_time := Some 0%Z;
                r_additional_info := Some []; r_error := None |}
        /\ r2 = {| r_platform := platform; r_username := username;
                   r_url := profile_url; r_exists := false;
                   r_status_code := Some 404%Z; r_response_time := None;
                   r_additional_info := Some []; r_error := None |}).
Proof.
  intros Hs Ha Hreq Hurl Hnet Hst.
  assert (Htrace : trace (after_read st s request_url)
                   = trace st ++ [Get (sid s) request_url; ReadBody request_url])
    by (cbn; now rewrite <- app_assoc).
  destruct (text response) as [e|content] eqn:Htext.
  - eexists _, _.
    split; [exact (social_probe_unreadable st username platform pd s
                     request_url profile_url Hs Ha Hreq Hurl response e
                     Hnet Htext)|].
    split; [exact (username_probe_unreadable st username platform pd s
                     request_url profile_url Hs Ha Hreq Hurl response e
                     Hnet Htext)|].
    split; [reflexivity|]. split; [reflexivity|]. split; [exact Htrace|].
    intros content Hc. discriminate Hc.
  - eexists _, _.
    split; [exact (social_probe_404 st username platform pd s
                     request_url profile_url Hs Ha Hreq Hurl response content
                     Hnet Hst Htext)|].
    split; [exact (username_probe_404 st username platform pd s
                     request_url profile_url Hs Ha Hreq Hurl response content
                     Hnet Hst Htext)|].
    split; [reflexivity|]. split; [reflexivity|]. split; [exact Htrace|].
    intros content' _. split; reflexivity.
Qed.

Lemma not_found_on_404_witness :
  exists r1 r2,
    SocialMediaHunter.check_username_on_platform "testuser123" "x_test" x_test
      (lab_open (reply 404 (inr "gone")))
    = (inr r1, after_read (lab_open (reply 404 (inr "gone"))) lab_session
                 "https://x.test/testuser123")
    /\ UsernameHunter.check_username_on_platform "testuser123" "x_test" x_test
         (lab_open (reply 404 (inr "gone")))
       = (inr r2, after_read (lab_open (reply 404 (inr "gone"))) lab_session
                    "https://x.test/testuser123")
    /\ r_exists r1 = false /\ r_exists r2 = false.
Proof.
  destruct (not_found_on_404
              (lab_open (reply 404 (inr "gone")))
              "testuser123" "x_test" x_test lab_session
              "https://x.test/testuser123" "https://x.test/testuser123"
              {| status := 404; text := inr "gone" |})
    as (r1 & r2 & H1 & H2 & H3 & H4 & _);
    [reflexivity | discriminate | reflexivity | reflexivity | reflexivity
    | reflexivity | ].
  exists r1, r2. split; [exact H1|]. split; [exact H2|]. split; assumption.
Defined.

(** ** C6: a request that times out *)

(** C6 at its failing input: a probe of the username hunter whose request
    times out.  The one handler of that engine reports [str(e)] - empty for
    the [asyncio.TimeoutError] that aiohttp raises - and no status code,
    where the social media hunter, at the same input, reports "Timeout". *)
Theorem username_hunter_does_not_name_the_timeout :
  fst (UsernameHunter.check_username_on_platform "testuser123" "x_test" x_test
         (lab_open (refuse (TimeoutError EmptyString))))
  = inr {| r_platform := "x_test"; r_username := "testuser123";
           r_url := "https://x.test/testuser123"; r_exists := false;
           r_status_code := None; r_response_time := None;
           r_additional_info := None; r_error := Some EmptyString |}
  /\ fst (SocialMediaHunter.check_username_on_platform "testuser123" "x_test"
            x_test (lab_open (refuse (TimeoutError EmptyString))))
     = inr {| r_platform := "x_test"; r_username := "testuser123";
              r_url := "https://x.test/testuser123"; r_exists := false;
              r_status_code := Some 0%Z; r_response_time := None;
              r_additional_info := None; r_error := Some "Timeout" |}.
Proof. split; reflexivity. Qed.

(** In the social media hunter every timeout of a probe - of the request or
    of the read of the body - becomes a result with error "Timeout". *)
Lemma social_timeout_is_named
  st username platform pd s request_url profile_url msg :
  session st = Some s ->
  user_agents (config st) <> [] ->
  format (check_url pd) username = inr request_url ->
  format (url pd) username = inr profile_url ->
  network st (sent st) request_url = inl (TimeoutError msg)
  \/ (exists response,
        network st (sent st) request_url = inr response
        /\ text response = inl (TimeoutError msg)) ->
  exists r st',
    SocialMediaHunter.check_username_on_platform username platform pd st
      = (inr r, st')
    /\ r_exists r = false /\ r_status_code r = Some 0%Z
    /\ r_error r = Some "Timeout".
Proof.
  intros Hs Ha Hreq Hurl [Hnet|(response & Hnet & Htext)].
  - eexists _, _.
    split; [exact (social_probe_failed st username platform pd s request_url
                     profile_url Hs Ha Hreq Hurl _ Hnet)|].
    repeat split.
  - eexists _, _.
    split; [exact (social_probe_unreadable st username platform pd s
                     request_url profile_url Hs Ha Hreq Hurl response _
                     Hnet Htext)|].
    repeat split.
Qed.

(** In the username hunter the error is the text of the exception. *)
Lemma username_timeout_is_str
  st username platform pd s request_url profile_url msg :
  session st = Some s ->
  user_agents (config st) <> [] ->
  format (check_url pd) username = inr request_url ->
  format (url pd) username = inr profile_url ->
  network st (sent st) request_url = inl (TimeoutError msg) ->
  exists r st',
    UsernameHunter.check_username_on_platform username platform pd st
      = (inr r, st')
    /\ r_exists r = false /\ r_status_code r = None /\ r_error r = Some msg.
Proof.
  intros Hs Ha Hreq Hurl Hnet.
  eexists _, _.
  split; [exact (username_probe_failed st username platform pd s request_url
                   profile_url Hs Ha Hreq Hurl _ Hnet)|].
  repeat split.
Qed.

(** ** C7: sessions of [hunt_all_platforms] *)



Lemma subscripts_found d keys st :
  has_keys d keys ->
  exists adult,
    UsernameHunter.subscripts d keys st = (inr adult, st)
    /\ map fst adult = keys.
Proof.
  induction keys as [|key keys IH]; intros Hk.
  - exists []. split; reflexivity.
  - destruct IH as (rest & Hrest & Hmap).
    { intros k Hin. apply Hk. now right. }
    cbn [UsernameHunter.subscripts]. unfold bind, dict_item.
    destruct (dict_get d key) as [value|] eqn:E.
    + unfold ret at 1. rewrite Hrest. exists ((key, value) :: rest).
      split; [reflexivity|]. simpl. now rewrite Hmap.
    + exfalso. apply (Hk key); [now left|assumption].
Qed.


(** When closing fails, [self.session] is not reset, and the next category
    hunt goes on with the session it finds. *)
Example unclosed_session_is_kept :
  sessions_opened
    (trace (snd (UsernameHunter.hunt_all_platforms UsernameHunter.init
                   "testuser123" false
                   (lab_stuck (refuse (Exception "Cannot connect to host"))))))
  = 1
  /\ option_map sid
       (session (snd (UsernameHunter.hunt_all_platforms UsernameHunter.init
                        "testuser123" false
                        (lab_stuck (refuse (Exception "Cannot connect to host"))))))
     = Some 0.
Proof. split; vm_compute; reflexivity. Qed.



(** ** C9: the keys of the mapping [hunt_all_platforms] returns *)

Lemma username_hunt_returns username platforms st :
  user_agents (config st) <> [] ->
  exists returned st',
    UsernameHunter.hunt_platforms username platforms st = (inr returned, st')
    /\ user_agents (config st') <> []
    /\ (platforms = [] -> returned = []).
Proof.
  intros Ha. rewrite username_hunt_is_framed.
  destruct (hunt_returns _ username_probe_step username platforms st
              (or_intror Ha))
    as (gathered & st' & Hrun & (E & _) & Hf).
  exists (valid_results gathered), st'.
  split; [assumption|]. split; [now rewrite E|].
  intros ->. inversion Hf. reflexivity.
Qed.

(** C9 (amended): with a user agent to open sessions with (and, when the
    adult category is asked for, its ten entries in [general_sites], which
    [hunt_adult_platforms] subscripts by name), the mapping
    [hunt_all_platforms] returns has a key for every category of the scope -
    the four base categories, and [adult_platforms] exactly when
    [include_adult] is set - each bound to a list; a category whose platform
    set is empty is bound to the empty list. *)
Theorem every_category_has_its_key self username include_adult st :
  user_agents (config st) <> [] ->
  (include_adult = true ->
   has_keys (UsernameHunter.general_sites self) UsernameHunter.adult_platforms) ->
  exists results st',
    UsernameHunter.hunt_all_platforms self username include_adult st
      = (inr results, st')
    /\ map fst results
       = [ "general_sites"; "developer_platforms"; "forums";
           "gaming_platforms" ]
         ++ (if include_adult then ["adult_platforms"] else [])
    /\ (forall category, In category (map fst results) ->
        exists found, dict_get results category = Some found)
    /\ (UsernameHunter.platforms_to_check self include_adult = [] ->
        dict_get results "general_sites" = Some [])
    /\ (UsernameHunter.developer_platforms self = [] ->
        dict_get results "developer_platforms" = Some [])
    /\ (UsernameHunter.forums self = [] ->
        dict_get results "forums" = Some [])
    /\ (UsernameHunter.gaming_platforms self = [] ->
        dict_get results "gaming_platforms" = Some []).
Proof.
  intros Ha Hk.
  unfold UsernameHunter.hunt_all_platforms, UsernameHunter.hunt_general_sites,
    UsernameHunter.hunt_developer_platforms, UsernameHunter.hunt_forums,
    UsernameHunter.hunt_gaming_platforms, UsernameHunter.hunt_adult_platforms.
  unfold bind.
  destruct (username_hunt_returns username
              (UsernameHunter.platforms_to_check self include_adult) st Ha)
    as (r1 & st1 & -> & Ha1 & He1).
  destruct (username_hunt_returns username
              (UsernameHunter.developer_platforms self) st1 Ha1)
    as (r2 & st2 & -> & Ha2 & He2).
  destruct (username_hunt_returns username
              (UsernameHunter.forums self) st2 Ha2)
    as (r3 & st3 & -> & Ha3 & He3).
  destruct (username_hunt_returns username
              (UsernameHunter.gaming_platforms self) st3 Ha3)
    as (r4 & st4 & -> & Ha4 & He4).
  assert (Hkeys : forall (results : dict (list ProbeResult)) category,
             In category (map fst results) ->
             exists found, dict_get results category = Some found).
  { induction results as [|[k v] results IH]; simpl; [contradiction|].
    intros category [->|Hin].
    - rewrite String.eqb_refl. now exists v.
    - destruct (String.eqb k category); [now exists v|auto]. }
  destruct include_adult.
  - destruct (subscripts_found (UsernameHunter.general_sites self)
                UsernameHunter.adult_platforms st4 (Hk eq_refl))
      as (adult & -> & _).
    destruct (username_hunt_returns username adult st4 Ha4)
      as (r5 & st5 & -> & _ & _).
    eexists _, st5. split; [reflexivity|]. split; [reflexivity|].
    split; [apply Hkeys|].
    repeat split; intros E;
      first [rewrite (He1 E)|rewrite (He2 E)|rewrite (He3 E)|rewrite (He4 E)];
      reflexivity.
  - eexists _, st4. split; [reflexivity|]. split; [reflexivity|].
    split; [apply Hkeys|].
    repeat split; intros E;
      first [rewrite (He1 E)|rewrite (He2 E)|rewrite (He3 E)|rewrite (He4 E)];
      reflexivity.
Qed.

Lemma every_category_has_its_key_witness :
  exists results st',
    UsernameHunter.hunt_all_platforms bare_hunter "testuser123" false
      (lab (refuse (Exception "Cannot connect to host")))
    = (inr results, st')
    /\ map fst results
       = ["general_sites"; "developer_platforms"; "forums"; "gaming_platforms"]
    /\ dict_get results "forums" = Some [].
Proof.
  destruct (every_category_has_its_key bare_hunter "testuser123" false
              (lab (refuse (Exception "Cannot connect to host"))))
    as (results & st' & Hrun & Hkeys & _ & _ & _ & Hforums & _);
    [discriminate | discriminate | ].
  exists results, st'.
  split; [exact Hrun|]. split; [exact Hkeys|exact (Hforums eq_refl)].
Defined.

Example hunt_all_of_bare_hunter :
  fst (UsernameHunter.hunt_all_platforms bare_hunter "testuser123" false
         (lab (refuse (Exception "Cannot connect to host"))))
  = inr [ ("general_sites", []); ("developer_platforms", []);
          ("forums", []); ("gaming_platforms", []) ].
Proof. vm_compute. reflexivity. Qed.

(** C9, as stated, fails: asked for the adult category of a hunter whose
    catalogs are empty, [hunt_all_platforms] returns no mapping - the
    subscript of [general_sites] by the first adult name raises KeyError
    once the four base hunts are done; and with the user-agent pool emptied
    no hunt starts, whatever the catalog. *)
Lemma adult_category_of_bare_hunter :
  fst (UsernameHunter.hunt_all_platforms bare_hunter "testuser123" true
         (lab (refuse (Exception "Cannot connect to host"))))
  = inl (Exception "'adultfriendfinder'")
  /\ fst (UsernameHunter.hunt_all_platforms bare_hunter "testuser123" false
            (lab_without_agents (refuse (Exception "Cannot connect to host"))))
     = inl (Exception "Cannot choose from an empty sequence").
Proof. split; vm_compute; reflexivity. Qed.

(** ** C10: the placeholder of Breach Directory in the report *)

Lemma placeholder_needs_an_agent email st placeholder st1 :
  BreachChecker.check_breachdirectory email st = (inr (Some placeholder), st1) ->
  user_agents (config st) <> []
  /\ placeholder
     = {| BreachChecker.source := "Breach Directory";
          BreachChecker.email := email;
          BreachChecker.found := false;
          BreachChecker.breaches := None;
          BreachChecker.record_url := None;
          BreachChecker.note :=
            "Manual check required at https://breachdirectory.org/" |}.
Proof.
  cbv beta delta [BreachChecker.check_breachdirectory try_except bind
                    get_config random_choice ret].
  state_simpl.
  destruct (user_agents (config st)); state_simpl; [discriminate|].
  intros [= <- _]. split; [discriminate|reflexivity].
Qed.

(** The two awaited checks: Have I Been Pwned contributes a record or
    nothing, Breach Directory its placeholder. *)
Lemma run_checks_appends_placeholder email st :
  user_agents (config st) <> [] ->
  exists first st',
    BreachChecker.run_checks
      [BreachChecker.check_haveibeenpwned email;
       BreachChecker.check_breachdirectory email] [] st
    = (inr (first
            ++ [ {| BreachChecker.source := "Breach Directory";
                    BreachChecker.email := email;
                    BreachChecker.found := false;
                    BreachChecker.breaches := None;
                    BreachChecker.record_url := None;
                    BreachChecker.note :=
                      "Manual check required at https://breachdirectory.org/" |} ]),
       st')
    /\ length first <= 1.
Proof.
  intros Ha.
  cbv beta delta [BreachChecker.run_checks BreachChecker.check_haveibeenpwned
                    BreachChecker.check_breachdirectory try_except bind
                    get_config get_lower random_choice session_get response_text ret].
  cbv beta iota zeta.
  destruct (user_agents (config st)) as [|agent pool] eqn:E; [congruence|].
  state_simpl.
  destruct (session st) as [sess|]; state_simpl.
  - destruct (network st (sent st) _) as [e|response]; state_simpl.
    + rewrite E. eexists [], _. split; [reflexivity|simpl; lia].
    + destruct (status response =? 200)%Z; state_simpl.
      * destruct (text response) as [e|content]; state_simpl.
        -- rewrite E. eexists [], _. split; [reflexivity|simpl; lia].
        -- destruct (existsb _ _); state_simpl; rewrite E.
           ++ eexists [_], _. split; [reflexivity|simpl; lia].
           ++ eexists [], _. split; [reflexivity|simpl; lia].
      * rewrite E. eexists [], _. split; [reflexivity|simpl; lia].
  - rewrite E. eexists [], _. split; [reflexivity|simpl; lia].
Qed.

Lemma check_breaches_is_framed email :
  BreachChecker.check_breaches email
  = framed
      (results <- BreachChecker.run_checks
                    [BreachChecker.check_haveibeenpwned email;
                     BreachChecker.check_breachdirectory email] [] ;;
       local_results <- BreachChecker.check_local_breach_files email ;;
       paste_results <- BreachChecker.check_pastebins email ;;
       social_results <- BreachChecker.check_social_media_breaches email ;;
       ret (BreachChecker.generate_breach_report email
              (results ++ local_results ++ paste_results ++ social_results))).
Proof. reflexivity. Qed.

(** C10: whenever the Breach Directory check yields its placeholder - a
    record whose own [found] is [False] - [check_breaches] returns a report
    that counts it: the source is listed, [total_breaches_found] is at least
    1, and the risk level is "Low" or "Medium", never "Clean". *)
Theorem placeholder_is_counted_as_a_breach email st placeholder st1 :
  BreachChecker.check_breachdirectory email st = (inr (Some placeholder), st1) ->
  exists report st',
    BreachChecker.check_breaches email st = (inr report, st')
    /\ BreachChecker.found placeholder = false
    /\ In (BreachChecker.source placeholder)
          (BreachChecker.breach_sources report)
    /\ 1 <= BreachChecker.total_breaches_found report
    /\ BreachChecker.risk_level report <> "Clean"
    /\ (BreachChecker.risk_level report = "Low"
        \/ BreachChecker.risk_level report = "Medium").
Proof.
  intros Hplace.
  destruct (placeholder_needs_an_agent email st placeholder st1 Hplace)
    as [Ha ->].
  rewrite check_breaches_is_framed, framed_unfold.
  destruct (prepared_cases st)
    as [(_ & _ & Hnil)|(st2 & s2 & pre & -> & _ & (Hc & _) & _)];
    [congruence|].
  rewrite <- Hc in Ha.
  destruct (run_checks_appends_placeholder email st2 Ha)
    as (first & st3 & Hrun & Hlen).
  unfold bind. rewrite Hrun.
  unfold BreachChecker.check_local_breach_files, BreachChecker.check_pastebins,
    BreachChecker.check_social_media_breaches, ret.
  cbn [fst snd app]. rewrite !app_nil_r.
  eexists _, _. split; [reflexivity|]. split; [reflexivity|].
  destruct first as [|hibp [|more first]]; [| |simpl in Hlen; lia].
  - cbn. repeat split; auto; discriminate.
  - cbn. repeat split; auto; discriminate.
Qed.

Lemma placeholder_is_counted_as_a_breach_witness :
  exists report st',
    BreachChecker.check_breaches "someone@example.com"
      (lab (reply 404 (inr "gone")))
    = (inr report, st')
    /\ 1 <= BreachChecker.total_breaches_found report
    /\ BreachChecker.risk_level report <> "Clean".
Proof.
  destruct (placeholder_is_counted_as_a_breach "someone@example.com"
              (lab (reply 404 (inr "gone")))
              {| BreachChecker.source := "Breach Directory";
                 BreachChecker.email := "someone@example.com";
                 BreachChecker.found := false;
                 BreachChecker.breaches := None;
                 BreachChecker.record_url := None;
                 BreachChecker.note :=
                   "Manual check required at https://breachdirectory.org/" |}
              (tick_draws (lab (reply 404 (inr "gone")))))
    as (report & st' & Hrun & _ & _ & Hcount & Hrisk & _);
    [reflexivity|].
  exists report, st'. repeat split; assumption.
Defined.

(** The reports of the two extremes: a clean-looking 404 from Have I Been
    Pwned still gives one "breach", a page that mentions "pwned" gives two. *)
Example report_with_placeholder_only :
  fst (BreachChecker.check_breaches "someone@example.com"
         (lab (reply 404 (inr "gone"))))
  = inr {| BreachChecker.report_email := "someone@example.com";
           BreachChecker.total_breaches_found := 1;
           BreachChecker.breach_sources := ["Breach Directory"];
           BreachChecker.risk_level := "Low";
           BreachChecker.recommendations :=
             [ "Change passwords for all accounts associated with this email";
               "Enable two-factor authentication where possible";
               "Monitor accounts for suspicious activity";
               "Consider using a password manager";
               "Check credit reports for unauthorized accounts" ];
           BreachChecker.last_checked := None |}.
Proof. vm_compute. reflexivity. Qed.

Example report_with_two_sources :
  BreachChecker.risk_level
    (BreachChecker.generate_breach_report "someone@example.com"
       [ {| BreachChecker.source := "Have I Been Pwned";
            BreachChecker.email := "someone@example.com";
            BreachChecker.found := true;
            BreachChecker.breaches := Some [];
            BreachChecker.record_url :=
              Some "https://haveibeenpwned.com/account/someone@example.com";
            BreachChecker.note :=
              "Manual verification required - automated checking requires API key" |};
         {| BreachChecker.source := "Breach Directory";
            BreachChecker.email := "someone@example.com";
            BreachChecker.found := false;
            BreachChecker.breaches := None;
            BreachChecker.record_url := None;
            BreachChecker.note :=
              "Manual check required at https://breachdirectory.org/" |} ])
  = "Medium".
Proof. reflexivity. Qed.

(** ** The connection limit of a session (the cap C8 speaks of) *)

(** [create_session] hands [max_workers] to the connector as its limit; the
    default is 50.  What the connector does with it at run time is aiohttp's
    business and outside this model. *)
Lemma session_limit_is_max_workers st :
  session st = None -> user_agents (config st) <> [] ->
  exists s st',
    create_session st = (inr tt, st')
    /\ session st' = Some s /\ limit s = max_workers (config st).
Proof.
  intros Hs Ha.
  cbv beta delta [create_session bind get_config random_choice].
  state_simpl.
  destruct (user_agents (config st)); [congruence|].
  eexists _, _. split; [reflexivity|]. split; reflexivity.
Qed.

Example default_max_workers : max_workers default_config = 50%Z.
Proof. reflexivity. Qed.

(** * Beyond the claims *)

(** ** Dicts: assignment and lookup *)

Lemma dict_get_set_same {V} (d : dict V) key value :
  dict_get (dict_set d key value) key = Some value.
Proof.
  induction d as [|[k v] d IH]; simpl.
  - now rewrite String.eqb_refl.
  - destruct (String.eqb k key) eqn:E; simpl; rewrite E; [reflexivity|exact IH].
Qed.

Lemma dict_get_set_other {V} (d : dict V) key value other :
  other <> key ->
  dict_get (dict_set d key value) other = dict_get d other.
Proof.
  intros Hne. induction d as [|[k v] d IH]; simpl.
  - destruct (String.eqb key other) eqn:E; [|reflexivity].
    apply String.eqb_eq in E. congruence.
  - destruct (String.eqb k key) eqn:E; simpl.
    + apply String.eqb_eq in E. subst k.
      destruct (String.eqb key other) eqn:E'; [|reflexivity].
      apply String.eqb_eq in E'. congruence.
    + now rewrite IH.
Qed.

Lemma dict_get_In {V} (d : dict V) key value :
  dict_get d key = Some value -> In (key, value) d.
Proof.
  induction d as [|[k v] d IH]; simpl; [discriminate|].
  destruct (String.eqb k key) eqn:E.
  - apply String.eqb_eq in E. intros [= ->]. left. now subst.
  - intros H. right. now apply IH.
Qed.

Lemma dict_get_missing {V} (d : dict V) key :
  dict_get d key = None <-> ~ In key (map fst d).
Proof.
  induction d as [|[k v] d IH]; simpl; [tauto|].
  destruct (String.eqb k key) eqn:E.
  - apply String.eqb_eq in E. split; [discriminate|]. intros H. exfalso. auto.
  - apply String.eqb_neq in E. rewrite IH. tauto.
Qed.

Lemma In_dict_get {V} (d : dict V) key value :
  NoDup (map fst d) -> In (key, value) d -> dict_get d key = Some value.
Proof.
  induction d as [|[k v] d IH]; simpl; [contradiction|].
  intros Hnd [[= -> ->]|Hin].
  - now rewrite String.eqb_refl.
  - inversion Hnd as [|? ? Hk Hnd']; subst.
    destruct (String.eqb k key) eqn:E; [|auto].
    apply String.eqb_eq in E. subst k. exfalso. apply Hk.
    change key with (fst (key, value)). now apply in_map.
Qed.

Lemma dict_set_fresh {V} (d : dict V) key value :
  ~ In key (map fst d) -> dict_set d key value = d ++ [(key, value)].
Proof.
  induction d as [|[k v] d IH]; simpl; [reflexivity|].
  intros Hk. destruct (String.eqb k key) eqn:E.
  - apply String.eqb_eq in E. exfalso. auto.
  - rewrite IH; auto.
Qed.

Lemma dict_set_keys {V} (d : dict V) key value name :
  In name (map fst (dict_set d key value)) <-> name = key \/ In name (map fst d).
Proof.
  induction d as [|[k v] d IH]; simpl.
  - intuition.
  - destruct (String.eqb k key) eqn:E; simpl.
    + apply String.eqb_eq in E. subst k. intuition.
    + rewrite IH. intuition.
Qed.

Lemma dict_set_NoDup {V} (d : dict V) key value :
  NoDup (map fst d) -> NoDup (map fst (dict_set d key value)).
Proof.
  induction d as [|[k v] d IH]; simpl; intros Hnd.
  - constructor; [intros []|constructor].
  - inversion Hnd as [|? ? Hk Hnd']; subst.
    destruct (String.eqb k key) eqn:E; simpl.
    + now constructor.
    + constructor; [|auto]. rewrite dict_set_keys. intros [->|H]; [|auto].
      now rewrite String.eqb_refl in E.
Qed.

(** ** The selection loop on a catalog without repeated names *)

Lemma selection_from (adult : list string) include_adult
  (catalog acc : dict PlatformData) :
  NoDup (map fst acc ++ map fst catalog) ->
  fold_left
    (fun acc entry =>
       if Text.in_list (fst entry) adult && negb include_adult
       then acc
       else dict_set acc (fst entry) (snd entry))
    catalog acc
  = acc ++ filter (fun entry =>
                     negb (Text.in_list (fst entry) adult && negb include_adult))
             catalog.
Proof.
  revert acc. induction catalog as [|[k v] catalog IH]; intros acc Hnd; simpl.
  - now rewrite app_nil_r.
  - destruct (Text.in_list k adult && negb include_adult); simpl.
    + apply IH. eapply NoDup_remove_1. exact Hnd.
    + rewrite dict_set_fresh.
      * rewrite IH; [now rewrite <- app_assoc|].
        rewrite map_app, <- app_assoc. exact Hnd.
      * apply NoDup_remove_2 in Hnd. intros Hin. apply Hnd.
        apply in_or_app. now left.
Qed.

Lemma social_selection_filter self include_adult :
  NoDup (map fst (SocialMediaHunter.platforms self)) ->
  SocialMediaHunter.platforms_to_check self include_adult
  = filter (fun entry =>
              negb (Text.in_list (fst entry) SocialMediaHunter.adult_platforms)
              || include_adult)
      (SocialMediaHunter.platforms self).
Proof.
  intros Hnd. unfold SocialMediaHunter.platforms_to_check.
  rewrite selection_from by exact Hnd. simpl. apply filter_ext.
  intros entry. now rewrite negb_andb, negb_involutive.
Qed.

Lemma username_selection_filter self include_adult :
  NoDup (map fst (UsernameHunter.general_sites self)) ->
  UsernameHunter.platforms_to_check self include_adult
  = filter (fun entry =>
              negb (Text.in_list (fst entry) UsernameHunter.adult_platforms)
              || include_adult)
      (UsernameHunter.general_sites self).
Proof.
  intros Hnd. unfold UsernameHunter.platforms_to_check.
  rewrite selection_from by exact Hnd. simpl. apply filter_ext.
  intros entry. now rewrite negb_andb, negb_involutive.
Qed.

(** X2: on a catalog in which no name is repeated - as in every Python
    dict - the selection loop of either engine is the catalog filtered in
    order: the entries on the adult list go when [include_adult] is off, and
    nothing goes when it is on. *)
Theorem selection_is_a_filter include_adult :
  (forall self,
     NoDup (map fst (SocialMediaHunter.platforms self)) ->
     SocialMediaHunter.platforms_to_check self include_adult
     = filter (fun entry =>
                 negb (Text.in_list (fst entry) SocialMediaHunter.adult_platforms)
                 || include_adult)
         (SocialMediaHunter.platforms self))
  /\ (forall self,
        NoDup (map fst (UsernameHunter.general_sites self)) ->
        UsernameHunter.platforms_to_check self include_adult
        = filter (fun entry =>
                    negb (Text.in_list (fst entry) UsernameHunter.adult_platforms)
                    || include_adult)
            (UsernameHunter.general_sites self)).
Proof.
  split; intros self Hnd.
  - now apply social_selection_filter.
  - now apply username_selection_filter.
Qed.

Lemma selection_is_a_filter_witness :
  NoDup (map fst (UsernameHunter.general_sites UsernameHunter.init))
  /\ UsernameHunter.platforms_to_check UsernameHunter.init true
     = UsernameHunter.general_sites UsernameHunter.init.
Proof.
  assert (Hnd : NoDup (map fst (UsernameHunter.general_sites UsernameHunter.init))).
  { repeat (constructor; [simpl; intuition discriminate|]). constructor. }
  split; [exact Hnd|].
  destruct (selection_is_a_filter true) as [_ Hu].
  rewrite (Hu UsernameHunter.init Hnd). reflexivity.
Defined.

(** ** [add_custom_platform] and [get_platform_list] *)

(** X3: after [add_custom_platform] the name is in the platform list with
    the data given (the pattern serving as both URLs), whether or not it was
    there before; every other name keeps its data, no other name appears or
    disappears, and a list without repeated names stays without. *)
Theorem custom_platform_is_registered self name url_pattern indicators
  not_found_indicators :
  dict_get
    (SocialMediaHunter.platforms
       (SocialMediaHunter.add_custom_platform self name url_pattern indicators
          not_found_indicators)) name
  = Some {| url := url_pattern; check_url := url_pattern;
            indicators := indicators;
            not_found_indicators := not_found_indicators |}
  /\ (forall other,
        other <> name ->
        dict_get
          (SocialMediaHunter.platforms
             (SocialMediaHunter.add_custom_platform self name url_pattern
                indicators not_found_indicators)) other
        = dict_get (SocialMediaHunter.platforms self) other)
  /\ (forall other,
        In other
          (SocialMediaHunter.get_platform_list
             (SocialMediaHunter.add_custom_platform self name url_pattern
                indicators not_found_indicators))
        <-> other = name
            \/ In other (SocialMediaHunter.get_platform_list self))
  /\ (NoDup (SocialMediaHunter.get_platform_list self) ->
      NoDup
        (SocialMediaHunter.get_platform_list
           (SocialMediaHunter.add_custom_platform self name url_pattern
              indicators not_found_indicators))).
Proof.
  unfold SocialMediaHunter.add_custom_platform,
    SocialMediaHunter.get_platform_list. cbn [SocialMediaHunter.platforms].
  split; [apply dict_get_set_same|].
  split; [intros other Hne; now apply dict_get_set_other|].
  split; [intros other; apply dict_set_keys|apply dict_set_NoDup].
Qed.

Lemma custom_platform_is_registered_witness :
  "instagram" <> "x_test"
  /\ dict_get
       (SocialMediaHunter.platforms
          (SocialMediaHunter.add_custom_platform SocialMediaHunter.init
             "x_test" "https://x.test/{}" ["profile"] ["not found"]))
       "instagram"
     = dict_get (SocialMediaHunter.platforms SocialMediaHunter.init) "instagram".
Proof.
  assert (Hne : "instagram" <> "x_test") by discriminate.
  split; [exact Hne|].
  destruct (custom_platform_is_registered SocialMediaHunter.init
              "x_test" "https://x.test/{}" ["profile"] ["not found"])
    as (_ & Hother & _).
  exact (Hother "instagram" Hne).
Defined.

(** X4: the adult filter goes by name only.  A custom platform whose name is
    not on the hard-coded list is selected for probing whatever
    [include_adult] says; one registered under a name of the list is left out
    when [include_adult] is off. *)
Theorem custom_platform_and_the_adult_filter self name url_pattern indicators
  not_found_indicators :
  NoDup (SocialMediaHunter.get_platform_list self) ->
  (Text.in_list name SocialMediaHunter.adult_platforms = false ->
   forall include_adult,
     In (name, {| url := url_pattern; check_url := url_pattern;
                  indicators := indicators;
                  not_found_indicators := not_found_indicators |})
        (SocialMediaHunter.platforms_to_check
           (SocialMediaHunter.add_custom_platform self name url_pattern
              indicators not_found_indicators) include_adult))
  /\ (Text.in_list name SocialMediaHunter.adult_platforms = true ->
      ~ In name
          (map fst
             (SocialMediaHunter.platforms_to_check
                (SocialMediaHunter.add_custom_platform self name url_pattern
                   indicators not_found_indicators) false))).
Proof.
  intros Hnd. split.
  - intros Hname include_adult.
    rewrite social_selection_filter.
    + apply filter_In. split.
      * apply dict_get_In. unfold SocialMediaHunter.add_custom_platform.
        cbn [SocialMediaHunter.platforms]. apply dict_get_set_same.
      * cbn [fst]. now rewrite Hname.
    + unfold SocialMediaHunter.add_custom_platform.
      cbn [SocialMediaHunter.platforms]. now apply dict_set_NoDup.
  - intros Hname Hin. apply in_map_iff in Hin.
    destruct Hin as (entry & <- & Hin).
    apply social_selection in Hin. destruct Hin as [_ Hin]. congruence.
Qed.

Lemma custom_platform_and_the_adult_filter_witness :
  NoDup (SocialMediaHunter.get_platform_list SocialMediaHunter.init)
  /\ In ("x_test", x_test)
        (SocialMediaHunter.platforms_to_check
           (SocialMediaHunter.add_custom_platform SocialMediaHunter.init
              "x_test" "https://x.test/{}" ["profile"] ["not found"]) false).
Proof.
  assert (Hnd : NoDup (SocialMediaHunter.get_platform_list
                         SocialMediaHunter.init)).
  { repeat (constructor; [simpl; intuition discriminate|]). constructor. }
  split; [exact Hnd|].
  destruct (custom_platform_and_the_adult_filter SocialMediaHunter.init
              "x_test" "https://x.test/{}" ["profile"] ["not found"] Hnd)
    as [Hsel _].
  exact (Hsel eq_refl false).
Defined.

(** ** One request per platform *)

Lemma social_probe_sends_once username platform pd st :
  sent st
  <= sent (snd (SocialMediaHunter.check_username_on_platform
                  username platform pd st))
  <= S (sent st).
Proof. unfold_probe. split_probe. all: cbn; lia. Qed.

Lemma username_probe_sends_once username platform pd st :
  sent st
  <= sent (snd (UsernameHunter.check_username_on_platform
                  username platform pd st))
  <= S (sent st).
Proof. unfold_probe. split_probe. all: cbn; lia. Qed.

Lemma prepared_sent st st1 : prepared st = Some st1 -> sent st1 = sent st.
Proof.
  unfold prepared. destruct (session st); [now intros [= <-]|].
  destruct (user_agents (config st)); [discriminate|]. now intros [= <-].
Qed.

Lemma released_sent st : sent (released st) = sent st.
Proof.
  unfold released. destruct (session st) as [s|]; [|reflexivity].
  destruct (close_raises st (sid s)); reflexivity.
Qed.

Section Counting.

Variable probe : string -> string -> PlatformData -> M ProbeResult.

Hypothesis probe_sends_once :
  forall username platform pd st,
    sent st <= sent (snd (probe username platform pd st)) <= S (sent st).

Lemma batch_sends username selected st :
  sent st
  <= sent (snd (batch_of probe username selected st))
  <= sent st + length selected.
Proof.
  revert st. induction selected as [|[platform pd] rest IH]; intros st.
  - cbn. lia.
  - unfold batch_of in *. cbn [map gather fst snd length].
    unfold bind, capture, ret.
    pose proof (probe_sends_once username platform pd st) as H1.
    destruct (probe username platform pd st) as [o st1]. cbn [fst snd] in *.
    pose proof (IH st1) as H2.
    destruct (gather _ st1) as [[e|rs] st2]; cbn [fst snd] in *; lia.
Qed.

Lemma hunt_sends username selected st :
  sent st
  <= sent (snd (hunt_with (batch_of probe username selected) st))
  <= sent st + length selected.
Proof.
  rewrite hunt_with_unfold. destruct (prepared st) as [st1|] eqn:E.
  - cbn [snd]. rewrite released_sent, <- (prepared_sent st st1 E).
    apply batch_sends.
  - cbn. lia.
Qed.

End Counting.

Lemma subscripts_state d keys st :
  snd (UsernameHunter.subscripts d keys st) = st
  /\ forall adult,
       fst (UsernameHunter.subscripts d keys st) = inr adult ->
       length adult = length keys.
Proof.
  induction keys as [|key keys [IH1 IH2]].
  - split; [reflexivity|]. now intros adult [= <-].
  - cbn [UsernameHunter.subscripts]. unfold bind, dict_item, ret, raise.
    destruct (dict_get d key) as [value|]; cbv beta iota;
      [|cbn [fst snd]; split; [reflexivity|discriminate]].
    destruct (UsernameHunter.subscripts d keys st) as [[e|rest] st'];
      cbn [fst snd] in *; subst st'.
    + split; [reflexivity|discriminate].
    + split; [reflexivity|]. intros adult [= <-]. cbn. f_equal. now apply IH2.
Qed.

(** ** Plain templates *)

Lemma prepend_error p r e :
  prepend p r = inl e <-> r = inl e.
Proof. destruct r; simpl; split; congruence. Qed.

(** On a plain template [format] never meets a replacement field it leaves
    aside. *)
Lemma plain_template_is_formatted arg :
  forall n tmpl used,
    String.length tmpl <= n ->
    plain_template tmpl = true ->
    format_from used tmpl arg
    <> inl (Exception "unsupported replacement field").
Proof.
  induction n as [|n IH]; intros tmpl used Hlen.
  - destruct tmpl; [discriminate|simpl in Hlen; lia].
  - destruct tmpl as [|c rest]; [discriminate|].
    simpl in Hlen. cbn [format_from plain_template].
    destruct (Ascii.eqb c "{").
    + destruct rest as [|d rest']; [discriminate|].
      simpl in Hlen. rewrite andb_true_iff. intros [Hd Hp].
      destruct (Ascii.eqb d "{").
      * rewrite prepend_error. apply IH; [lia|assumption].
      * destruct (Ascii.eqb d "}"); [|discriminate Hd].
        destruct used; [discriminate|].
        rewrite prepend_error. apply IH; [lia|assumption].
    + intros Hp. destruct (Ascii.eqb c "}").
      * destruct rest as [|d rest']; [discriminate|].
        destruct (Ascii.eqb d "}") eqn:Ed; [|discriminate].
        apply Ascii.eqb_eq in Ed. subst d. simpl in Hlen, Hp.
        rewrite prepend_error. apply IH; [lia|assumption].
      * rewrite prepend_error. apply IH; [lia|assumption].
Qed.

(** ** The requests of a hunt, platform by platform *)

Ltac probe_trace :=
  eexists; split;
  [ state_simpl; rewrite <- ?app_assoc;
    first [reflexivity | symmetry; apply app_nil_r]
  | unfold check_urls; cbn [flat_map fst snd app requested];
    repeat match goal with
           | H : format _ _ = _ |- _ => rewrite ?H; clear H
           end;
    try reflexivity; try congruence ].

Lemma social_probe_requests username platform pd st :
  exists delta,
    trace (snd (SocialMediaHunter.check_username_on_platform
                  username platform pd st)) = trace st ++ delta
    /\ requested delta
       = match session st, user_agents (config st) with
         | Some _, _ :: _ => check_urls username [(platform, pd)]
         | _, _ => []
         end.
Proof. unfold_probe. split_probe. all: probe_trace. Qed.

Lemma username_probe_requests username platform pd st :
  exists delta,
    trace (snd (UsernameHunter.check_username_on_platform
                  username platform pd st)) = trace st ++ delta
    /\ requested delta
       = match session st, user_agents (config st) with
         | Some _, _ :: _ => check_urls username [(platform, pd)]
         | _, _ => []
         end.
Proof. unfold_probe. split_probe. all: probe_trace. Qed.

Lemma check_urls_cons username entry rest :
  check_urls username (entry :: rest)
  = check_urls username [entry] ++ check_urls username rest.
Proof. unfold check_urls. cbn [flat_map]. now rewrite app_nil_r. Qed.

Lemma check_urls_length username platforms :
  length (check_urls username platforms) <= length platforms.
Proof.
  induction platforms as [|entry rest IH]; [reflexivity|].
  rewrite check_urls_cons, length_app. cbn [length].
  assert (length (check_urls username [entry]) <= 1); [|lia].
  unfold check_urls. cbn [flat_map].
  destruct (format (check_url (snd entry)) username); cbn; lia.
Qed.

Section Requests.

Variable probe : string -> string -> PlatformData -> M ProbeResult.

Hypothesis probe_step :
  forall username platform pd st,
  exists delta,
    probes_only st (snd (probe username platform pd st)) delta
    /\ (forall u, In u (requested delta) ->
                  format (check_url pd) username = inr u)
    /\ probe_outcome username (platform, pd)
         (fst (probe username platform pd st)).

Hypothesis probe_requests :
  forall username platform pd st,
  exists delta,
    trace (snd (probe username platform pd st)) = trace st ++ delta
    /\ requested delta
       = match session st, user_agents (config st) with
         | Some _, _ :: _ => check_urls username [(platform, pd)]
         | _, _ => []
         end.

Variable username : string.

Lemma batch_requests (selected : dict PlatformData) :
  forall st,
  exists results st' delta,
    batch_of probe username selected st = (inr results, st')
    /\ probes_only st st' delta
    /\ requested delta
       = match session st, user_agents (config st) with
         | Some _, _ :: _ => check_urls username selected
         | _, _ => []
         end.
Proof.
  induction selected as [|[platform pd] rest IH]; intros st.
  - exists [], st, []. split; [reflexivity|].
    split; [apply probes_only_refl|].
    destruct (session st), (user_agents (config st)); reflexivity.
  - unfold batch_of in *. cbn [map gather fst snd].
    destruct (probe_step username platform pd st) as (d1 & Hp & _ & _).
    destruct (probe_requests username platform pd st) as (d1' & Ht & Hq).
    assert (d1' = d1).
    { destruct Hp as (_ & _ & _ & Ht' & _). rewrite Ht' in Ht.
      now apply app_inv_head in Ht. }
    subst d1'.
    unfold bind at 1, capture.
    destruct (IH (snd (probe username platform pd st)))
      as (rs & st2 & d2 & Hg & Hp2 & Hq2).
    unfold bind, ret. rewrite Hg.
    exists (fst (probe username platform pd st) :: rs), st2, (d1 ++ d2).
    split; [reflexivity|]. split; [eapply probes_only_trans; eassumption|].
    rewrite requested_app, Hq, Hq2.
    destruct Hp as ((Hcfg & _) & Hsess & _). rewrite Hsess, Hcfg.
    destruct (session st), (user_agents (config st)); try reflexivity.
    now rewrite (check_urls_cons username (platform, pd) rest).
Qed.

(** Whatever the state, a hunt sends the requests of its platforms, one
    each and in order, or - with no user agent to send them under - none. *)
Lemma hunt_requests_exact (selected : dict PlatformData) st :
  exists delta,
    trace (snd (hunt_with (batch_of probe username selected) st))
    = trace st ++ delta
    /\ same_setup st (snd (hunt_with (batch_of probe username selected) st))
    /\ requested delta
       = match user_agents (config st) with
         | [] => []
         | _ :: _ => check_urls username selected
         end.
Proof.
  rewrite hunt_with_unfold.
  destruct (prepared_cases st)
    as [(-> & _ & Ha)|(st1 & s1 & pre & -> & Hs1 & Hset & Hpre & Hq)].
  - exists []. cbn [fst snd]. rewrite app_nil_r, Ha.
    split; [reflexivity|]. split; [apply same_setup_refl|reflexivity].
  - destruct (batch_requests selected st1)
      as (gathered & st2 & delta & -> & (Hset2 & _ & _ & Ht & _) & Hreq).
    cbn [fst snd].
    destruct (released_trace st2) as (Hset3 & post & Hpost & Hq').
    exists (pre ++ delta ++ post).
    split; [rewrite Hpost, Ht, Hpre, <- !app_assoc; reflexivity|].
    split.
    { eapply same_setup_trans; [eassumption|].
      eapply same_setup_trans; eassumption. }
    rewrite !requested_app, Hq, Hq', app_nil_r, Hreq, Hs1.
    destruct Hset as (Hcfg & _). now rewrite Hcfg.
Qed.

End Requests.

(** X1: over a scope whose check URLs have no replacement field but [{}],
    a hunt sends exactly one request per platform, in the order of the scope
    and to the check URL of the platform - none where that URL cannot be
    formed, and none at all when there is no user agent to send under.  No
    probe is retried and no platform is asked twice within a hunt, whatever
    the network answers; so the requests counted by the engine stay within
    the size of the scope. *)
Theorem at_most_one_request_per_platform username st :
  (forall platforms,
     plain_scope platforms = true ->
     exists delta,
       trace (snd (UsernameHunter.hunt_platforms username platforms st))
       = trace st ++ delta
       /\ requested delta
          = match user_agents (config st) with
            | [] => []
            | _ :: _ => check_urls username platforms
            end
       /\ length (requested delta) <= length platforms
       /\ sent (snd (UsernameHunter.hunt_platforms username platforms st))
          <= sent st + length platforms)
  /\ (forall self include_adult,
        plain_scope (SocialMediaHunter.platforms_to_check self include_adult)
        = true ->
        exists delta,
          trace (snd (SocialMediaHunter.hunt_username self username
                        include_adult st))
          = trace st ++ delta
          /\ requested delta
             = match user_agents (config st) with
               | [] => []
               | _ :: _ =>
                   check_urls username
                     (SocialMediaHunter.platforms_to_check self include_adult)
               end
          /\ length (requested delta)
             <= length (SocialMediaHunter.platforms_to_check self include_adult)
          /\ sent (snd (SocialMediaHunter.hunt_username self username
                          include_adult st))
             <= sent st
                + length (SocialMediaHunter.platforms_to_check self
                            include_adult)).
Proof.
  split.
  - intros platforms _. rewrite username_hunt_is_framed.
    destruct (hunt_requests_exact _ username_probe_step
                username_probe_requests username platforms st)
      as (delta & Ht & _ & Hq).
    exists delta. split; [exact Ht|]. split; [exact Hq|]. split.
    + rewrite Hq. destruct (user_agents (config st)); [cbn; lia|].
      apply check_urls_length.
    + apply (hunt_sends _ username_probe_sends_once).
  - intros self include_adult _. rewrite social_hunt_is_framed.
    destruct (hunt_requests_exact _ social_probe_step
                social_probe_requests username
                (SocialMediaHunter.platforms_to_check self include_adult) st)
      as (delta & Ht & _ & Hq).
    exists delta. split; [exact Ht|]. split; [exact Hq|]. split.
    + rewrite Hq. destruct (user_agents (config st)); [cbn; lia|].
      apply check_urls_length.
    + apply (hunt_sends _ social_probe_sends_once).
Qed.

Lemma at_most_one_request_per_platform_witness :
  plain_scope (SocialMediaHunter.platforms_to_check SocialMediaHunter.init false)
  = true
  /\ exists delta,
       trace (snd (SocialMediaHunter.hunt_username SocialMediaHunter.init
                     "jane" false (lab (refuse (TimeoutError EmptyString)))))
       = trace (lab (refuse (TimeoutError EmptyString))) ++ delta
       /\ requested delta
          = check_urls "jane"
              (SocialMediaHunter.platforms_to_check SocialMediaHunter.init false).
Proof.
  assert (Hplain : plain_scope (SocialMediaHunter.platforms_to_check
                                  SocialMediaHunter.init false) = true)
    by (vm_compute; reflexivity).
  split; [exact Hplain|].
  destruct (at_most_one_request_per_platform "jane"
              (lab (refuse (TimeoutError EmptyString)))) as [_ Hs].
  destruct (Hs SocialMediaHunter.init false Hplain) as (delta & Ht & Hq & _).
  exists delta. split; [exact Ht|exact Hq].
Defined.

(** Two platforms, one of which cannot be reached: each gets its one
    request. *)
Example requests_of_two_platforms :
  requested
    (trace (snd (UsernameHunter.hunt_platforms "testuser123"
                   [("down", x_test);
                    ("up", {| url := "https://y.test/{}";
                              check_url := "https://y.test/u/{}";
                              indicators := []; not_found_indicators := [] |})]
                   (lab (fun n _ =>
                           match n with
                           | 0 => inl (TimeoutError EmptyString)
                           | _ => inr {| status := 200; text := inr "ok" |}
                           end)))))
  = ["https://x.test/testuser123"; "https://y.test/u/testuser123"].
Proof. vm_compute. reflexivity. Qed.

(** The stock catalogs against a network that answers: every platform of
    the scope gets its one request. *)
Example requests_of_the_stock_hunts :
  sent (snd (UsernameHunter.hunt_all_platforms UsernameHunter.init
               "testuser123" false (lab (reply 404 (inr "gone")))))
  = 33
  /\ sent (snd (UsernameHunter.hunt_all_platforms UsernameHunter.init
                  "testuser123" true (lab (reply 404 (inr "gone")))))
     = 53.
Proof. split; vm_compute; reflexivity. Qed.

(** ** [hunt_multiple_usernames] *)











(** A configuration file that gives the delay as a string: the second name
    is never hunted. *)
Example delay_as_a_string_stops_the_loop :
  fst (SocialMediaHunter.hunt_multiple_usernames
         {| SocialMediaHunter.platforms := [("x_test", x_test)] |}
         ["alice"; "bob"]
         (start {| user_agents := ["agent"]; timeout := 10; max_workers := 50;
                   verify_ssl := true;
                   delay_between_requests := NotNumber IsStr |}
            (reply 404 (inr "gone")) (fun _ => None) (fun _ => 0)))
  = inl (Exception "'<=' not supported between instances of 'str' and 'int'")
  /\ requested
       (trace
          (snd (SocialMediaHunter.hunt_multiple_usernames
                  {| SocialMediaHunter.platforms := [("x_test", x_test)] |}
                  ["alice"; "bob"]
                  (start {| user_agents := ["agent"]; timeout := 10;
                            max_workers := 50; verify_ssl := true;
                            delay_between_requests := NotNumber IsStr |}
                     (reply 404 (inr "gone")) (fun _ => None) (fun _ => 0)))))
     = ["https://x.test/alice"].
Proof. split; vm_compute; reflexivity. Qed.

(** ** The breach report *)

(** X8: whatever list of records it is given, [generate_breach_report]
    counts them all, rates an empty list "Unknown", one record "Low", two to
    four "Medium" and five or more "High" - so never "Clean" - and gives its
    five recommendations exactly when the list is not empty. *)
Theorem risk_level_by_count email results :
  BreachChecker.total_breaches_found
    (BreachChecker.generate_breach_report email results) = length results
  /\ BreachChecker.breach_sources
       (BreachChecker.generate_breach_report email results)
     = map BreachChecker.source results
  /\ BreachChecker.risk_level
       (BreachChecker.generate_breach_report email results)
     = (if Nat.eqb (length results) 0 then "Unknown"
        else if Nat.leb 5 (length results) then "High"
        else if Nat.leb 2 (length results) then "Medium"
        else "Low")
  /\ BreachChecker.risk_level
       (BreachChecker.generate_breach_report email results) <> "Clean"
  /\ length (BreachChecker.recommendations
               (BreachChecker.generate_breach_report email results))
     = (if Nat.eqb (length results) 0 then 0 else 5).
Proof.
  destruct results as [|r1 [|r2 [|r3 [|r4 [|r5 rest]]]]];
    cbn; repeat split; discriminate.
Qed.

Lemma run_checks_outcome email st s :
  session st = Some s ->
  user_agents (config st) <> [] ->
  exists first st',
    BreachChecker.run_checks
      [BreachChecker.check_haveibeenpwned email;
       BreachChecker.check_breachdirectory email] [] st
    = (inr (first
            ++ [ {| BreachChecker.source := "Breach Directory";
                    BreachChecker.email := email;
                    BreachChecker.found := false;
                    BreachChecker.breaches := None;
                    BreachChecker.record_url := None;
                    BreachChecker.note :=
                      "Manual check required at https://breachdirectory.org/" |} ]),
       st')
    /\ config st' = config st /\ session st' = session st
    /\ close_raises st' = close_raises st
    /\ map BreachChecker.source first
       = (if hibp_page_matches st email then ["Have I Been Pwned"] else []).
Proof.
  intros Hs Ha. unfold hibp_page_matches.
  cbv beta delta [BreachChecker.run_checks BreachChecker.check_haveibeenpwned
                    BreachChecker.check_breachdirectory try_except bind
                    get_config get_lower random_choice session_get response_text ret].
  cbv beta iota zeta.
  destruct (user_agents (config st)) as [|agent pool] eqn:E; [congruence|].
  state_simpl. rewrite Hs. state_simpl.
  destruct (network st (sent st) _) as [e|response]; state_simpl.
  - rewrite E. eexists [], _. repeat split; state_simpl; auto.
  - destruct (status response =? 200)%Z; state_simpl.
    + destruct (text response) as [e|content]; state_simpl.
      * rewrite E. eexists [], _. repeat split; state_simpl; auto.
      * destruct (existsb _ _); state_simpl; rewrite E.
        -- eexists [_], _. repeat split; state_simpl; auto.
        -- eexists [], _. repeat split; state_simpl; auto.
    + rewrite E. eexists [], _. repeat split; state_simpl; auto.
Qed.

Lemma prepared_world st st1 :
  prepared st = Some st1 ->
  config st1 = config st /\ network st1 = network st
  /\ close_raises st1 = close_raises st /\ sent st1 = sent st
  /\ session st1 <> None.
Proof.
  unfold prepared. destruct (session st) eqn:Hs.
  - intros [= <-]. repeat split; congruence.
  - destruct (user_agents (config st)); [discriminate|].
    intros [= <-]. repeat split. discriminate.
Qed.

Lemma prepared_lower st st1 :
  prepared st = Some st1 -> str_lower st1 = str_lower st.
Proof.
  unfold prepared. destruct (session st); [now intros [= <-]|].
  destruct (user_agents (config st)); [discriminate|]. now intros [= <-].
Qed.

Lemma released_config st : config (released st) = config st.
Proof.
  unfold released. destruct (session st) as [s|]; [|reflexivity].
  destruct (close_raises st (sid s)); reflexivity.
Qed.

Lemma check_breaches_report email st :
  user_agents (config st) <> [] ->
  exists report st',
    BreachChecker.check_breaches email st = (inr report, st')
    /\ config st' = config st
    /\ BreachChecker.report_email report = email
    /\ BreachChecker.total_breaches_found report
       = (if hibp_page_matches st email then 2 else 1)
    /\ BreachChecker.risk_level report
       = (if hibp_page_matches st email then "Medium" else "Low")
    /\ BreachChecker.breach_sources report
       = (if hibp_page_matches st email
          then ["Have I Been Pwned"; "Breach Directory"]
          else ["Breach Directory"]).
Proof.
  intros Ha. rewrite check_breaches_is_framed, framed_unfold.
  destruct (prepared st) as [st1|] eqn:Hp.
  - destruct (prepared_world st st1 Hp) as (Hc & Hn & _ & Hsent & Hs).
    destruct (session st1) as [s|] eqn:Hs1; [|congruence].
    rewrite <- Hc in Ha.
    destruct (run_checks_outcome email st1 s Hs1 Ha)
      as (first & st2 & Hrun & Hc2 & _ & _ & Hfirst).
    assert (Hm : hibp_page_matches st1 email = hibp_page_matches st email)
      by (unfold hibp_page_matches;
          now rewrite Hn, Hsent, (prepared_lower st st1 Hp)).
    rewrite Hm in Hfirst.
    unfold bind. rewrite Hrun.
    unfold BreachChecker.check_local_breach_files,
      BreachChecker.check_pastebins,
      BreachChecker.check_social_media_breaches, ret.
    cbn [fst snd app]. rewrite !app_nil_r.
    eexists _, _. split; [reflexivity|].
    split; [rewrite released_config; congruence|].
    destruct (hibp_page_matches st email);
      destruct first as [|hibp [|more first]]; try discriminate Hfirst.
    + injection Hfirst as Hsrc. cbn. rewrite Hsrc. repeat split.
    + cbn. repeat split.
  - exfalso. unfold prepared in Hp. destruct (session st); [discriminate|].
    destruct (user_agents (config st)); [congruence|discriminate].
Qed.

(** X9: with a user agent at hand, [check_breaches] returns a report whose
    count is 1 and risk "Low", unless the page of Have I Been Pwned for the
    address was answered with status 200 and mentions "pwned", "breach" or
    "found": then the count is 2 and the risk "Medium".  No other outcome
    exists. *)
Theorem check_breaches_is_low_or_medium email st :
  user_agents (config st) <> [] ->
  exists report st',
    BreachChecker.check_breaches email st = (inr report, st')
    /\ BreachChecker.report_email report = email
    /\ BreachChecker.total_breaches_found report
       = (if hibp_page_matches st email then 2 else 1)
    /\ BreachChecker.risk_level report
       = (if hibp_page_matches st email then "Medium" else "Low")
    /\ BreachChecker.breach_sources report
       = (if hibp_page_matches st email
          then ["Have I Been Pwned"; "Breach Directory"]
          else ["Breach Directory"]).
Proof.
  intros Ha.
  destruct (check_breaches_report email st Ha)
    as (report & st' & Hrun & _ & H).
  exists report, st'. split; assumption.
Qed.

Lemma check_breaches_is_low_or_medium_witness :
  exists report st',
    BreachChecker.check_breaches "someone@example.com"
      (lab (reply 200 (inr "Good news - no pwnage found!")))
    = (inr report, st')
    /\ BreachChecker.risk_level report = "Medium".
Proof.
  destruct (check_breaches_is_low_or_medium "someone@example.com"
              (lab (reply 200 (inr "Good news - no pwnage found!"))))
    as (report & st' & Hrun & _ & _ & Hrisk & _); [discriminate|].
  exists report, st'. split; [exact Hrun|exact Hrisk].
Defined.






(** ** The configuration file *)


Lemma merge_keeps_missing (loaded : dict ConfigFile.json) :
  forall defaults k,
    ~ In k (map fst loaded) ->
    dict_get (ConfigFile.merge defaults loaded) k = dict_get defaults k.
Proof.
  unfold ConfigFile.merge.
  induction loaded as [|[k' v'] loaded IH]; intros defaults k Hk; simpl.
  - reflexivity.
  - simpl in Hk. rewrite IH by tauto.
    apply dict_get_set_other. intros ->. tauto.
Qed.

Lemma merge_takes_loaded (loaded : dict ConfigFile.json) :
  forall defaults k v,
    NoDup (map fst loaded) -> In (k, v) loaded ->
    dict_get (ConfigFile.merge defaults loaded) k = Some v.
Proof.
  induction loaded as [|[k' v'] loaded IH]; intros defaults k v Hnd Hin.
  - contradiction.
  - simpl in Hnd. inversion Hnd as [|? ? Hk Hnd']; subst.
    destruct Hin as [[= -> ->]|Hin].
    + change (ConfigFile.merge defaults ((k, v) :: loaded))
        with (ConfigFile.merge (dict_set defaults k v) loaded).
      rewrite merge_keeps_missing by assumption. apply dict_get_set_same.
    + change (ConfigFile.merge defaults ((k', v') :: loaded))
        with (ConfigFile.merge (dict_set defaults k' v') loaded).
      now apply IH.
Qed.






(** A file that is there but cannot be read - no permission, a directory,
    bytes that are no text - is not replaced by the defaults: the
    constructor raises. *)
Example unusable_file_raises :
  ConfigFile.init
    (ConfigFile.Unusable
       (Exception "'utf-8' codec can't decode byte 0xff in position 0: invalid start byte"))
  = inl (Exception "'utf-8' codec can't decode byte 0xff in position 0: invalid start byte")
  /\ ConfigFile.init (ConfigFile.Holds (ConfigFile.JList []))
     = inl (Exception "'list' object is not a mapping")
  /\ ConfigFile.init ConfigFile.NotJSON
     = inr {| ConfigFile.config_file :=
                ConfigFile.Holds (ConfigFile.JDict ConfigFile.default_items);
              ConfigFile.config := ConfigFile.JDict ConfigFile.default_items |}.
Proof. repeat split; reflexivity. Qed.


(** X12: the file is merged over the defaults key by key at the top level
    only.  Under a key the file has, a lookup sees what the file says and
    nothing of the defaults; under a key the file lacks, it sees the
    defaults. *)
Theorem file_replaces_defaults_key_by_key loaded :
  NoDup (map fst loaded) ->
  exists c,
    ConfigFile.load_config (ConfigFile.Holds (ConfigFile.JDict loaded))
    = inr (c, ConfigFile.Holds (ConfigFile.JDict loaded))
    /\ (forall k v rest,
          dict_get loaded k = Some v ->
          ConfigFile.walk c (k :: rest) = ConfigFile.walk v rest)
    /\ (forall k rest,
          dict_get loaded k = None ->
          ConfigFile.walk c (k :: rest)
          = ConfigFile.walk (ConfigFile.JDict ConfigFile.default_items)
              (k :: rest)).
Proof.
  intros Hnd.
  exists (ConfigFile.JDict (ConfigFile.merge ConfigFile.default_items loaded)).
  split; [reflexivity|]. split.
  - intros k v rest Hget. cbn [ConfigFile.walk].
    now rewrite (merge_takes_loaded loaded _ k v Hnd (dict_get_In _ _ _ Hget)).
  - intros k rest Hget. cbn [ConfigFile.walk].
    rewrite merge_keeps_missing; [reflexivity|]. now apply dict_get_missing.
Qed.

Lemma file_replaces_defaults_key_by_key_witness :
  NoDup (map fst [("proxy", ConfigFile.JDict [("enabled", ConfigFile.JBool true)])])
  /\ exists c,
       ConfigFile.load_config
         (ConfigFile.Holds
            (ConfigFile.JDict
               [("proxy", ConfigFile.JDict [("enabled", ConfigFile.JBool true)])]))
       = inr (c, ConfigFile.Holds
                   (ConfigFile.JDict
                      [("proxy",
                        ConfigFile.JDict [("enabled", ConfigFile.JBool true)])]))
       /\ ConfigFile.walk c ["proxy"; "http"] = None.
Proof.
  assert (Hnd : NoDup (map fst [("proxy",
                                  ConfigFile.JDict
                                    [("enabled", ConfigFile.JBool true)])])).
  { constructor; [intros []|constructor]. }
  split; [exact Hnd|].
  destruct (file_replaces_defaults_key_by_key
              [("proxy", ConfigFile.JDict [("enabled", ConfigFile.JBool true)])]
              Hnd) as (c & Hload & Hfile & _).
  exists c. split; [exact Hload|].
  exact (Hfile "proxy" (ConfigFile.JDict [("enabled", ConfigFile.JBool true)])
           ["http"] eq_refl).
Defined.

(** The defaults do have a value at [proxy.http]; a file that sets only
    [proxy.enabled] loses it. *)
Example nested_default_is_lost :
  ConfigFile.get (ConfigFile.JDict ConfigFile.default_items) "proxy.http"
    (ConfigFile.JStr "fallback") = ConfigFile.JNull
  /\ ConfigFile.get
       (ConfigFile.JDict
          (ConfigFile.merge ConfigFile.default_items
             [("proxy", ConfigFile.JDict [("enabled", ConfigFile.JBool true)])]))
       "proxy.http" (ConfigFile.JStr "fallback")
     = ConfigFile.JStr "fallback".
Proof. split; reflexivity. Qed.

(** ** [Config.set] *)

Lemma store_not_dict c keys v :
  ConfigFile.is_dict c = false -> exists e, ConfigFile.store c keys v = inl e.
Proof.
  intros Hc. destruct keys as [|k [|k2 rest]].
  - eexists. reflexivity.
  - destruct c; try discriminate; eexists; reflexivity.
  - destruct c; try discriminate; cbn;
      try (eexists; reflexivity).
    + destruct (Text.contains k s); eexists; reflexivity.
    + destruct (existsb _ items); eexists; reflexivity.
Qed.

(** One step of the walk of [set] through a dict: the child it goes into,
    and the dict as it is once the child has been updated. *)
Lemma store_step items k k2 rest v :
  ConfigFile.store (ConfigFile.JDict items) (k :: k2 :: rest) v
  = match ConfigFile.store
            (match dict_get items k with
             | Some child => child
             | None => ConfigFile.JDict []
             end) (k2 :: rest) v with
    | inl e => inl e
    | inr child' =>
        inr (ConfigFile.JDict
               (dict_set
                  (match dict_get items k with
                   | Some _ => items
                   | None => dict_set items k (ConfigFile.JDict [])
                   end) k child'))
    end.
Proof.
  cbn [ConfigFile.store ConfigFile.contains].
  destruct (dict_get items k) as [child|] eqn:E.
  - cbn [ConfigFile.getitem]. rewrite E. reflexivity.
  - cbn [ConfigFile.setitem ConfigFile.getitem].
    rewrite dict_get_set_same. reflexivity.
Qed.

Lemma store_is_dict c keys v c' :
  ConfigFile.store c keys v = inr c' ->
  exists items items',
    c = ConfigFile.JDict items /\ c' = ConfigFile.JDict items'
    /\ (NoDup (map fst items) -> NoDup (map fst items')).
Proof.
  intros Hstore.
  destruct (ConfigFile.is_dict c) eqn:Hc.
  - destruct c; try discriminate. exists items.
    destruct keys as [|k [|k2 rest]].
    + discriminate.
    + cbn in Hstore. injection Hstore as <-. eexists. split; [reflexivity|].
      split; [reflexivity|apply dict_set_NoDup].
    + rewrite store_step in Hstore.
      destruct (ConfigFile.store _ (k2 :: rest) v) as [e|child'];
        [discriminate|].
      injection Hstore as <-. eexists. split; [reflexivity|].
      split; [reflexivity|]. intros Hnd. apply dict_set_NoDup.
      destruct (dict_get items k); [assumption|now apply dict_set_NoDup].
  - destruct (store_not_dict c keys v Hc) as (e & He). congruence.
Qed.

Lemma store_then_walk keys :
  forall c v c',
    ConfigFile.store c keys v = inr c' -> ConfigFile.walk c' keys = Some v.
Proof.
  induction keys as [|k rest IH]; intros c v c' Hstore; [discriminate|].
  destruct (store_is_dict c (k :: rest) v c' Hstore)
    as (items & items' & -> & -> & _).
  destruct rest as [|k2 rest].
  - cbn in Hstore. injection Hstore as <-. cbn.
    now rewrite dict_get_set_same.
  - rewrite store_step in Hstore.
    destruct (ConfigFile.store _ (k2 :: rest) v) as [e|child'] eqn:E;
      [discriminate|].
    injection Hstore as <-. cbn [ConfigFile.walk].
    rewrite dict_get_set_same. exact (IH _ _ _ E).
Qed.



(** X13: when [set] succeeds, [get] of the same dotted key returns the value
    just set, whatever default it is given, and the file holds the new
    configuration. *)
Theorem get_after_set self key value self' :
  ConfigFile.set self key value = inr self' ->
  (forall default, ConfigFile.get (ConfigFile.config self') key default = value)
  /\ ConfigFile.config_file self'
     = ConfigFile.Holds (ConfigFile.config self').
Proof.
  unfold ConfigFile.set.
  destruct (ConfigFile.store _ _ value) as [e|config'] eqn:E; [discriminate|].
  intros [= <-]. split; [|reflexivity].
  intros default. unfold ConfigFile.get. cbn [ConfigFile.config ConfigFile.save_config].
  now rewrite (store_then_walk _ _ _ _ E).
Qed.

Lemma get_after_set_witness :
  exists self',
    ConfigFile.set
      {| ConfigFile.config_file := ConfigFile.Absent;
         ConfigFile.config := ConfigFile.JDict ConfigFile.default_items |}
      "proxy.auth.user" (ConfigFile.JStr "alice")
    = inr self'
    /\ ConfigFile.get (ConfigFile.config self') "proxy.auth.user"
         ConfigFile.JNull
       = ConfigFile.JStr "alice".
Proof.
  eexists. split; [reflexivity|].
  refine (proj1 (get_after_set
                   {| ConfigFile.config_file := ConfigFile.Absent;
                      ConfigFile.config :=
                        ConfigFile.JDict ConfigFile.default_items |}
                   "proxy.auth.user" (ConfigFile.JStr "alice") _ eq_refl)
            ConfigFile.JNull).
Defined.





(** A path through the number at [timeout]: the dicts are untouched. *)
Example set_through_a_number_raises :
  ConfigFile.set
    {| ConfigFile.config_file := ConfigFile.Absent;
       ConfigFile.config := ConfigFile.JDict ConfigFile.default_items |}
    "timeout.connect" (ConfigFile.JInt 3)
  = inl (Exception "'int' object does not support item assignment").
Proof. reflexivity. Qed.

Example set_through_a_string_raises :
  ConfigFile.set
    {| ConfigFile.config_file := ConfigFile.Absent;
       ConfigFile.config := ConfigFile.JDict ConfigFile.default_items |}
    "output.default_format.json.x" (ConfigFile.JInt 3)
  = inl (Exception "string indices must be integers, not 'str'").
Proof. reflexivity. Qed.

(** X16: what [set] wrote is still there for a [Config] constructed from
    the file afterwards, provided no key was there twice at the top level
    (as [load_config] and [set] see to). *)
Theorem set_survives_a_reload self key value self' :
  ConfigFile.top_level_unique (ConfigFile.config self) ->
  ConfigFile.set self key value = inr self' ->
  ConfigFile.top_level_unique (ConfigFile.config self')
  /\ exists reloaded,
       ConfigFile.init (ConfigFile.config_file self') = inr reloaded
       /\ forall default,
            ConfigFile.get (ConfigFile.config reloaded) key default = value.
Proof.
  intros (items & Hc & Hnd). unfold ConfigFile.set.
  destruct (ConfigFile.store _ _ value) as [e|config'] eqn:E; [discriminate|].
  intros [= <-]. cbn [ConfigFile.config ConfigFile.config_file
                       ConfigFile.save_config].
  rewrite Hc in E.
  destruct (store_is_dict _ _ _ _ E) as (items0 & items' & [= <-] & -> & Hnd').
  specialize (Hnd' Hnd).
  split; [now exists items'|].
  eexists. split; [reflexivity|].
  intros default. unfold ConfigFile.get. cbn [ConfigFile.config].
  pose proof (store_then_walk _ _ _ _ E) as Hwalk.
  destruct (Str.split "." key) as [|k rest]; [discriminate|].
  cbn [ConfigFile.walk] in *.
  destruct (dict_get items' k) as [child|] eqn:Eg; [|discriminate].
  rewrite (merge_takes_loaded items' _ k child Hnd' (dict_get_In _ _ _ Eg)).
  now rewrite Hwalk.
Qed.

Lemma set_survives_a_reload_witness :
  ConfigFile.top_level_unique (ConfigFile.JDict ConfigFile.default_items)
  /\ exists self' reloaded,
       ConfigFile.set
         {| ConfigFile.config_file := ConfigFile.Absent;
            ConfigFile.config := ConfigFile.JDict ConfigFile.default_items |}
         "max_workers" (ConfigFile.JInt 8)
       = inr self'
       /\ ConfigFile.init (ConfigFile.config_file self') = inr reloaded
       /\ ConfigFile.get (ConfigFile.config reloaded) "max_workers"
            (ConfigFile.JInt 50)
          = ConfigFile.JInt 8.
Proof.
  assert (Hu : ConfigFile.top_level_unique
                 (ConfigFile.JDict ConfigFile.default_items)).
  { exists ConfigFile.default_items. split; [reflexivity|].
    repeat (constructor; [simpl; intuition discriminate|]). constructor. }
  split; [exact Hu|].
  eexists.
  destruct (set_survives_a_reload
              {| ConfigFile.config_file := ConfigFile.Absent;
                 ConfigFile.config := ConfigFile.JDict ConfigFile.default_items |}
              "max_workers" (ConfigFile.JInt 8) _ Hu eq_refl)
    as (_ & reloaded & Hinit & Hget).
  exists reloaded. split; [reflexivity|]. split; [exact Hinit|apply Hget].
Defined.

(** ** Strings *)

Lemma sapp_nil_r s : (s ++ EmptyString)%string = s.
Proof. induction s as [|c s IH]; simpl; [reflexivity|now rewrite IH]. Qed.

Lemma sapp_assoc s t u : ((s ++ t) ++ u)%string = (s ++ (t ++ u))%string.
Proof. induction s as [|c s IH]; simpl; [reflexivity|now rewrite IH]. Qed.

Lemma sapp_length s t :
  String.length (s ++ t)%string = String.length s + String.length t.
Proof. induction s as [|c s IH]; simpl; [reflexivity|now rewrite IH]. Qed.

Lemma sapp_eq_nil s t :
  (s ++ t)%string = EmptyString -> s = EmptyString /\ t = EmptyString.
Proof. destruct s; simpl; [auto|discriminate]. Qed.

Lemma all_chars_app p s t :
  Str.all_chars p (s ++ t)%string = Str.all_chars p s && Str.all_chars p t.
Proof.
  induction s as [|c s IH]; simpl; [reflexivity|].
  now rewrite IH, andb_assoc.
Qed.

Lemma all_chars_weaken (p q : ascii -> bool) s :
  (forall c, p c = true -> q c = true) ->
  Str.all_chars p s = true -> Str.all_chars q s = true.
Proof.
  intros Hpq. induction s as [|c s IH]; simpl; [reflexivity|].
  rewrite !andb_true_iff. intros [H1 H2]. auto.
Qed.

Lemma count_app c s t :
  Str.count c (s ++ t)%string = Str.count c s + Str.count c t.
Proof.
  induction s as [|d s IH]; simpl; [reflexivity|]. rewrite IH. lia.
Qed.

Lemma count_none p c s :
  p c = false -> Str.all_chars p s = true -> Str.count c s = 0.
Proof.
  intros Hc. induction s as [|d s IH]; simpl; [reflexivity|].
  rewrite andb_true_iff. intros [Hd Hs].
  destruct (Ascii.eqb c d) eqn:E; [|auto].
  apply Ascii.eqb_eq in E. congruence.
Qed.

(** ** Regular expressions: the matcher decides the language *)

Lemma matches_seq r1 r2 s :
  Regex.Matches (Regex.Seq r1 r2) s
  <-> exists s1 s2,
        s = (s1 ++ s2)%string /\ Regex.Matches r1 s1 /\ Regex.Matches r2 s2.
Proof.
  split.
  - intros H. inversion H; subst. eauto.
  - intros (s1 & s2 & -> & H1 & H2). now constructor.
Qed.

Lemma matches_class p s :
  Regex.Matches (Regex.Class p) s
  <-> exists c, s = String c EmptyString /\ p c = true.
Proof.
  split.
  - intros H. inversion H; subst. eauto.
  - intros (c & -> & Hc). now constructor.
Qed.

Lemma matches_alt r1 r2 s :
  Regex.Matches (Regex.Alt r1 r2) s
  <-> Regex.Matches r1 s \/ Regex.Matches r2 s.
Proof.
  split.
  - intros H. inversion H; subst; auto.
  - intros [H|H]; [now apply Regex.MAltL|now apply Regex.MAltR].
Qed.

Lemma nullable_spec r :
  Regex.nullable r = true <-> Regex.Matches r EmptyString.
Proof.
  induction r as [| |p|r1 IH1 r2 IH2|r1 IH1 r2 IH2|r IH]; simpl.
  - split; [discriminate|intros H; inversion H].
  - split; [constructor|reflexivity].
  - split; [discriminate|intros H; inversion H].
  - rewrite andb_true_iff, IH1, IH2, matches_seq. split.
    + intros [H1 H2]. now exists EmptyString, EmptyString.
    + intros (s1 & s2 & Heq & H1 & H2). symmetry in Heq.
      apply sapp_eq_nil in Heq. destruct Heq as [-> ->]. auto.
  - now rewrite orb_true_iff, IH1, IH2, matches_alt.
  - split; [constructor|reflexivity].
Qed.

Lemma matches_star_cons r c s :
  Regex.Matches (Regex.Star r) (String c s) ->
  exists s1 s2,
    s = (s1 ++ s2)%string /\ Regex.Matches r (String c s1)
    /\ Regex.Matches (Regex.Star r) s2.
Proof.
  intros H. remember (Regex.Star r) as r' eqn:Er.
  remember (String c s) as str eqn:Es. revert s Es.
  induction H as [| | | | | |r0 s1 s2 H1 _ H2 IH2]; try discriminate.
  intros s Es. injection Er as ->. destruct s1 as [|d s1].
  - simpl in Es. now apply IH2.
  - simpl in Es. injection Es as -> <-. now exists s1, s2.
Qed.

Lemma deriv_spec r :
  forall c s,
    Regex.Matches (Regex.deriv c r) s <-> Regex.Matches r (String c s).
Proof.
  induction r as [| |p|r1 IH1 r2 IH2|r1 IH1 r2 IH2|r IH]; intros c s; simpl.
  - split; intros H; inversion H.
  - split; intros H; inversion H.
  - destruct (p c) eqn:E; split; intros H.
    + inversion H; subst. now constructor.
    + inversion H; subst. constructor.
    + inversion H.
    + inversion H; subst. congruence.
  - assert (Hleft : Regex.Matches (Regex.Seq (Regex.deriv c r1) r2) s
                    <-> exists s1 s2,
                          s = (s1 ++ s2)%string
                          /\ Regex.Matches r1 (String c s1)
                          /\ Regex.Matches r2 s2).
    { rewrite matches_seq. split; intros (s1 & s2 & Heq & H1 & H2);
        exists s1, s2; (split; [assumption|]); split; try assumption;
          now apply IH1. }
    rewrite (matches_seq r1 r2 (String c s)).
    destruct (Regex.nullable r1) eqn:N.
    + rewrite matches_alt, Hleft, IH2. split.
      * intros [(s1 & s2 & -> & H1 & H2)|H2].
        -- now exists (String c s1), s2.
        -- exists EmptyString, (String c s). split; [reflexivity|].
           split; [now apply nullable_spec|assumption].
      * intros (s1 & s2 & Heq & H1 & H2). destruct s1 as [|d s1].
        -- simpl in Heq. subst s2. now right.
        -- simpl in Heq. injection Heq as <- ->. left. now exists s1, s2.
    + rewrite Hleft. split.
      * intros (s1 & s2 & -> & H1 & H2). now exists (String c s1), s2.
      * intros (s1 & s2 & Heq & H1 & H2). destruct s1 as [|d s1].
        -- apply nullable_spec in H1. congruence.
        -- simpl in Heq. injection Heq as <- ->. now exists s1, s2.
  - now rewrite !matches_alt, IH1, IH2.
  - rewrite matches_seq. split.
    + intros (s1 & s2 & -> & H1 & H2). apply IH in H1.
      change (String c (s1 ++ s2)) with (String c s1 ++ s2)%string.
      now constructor.
    + intros H. apply matches_star_cons in H.
      destruct H as (s1 & s2 & -> & H1 & H2).
      exists s1, s2. split; [reflexivity|]. split; [now apply IH|assumption].
Qed.

Lemma fullmatch_spec s :
  forall r, Regex.fullmatch r s = true <-> Regex.Matches r s.
Proof.
  induction s as [|c s IH]; intros r; simpl.
  - apply nullable_spec.
  - now rewrite IH, deriv_spec.
Qed.

Lemma matches_star_class p s :
  Regex.Matches (Regex.Star (Regex.Class p)) s <-> Str.all_chars p s = true.
Proof.
  split.
  - intros H. remember (Regex.Star (Regex.Class p)) as r eqn:Er.
    induction H as [| | | | | |r0 s1 s2 H1 _ H2 IH2]; try discriminate.
    + reflexivity.
    + injection Er as ->. apply matches_class in H1.
      destruct H1 as (c & -> & Hc). simpl. rewrite Hc. now apply IH2.
  - induction s as [|c s IH]; simpl; [constructor|].
    rewrite andb_true_iff. intros [Hc Hs].
    change (String c s) with (String c EmptyString ++ s)%string.
    constructor; [now constructor|auto].
Qed.

Lemma matches_plus_class p s :
  Regex.Matches (Regex.plus (Regex.Class p)) s
  <-> s <> EmptyString /\ Str.all_chars p s = true.
Proof.
  unfold Regex.plus. rewrite matches_seq. split.
  - intros (s1 & s2 & -> & H1 & H2). apply matches_class in H1.
    destruct H1 as (c & -> & Hc). apply matches_star_class in H2.
    simpl. rewrite Hc, H2. split; [discriminate|reflexivity].
  - intros [Hne Hall]. destruct s as [|c s]; [congruence|].
    simpl in Hall. apply andb_true_iff in Hall. destruct Hall as [Hc Hs].
    exists (String c EmptyString), s. split; [reflexivity|].
    split; [now constructor|now apply matches_star_class].
Qed.

Lemma matches_two_or_more_class p s :
  Regex.Matches (Regex.two_or_more (Regex.Class p)) s
  <-> 2 <= String.length s /\ Str.all_chars p s = true.
Proof.
  unfold Regex.two_or_more. rewrite matches_seq. split.
  - intros (s1 & s2 & -> & H1 & H2). apply matches_class in H1.
    destruct H1 as (c & -> & Hc). apply matches_seq in H2.
    destruct H2 as (s3 & s4 & -> & H3 & H4). apply matches_class in H3.
    destruct H3 as (d & -> & Hd). apply matches_star_class in H4.
    simpl. rewrite Hc, Hd, H4. split; [lia|reflexivity].
  - intros [Hlen Hall]. destruct s as [|c [|d s]]; simpl in Hlen; try lia.
    simpl in Hall. apply andb_true_iff in Hall. destruct Hall as [Hc Hall].
    apply andb_true_iff in Hall. destruct Hall as [Hd Hs].
    exists (String c EmptyString), (String d s). split; [reflexivity|].
    split; [now constructor|]. apply matches_seq.
    exists (String d EmptyString), s. split; [reflexivity|].
    split; [now constructor|now apply matches_star_class].
Qed.

(** ** [strip] *)

Lemma newline_is_space c : Ascii.eqb c "010" = true -> Str.is_space c = true.
Proof. intros H. apply Ascii.eqb_eq in H. now subst. Qed.

Lemma chop_newline_rstrip s : Regex.chop_newline (Str.rstrip s) = None.
Proof.
  induction s as [|c s IH]; simpl; [reflexivity|].
  destruct (Str.rstrip s) as [|d kept] eqn:E.
  - destruct (Str.is_space c) eqn:Hc; [reflexivity|]. simpl.
    destruct (Ascii.eqb c "010") eqn:En; [|reflexivity].
    apply newline_is_space in En. congruence.
  - change (Regex.chop_newline (String c (String d kept)))
      with (match Regex.chop_newline (String d kept) with
            | Some k => Some (String c k)
            | None => None
            end).
    now rewrite IH.
Qed.

Lemma match_line_strip r s :
  Regex.match_line r (Str.strip s) = Regex.fullmatch r (Str.strip s).
Proof.
  unfold Regex.match_line, Str.strip. rewrite chop_newline_rstrip.
  apply orb_false_r.
Qed.

(** A string no character of which is a space is its own [strip]. *)
Lemma strip_spaceless s :
  Str.all_chars (fun c => negb (Str.is_space c)) s = true -> Str.strip s = s.
Proof.
  intros H. unfold Str.strip.
  assert (Hl : Str.lstrip s = s).
  { destruct s as [|c s]; [reflexivity|]. simpl in *.
    apply andb_true_iff in H. destruct H as [Hc _].
    apply negb_true_iff in Hc. now rewrite Hc. }
  rewrite Hl. induction s as [|c s IH]; [reflexivity|].
  simpl in H. apply andb_true_iff in H. destruct H as [Hc Hs].
  apply negb_true_iff in Hc.
  assert (Hl' : Str.lstrip s = s).
  { destruct s as [|d s]; [reflexivity|]. simpl in *.
    apply andb_true_iff in Hs. destruct Hs as [Hd _].
    apply negb_true_iff in Hd. now rewrite Hd. }
  simpl. rewrite (IH Hs Hl'). destruct s; [now rewrite Hc|reflexivity].
Qed.

Lemma rstrip_idem s : Str.rstrip (Str.rstrip s) = Str.rstrip s.
Proof.
  induction s as [|c s IH]; [reflexivity|]. simpl.
  destruct (Str.rstrip s) as [|d kept] eqn:E.
  - destruct (Str.is_space c) eqn:Hc; [reflexivity|]. simpl. now rewrite Hc.
  - change (Str.rstrip (String c (String d kept)))
      with (match Str.rstrip (String d kept) with
            | EmptyString =>
                if Str.is_space c then EmptyString else String c EmptyString
            | String d' kept' => String c (String d' kept')
            end).
    now rewrite IH.
Qed.

Lemma lstrip_head s :
  match Str.lstrip s with
  | EmptyString => True
  | String c _ => Str.is_space c = false
  end.
Proof.
  induction s as [|c s IH]; simpl; [exact I|].
  destruct (Str.is_space c) eqn:E; [exact IH|exact E].
Qed.

Lemma strip_idem s : Str.strip (Str.strip s) = Str.strip s.
Proof.
  unfold Str.strip. pose proof (lstrip_head s) as Hh.
  destruct (Str.lstrip s) as [|c rest] eqn:E; [reflexivity|].
  assert (Hr : exists kept, Str.rstrip (String c rest) = String c kept).
  { simpl. destruct (Str.rstrip rest); [rewrite Hh|]; eauto. }
  destruct Hr as (kept & Hr). rewrite Hr. simpl Str.lstrip. rewrite Hh.
  rewrite <- Hr. apply rstrip_idem.
Qed.

Lemma strip_nil_only s : Str.strip s <> EmptyString -> s <> EmptyString.
Proof. intros H ->. now apply H. Qed.

(** ** The validators *)

Lemma is_space_lower c : Str.is_space (Text.lower_char c) = Str.is_space c.
Proof. every_char c. Qed.

Lemma local_char_no_space c :
  (Validator.local_char c || Validator.is_char "@" c) = true ->
  negb (Str.is_space c) = true.
Proof. every_char c. Qed.

Lemma local_char_not_stripped c :
  (Validator.local_char c || Validator.is_char "@" c) = true ->
  Str.has_char c Validator.stripped_chars = false.
Proof. every_char c. Qed.

Lemma username_char_is_local c :
  Validator.username_char c = true -> Validator.local_char c = true.
Proof. every_char c. Qed.

Lemma host_char_is_local c :
  Validator.host_char c = true -> Validator.local_char c = true.
Proof. every_char c. Qed.

Lemma letter_is_host c :
  Validator.letter c = true -> Validator.host_char c = true.
Proof. every_char c. Qed.

Lemma username_char_lower c :
  Validator.username_char c = true ->
  Validator.username_char (Text.lower_char c) = true.
Proof. every_char c. Qed.

Lemma local_char_lower c :
  Validator.local_char c = true ->
  Validator.local_char (Text.lower_char c) = true.
Proof. every_char c. Qed.

Lemma host_char_lower c :
  Validator.host_char c = true ->
  Validator.host_char (Text.lower_char c) = true.
Proof. every_char c. Qed.

Lemma letter_lower c :
  Validator.letter c = true -> Validator.letter (Text.lower_char c) = true.
Proof. every_char c. Qed.

Lemma lower_length s : String.length (Text.lower s) = String.length s.
Proof. induction s as [|c s IH]; simpl; [reflexivity|now rewrite IH]. Qed.

Lemma lower_app s t :
  Text.lower (s ++ t)%string = (Text.lower s ++ Text.lower t)%string.
Proof. induction s as [|c s IH]; simpl; [reflexivity|now rewrite IH]. Qed.

Lemma lower_lstrip s : Str.lstrip (Text.lower s) = Text.lower (Str.lstrip s).
Proof.
  induction s as [|c s IH]; simpl; [reflexivity|].
  rewrite is_space_lower. destruct (Str.is_space c); [exact IH|reflexivity].
Qed.

Lemma lower_rstrip s : Str.rstrip (Text.lower s) = Text.lower (Str.rstrip s).
Proof.
  induction s as [|c s IH]; simpl; [reflexivity|].
  rewrite IH, is_space_lower.
  destruct (Str.rstrip s); simpl; [destruct (Str.is_space c)|]; reflexivity.
Qed.

Lemma lower_strip s : Str.strip (Text.lower s) = Text.lower (Str.strip s).
Proof. unfold Str.strip. now rewrite lower_lstrip, lower_rstrip. Qed.

Lemma all_chars_lower (p : ascii -> bool) s :
  (forall c, p c = true -> p (Text.lower_char c) = true) ->
  Str.all_chars p s = true -> Str.all_chars p (Text.lower s) = true.
Proof.
  intros Hp. induction s as [|c s IH]; simpl; [reflexivity|].
  rewrite !andb_true_iff. intros [Hc Hs]. auto.
Qed.

Lemma startswith_all_chars p prefix s :
  Text.startswith prefix s = true -> Str.all_chars p s = true ->
  Str.all_chars p prefix = true.
Proof.
  revert s. induction prefix as [|a prefix IH]; intros s; [reflexivity|].
  destruct s as [|b s]; simpl; [discriminate|].
  rewrite !andb_true_iff. intros [Hab Hpre] [Hb Hs].
  apply Ascii.eqb_eq in Hab. subst b. eauto.
Qed.

Lemma without_nothing (f p : ascii -> bool) s :
  (forall c, p c = true -> f c = false) ->
  Str.all_chars p s = true -> Str.without f s = s.
Proof.
  intros Hpf. induction s as [|c s IH]; simpl; [reflexivity|].
  rewrite andb_true_iff. intros [Hc Hs]. rewrite (Hpf c Hc). now rewrite IH.
Qed.

Lemma valid_username_iff s :
  Validator.is_valid_username s = true
  <-> 1 <= String.length (Str.strip s) <= 50
      /\ Str.all_chars Validator.username_char (Str.strip s) = true.
Proof.
  unfold Validator.is_valid_username.
  destruct (String.eqb s EmptyString) eqn:E.
  - apply String.eqb_eq in E. subst s. cbn. split; [discriminate|lia].
  - rewrite match_line_strip.
    destruct (Nat.ltb (String.length (Str.strip s)) 1) eqn:L1;
      [apply Nat.ltb_lt in L1; cbn; split; [discriminate|lia]|].
    destruct (Nat.ltb 50 (String.length (Str.strip s))) eqn:L2;
      [apply Nat.ltb_lt in L2; cbn; split; [discriminate|lia]|].
    apply Nat.ltb_ge in L1, L2. cbn [orb].
    unfold Validator.username_pattern.
    rewrite fullmatch_spec, matches_plus_class. split.
    + intros [_ Hall]. split; [lia|assumption].
    + intros [_ Hall]. split; [|assumption].
      intros Hnil. rewrite Hnil in L1. cbn in L1. lia.
Qed.

(** X17: [is_valid_username] accepts exactly the strings that, once
    stripped, have between 1 and 50 characters, all of them letters, digits,
    dots, underscores or hyphens. *)
Theorem valid_username_is_1_to_50_plain_characters s :
  Validator.is_valid_username s = true
  <-> 1 <= String.length (Str.strip s) <= 50
      /\ Str.all_chars Validator.username_char (Str.strip s) = true.
Proof. apply valid_username_iff. Qed.

Lemma matches_email s :
  Regex.Matches Validator.email_pattern s
  <-> exists local dom tld,
        s = (local ++ "@" ++ dom ++ "." ++ tld)%string
        /\ local <> EmptyString
        /\ Str.all_chars Validator.local_char local = true
        /\ dom <> EmptyString
        /\ Str.all_chars Validator.host_char dom = true
        /\ 2 <= String.length tld
        /\ Str.all_chars Validator.letter tld = true.
Proof.
  unfold Validator.email_pattern. split.
  - intros H.
    apply matches_seq in H. destruct H as (local & s1 & -> & Hl & H).
    apply matches_seq in H. destruct H as (at_ & s2 & -> & Ha & H).
    apply matches_seq in H. destruct H as (dom & s3 & -> & Hd & H).
    apply matches_seq in H. destruct H as (dot & tld & -> & Hp & Ht).
    apply matches_plus_class in Hl, Hd.
    apply matches_two_or_more_class in Ht.
    apply matches_class in Ha, Hp.
    destruct Ha as (a & -> & Ha). destruct Hp as (d & -> & Hp).
    apply Ascii.eqb_eq in Ha, Hp. subst a d.
    exists local, dom, tld. intuition.
  - intros (local & dom & tld & -> & Hl1 & Hl2 & Hd1 & Hd2 & Ht1 & Ht2).
    apply matches_seq. exists local, ("@" ++ dom ++ "." ++ tld)%string.
    split; [reflexivity|]. split; [now apply matches_plus_class|].
    apply matches_seq. exists "@"%string, (dom ++ "." ++ tld)%string.
    split; [reflexivity|]. split; [now constructor|].
    apply matches_seq. exists dom, ("." ++ tld)%string.
    split; [reflexivity|]. split; [now apply matches_plus_class|].
    apply matches_seq. exists "."%string, tld.
    split; [reflexivity|]. split; [now constructor|].
    now apply matches_two_or_more_class.
Qed.

Lemma valid_email_iff e :
  Validator.is_valid_email e = true
  <-> exists local dom tld,
        Str.strip e = (local ++ "@" ++ dom ++ "." ++ tld)%string
        /\ local <> EmptyString
        /\ Str.all_chars Validator.local_char local = true
        /\ dom <> EmptyString
        /\ Str.all_chars Validator.host_char dom = true
        /\ 2 <= String.length tld
        /\ Str.all_chars Validator.letter tld = true.
Proof.
  unfold Validator.is_valid_email.
  destruct (String.eqb e EmptyString) eqn:E.
  - apply String.eqb_eq in E. subst e. split; [discriminate|].
    intros (local & dom & tld & Heq & _). cbn in Heq.
    destruct local; discriminate.
  - now rewrite match_line_strip, fullmatch_spec, matches_email.
Qed.

(** X18: [is_valid_email] accepts exactly the strings that, once stripped,
    read local@domain.tld: a non-empty local part of letters, digits and
    [._%+-], a non-empty domain of letters, digits, dots and hyphens, and
    after its last dot at least two letters. *)
Theorem valid_email_is_local_at_domain_dot_tld e :
  Validator.is_valid_email e = true
  <-> exists local dom tld,
        Str.strip e = (local ++ "@" ++ dom ++ "." ++ tld)%string
        /\ local <> EmptyString
        /\ Str.all_chars Validator.local_char local = true
        /\ dom <> EmptyString
        /\ Str.all_chars Validator.host_char dom = true
        /\ 2 <= String.length tld
        /\ Str.all_chars Validator.letter tld = true.
Proof. apply valid_email_iff. Qed.

Example emails_accepted_and_refused :
  Validator.is_valid_email "  Jane.Doe+x@mail.example.org " = true
  /\ Validator.is_valid_email "jane@localhost" = false
  /\ Validator.is_valid_email "jane@@example.org" = false
  /\ Validator.is_valid_email "mailto:jane@example.org" = false
  /\ Validator.is_valid_email "jane@-..example.org" = true.
Proof. repeat split; reflexivity. Qed.

Example domains_accepted_and_refused :
  Validator.is_valid_domain "mail.example.org" = true
  /\ Validator.is_valid_domain "-..example.org" = false
  /\ Validator.is_valid_domain "example" = false.
Proof. repeat split; vm_compute; reflexivity. Qed.

(** ** Normalisation of what the validators accept *)

Lemma lower_char_idem c :
  Text.lower_char (Text.lower_char c) = Text.lower_char c.
Proof. every_char c. Qed.

Lemma lower_idem s : Text.lower (Text.lower s) = Text.lower s.
Proof.
  induction s as [|c s IH]; simpl; [reflexivity|].
  now rewrite IH, lower_char_idem.
Qed.

Lemma username_char_no_space c :
  Validator.username_char c = true -> negb (Str.is_space c) = true.
Proof. every_char c. Qed.

Lemma username_char_not_at c :
  Validator.username_char c = true -> negb (Ascii.eqb "@" c) = true.
Proof. every_char c. Qed.

Lemma local_char_not_at c :
  Validator.local_char c = true -> negb (Ascii.eqb "@" c) = true.
Proof. every_char c. Qed.

Lemma no_prefix (p : ascii -> bool) prefix s :
  Str.all_chars p s = true -> Str.all_chars p prefix = false ->
  Text.startswith prefix s = false.
Proof.
  intros Hs Hp. destruct (Text.startswith prefix s) eqn:E; [|reflexivity].
  rewrite (startswith_all_chars p prefix s E Hs) in Hp. discriminate.
Qed.

Lemma valid_email_chars e :
  Validator.is_valid_email e = true ->
  Str.all_chars (fun c => Validator.local_char c || Validator.is_char "@" c)
    (Str.strip e) = true.
Proof.
  intros H. apply valid_email_iff in H.
  destruct H as (local & dom & tld & -> & _ & Hl & _ & Hd & _ & Ht).
  rewrite !all_chars_app.
  apply andb_true_iff; split; [|apply andb_true_iff; split; [reflexivity|]].
  { revert Hl. apply all_chars_weaken. intros c ->. reflexivity. }
  apply andb_true_iff; split; [|apply andb_true_iff; split; [reflexivity|]].
  { revert Hd. apply all_chars_weaken. intros c Hc.
    now rewrite (host_char_is_local c Hc). }
  revert Ht. apply all_chars_weaken. intros c Hc.
  now rewrite (host_char_is_local c (letter_is_host c Hc)).
Qed.

Lemma valid_username_chars u :
  Validator.is_valid_username u = true ->
  Str.all_chars (fun c => Validator.local_char c || Validator.is_char "@" c)
    (Str.strip u) = true.
Proof.
  intros H. apply valid_username_iff in H. destruct H as [_ H].
  revert H. apply all_chars_weaken. intros c Hc.
  now rewrite (username_char_is_local c Hc).
Qed.

Lemma normalize_valid_username u :
  Validator.is_valid_username u = true ->
  Validator.normalize_username u = Text.lower (Str.strip u)
  /\ Validator.is_valid_username (Text.lower (Str.strip u)) = true.
Proof.
  intros H. apply valid_username_iff in H. destruct H as [Hlen Hall].
  assert (Hw : Str.all_chars Validator.username_char (Text.lower (Str.strip u))
               = true)
    by (apply all_chars_lower; [exact username_char_lower|exact Hall]).
  split.
  - unfold Validator.normalize_username.
    destruct (String.eqb u EmptyString) eqn:E.
    { apply String.eqb_eq in E. subst u. cbn in Hlen. lia. }
    rewrite lower_strip.
    unfold Validator.remove_prefixes. cbn [fold_left].
    rewrite !(no_prefix Validator.username_char _ _ Hw); reflexivity.
  - apply valid_username_iff.
    rewrite lower_strip, strip_idem, lower_length. split; assumption.
Qed.

Lemma normalize_valid_email e :
  Validator.is_valid_email e = true ->
  Validator.normalize_email e = Text.lower (Str.strip e)
  /\ Validator.is_valid_email (Text.lower (Str.strip e)) = true.
Proof.
  intros H. split.
  - pose proof (valid_email_chars e H) as Hq.
    unfold Validator.normalize_email.
    destruct (String.eqb e EmptyString) eqn:E.
    { apply String.eqb_eq in E. subst e. discriminate. }
    cbv zeta. rewrite lower_strip.
    rewrite (no_prefix
               (fun c => Validator.local_char c || Validator.is_char "@" c));
      [reflexivity| |reflexivity].
    apply all_chars_lower; [|exact Hq].
    intros c Hc. apply orb_true_iff in Hc. apply orb_true_iff.
    destruct Hc as [Hc|Hc]; [left; now apply local_char_lower|right].
    unfold Validator.is_char in *. apply Ascii.eqb_eq in Hc. now subst c.
  - apply valid_email_iff in H.
    destruct H as (local & dom & tld & Heq & Hl1 & Hl2 & Hd1 & Hd2 & Ht1 & Ht2).
    apply valid_email_iff.
    exists (Text.lower local), (Text.lower dom), (Text.lower tld).
    rewrite lower_strip, strip_idem, Heq, !lower_app, lower_length.
    split; [reflexivity|].
    split; [now destruct local|].
    split; [now apply all_chars_lower; [exact local_char_lower|]|].
    split; [now destruct dom|].
    split; [now apply all_chars_lower; [exact host_char_lower|]|].
    split; [assumption|].
    now apply all_chars_lower; [exact letter_lower|].
Qed.

(** X19: for a username [is_valid_username] accepts, [normalize_username]
    only strips and lowercases: none of the three prefixes is taken off, the
    result is again a valid username, and normalising it again changes
    nothing. *)
Theorem normalize_username_on_valid_names u :
  Validator.is_valid_username u = true ->
  Validator.normalize_username u = Text.lower (Str.strip u)
  /\ Validator.is_valid_username (Validator.normalize_username u) = true
  /\ Validator.normalize_username (Validator.normalize_username u)
     = Validator.normalize_username u.
Proof.
  intros H. destruct (normalize_valid_username u H) as [E V].
  rewrite E. split; [reflexivity|]. split; [exact V|].
  destruct (normalize_valid_username _ V) as [E' _]. rewrite E'.
  now rewrite lower_strip, strip_idem, lower_idem.
Qed.

Lemma normalize_username_on_valid_names_witness :
  Validator.is_valid_username " Jane_Doe-99 " = true
  /\ Validator.normalize_username " Jane_Doe-99 " = "jane_doe-99".
Proof.
  assert (H : Validator.is_valid_username " Jane_Doe-99 " = true)
    by (vm_compute; reflexivity).
  split; [exact H|].
  destruct (normalize_username_on_valid_names " Jane_Doe-99 " H) as [E _].
  rewrite E. vm_compute. reflexivity.
Defined.

Example normalize_username_is_not_idempotent :
  Validator.normalize_username "user:@bob" = "@bob"
  /\ Validator.normalize_username "@bob" = "bob"
  /\ Validator.normalize_username "@ bob" = " bob".
Proof. repeat split; vm_compute; reflexivity. Qed.

(** X20: for an address [is_valid_email] accepts, [normalize_email] only
    strips and lowercases: no [mailto:] is taken off, the result is again a
    valid address, and normalising it again changes nothing. *)
Theorem normalize_email_on_valid_addresses e :
  Validator.is_valid_email e = true ->
  Validator.normalize_email e = Text.lower (Str.strip e)
  /\ Validator.is_valid_email (Validator.normalize_email e) = true
  /\ Validator.normalize_email (Validator.normalize_email e)
     = Validator.normalize_email e.
Proof.
  intros H. destruct (normalize_valid_email e H) as [E V].
  rewrite E. split; [reflexivity|]. split; [exact V|].
  destruct (normalize_valid_email _ V) as [E' _]. rewrite E'.
  now rewrite lower_strip, strip_idem, lower_idem.
Qed.

Lemma normalize_email_on_valid_addresses_witness :
  Validator.is_valid_email " Jane.Doe@Example.ORG" = true
  /\ Validator.normalize_email " Jane.Doe@Example.ORG" = "jane.doe@example.org".
Proof.
  assert (H : Validator.is_valid_email " Jane.Doe@Example.ORG" = true)
    by (vm_compute; reflexivity).
  split; [exact H|].
  destruct (normalize_email_on_valid_addresses " Jane.Doe@Example.ORG" H)
    as [E _].
  rewrite E. vm_compute. reflexivity.
Defined.

Example mailto_is_never_a_valid_address :
  Validator.normalize_email "MAILTO:jane@example.org" = "jane@example.org"
  /\ Validator.is_valid_email "MAILTO:jane@example.org" = false.
Proof. split; vm_compute; reflexivity. Qed.

(** ** [sanitize_input] *)

Lemma without_clean (f : ascii -> bool) s :
  Str.all_chars (fun c => negb (f c)) (Str.without f s) = true.
Proof.
  induction s as [|c s IH]; simpl; [reflexivity|].
  destruct (f c) eqn:E; simpl; [exact IH|]. now rewrite E, IH.
Qed.

Lemma without_count (f : ascii -> bool) c s :
  f c = false -> Str.count c (Str.without f s) = Str.count c s.
Proof.
  intros Hc. induction s as [|d s IH]; simpl; [reflexivity|].
  destruct (f d) eqn:E; simpl; rewrite IH; [|reflexivity].
  destruct (Ascii.eqb c d) eqn:E'; [|reflexivity].
  apply Ascii.eqb_eq in E'. congruence.
Qed.

(** X21: what [sanitize_input] returns holds none of the six characters
    [<], [>], the two quotes, [;] and the backslash, and every other
    character as often as the stripped input holds it. *)
Theorem sanitize_input_takes_out_the_six_characters s :
  Str.all_chars (fun c => negb (Str.has_char c Validator.stripped_chars))
    (Validator.sanitize_input s) = true
  /\ forall c, Str.has_char c Validator.stripped_chars = false ->
       Str.count c (Validator.sanitize_input s) = Str.count c (Str.strip s).
Proof.
  unfold Validator.sanitize_input. split.
  - apply (without_clean (fun c => Str.has_char c Validator.stripped_chars)).
  - intros c Hc.
    now apply (without_count (fun c => Str.has_char c Validator.stripped_chars)).
Qed.

Lemma sanitize_input_takes_out_the_six_characters_witness :
  Str.count "a" (Validator.sanitize_input " <a href='a'>; ") = 2.
Proof.
  destruct (sanitize_input_takes_out_the_six_characters " <a href='a'>; ")
    as [_ H].
  rewrite (H "a"%char); vm_compute; reflexivity.
Defined.

Lemma sanitize_plain s :
  Str.all_chars (fun c => Validator.local_char c || Validator.is_char "@" c)
    (Str.strip s) = true ->
  Validator.sanitize_input s = Str.strip s.
Proof.
  intros H. unfold Validator.sanitize_input.
  now apply (without_nothing _
               (fun c => Validator.local_char c || Validator.is_char "@" c)
               _ local_char_not_stripped).
Qed.

(** X22: a valid username or address comes out of [sanitize_input] as its
    stripped text, which is still valid, and a second pass changes
    nothing. *)
Theorem sanitize_input_keeps_valid_targets s :
  Validator.is_valid_email s || Validator.is_valid_username s = true ->
  Validator.sanitize_input s = Str.strip s
  /\ Validator.is_valid_email (Validator.sanitize_input s)
     = Validator.is_valid_email s
  /\ Validator.is_valid_username (Validator.sanitize_input s)
     = Validator.is_valid_username s
  /\ Validator.sanitize_input (Validator.sanitize_input s)
     = Validator.sanitize_input s.
Proof.
  intros H.
  assert (Hq : Str.all_chars
                 (fun c => Validator.local_char c || Validator.is_char "@" c)
                 (Str.strip s) = true).
  { apply orb_true_iff in H.
    destruct H as [H|H]; [now apply valid_email_chars|now apply valid_username_chars]. }
  assert (Hne : s <> EmptyString).
  { intros ->. cbn in H. discriminate. }
  assert (Hne' : Str.strip s <> EmptyString).
  { intros E. apply orb_true_iff in H. destruct H as [H|H].
    - apply valid_email_iff in H. destruct H as (l & d & t & Heq & Hl & _).
      rewrite E in Heq. now destruct l.
    - apply valid_username_iff in H. rewrite E in H. cbn in H. lia. }
  apply String.eqb_neq in Hne, Hne'.
  rewrite (sanitize_plain s Hq). split; [reflexivity|].
  split; [|split].
  - unfold Validator.is_valid_email. now rewrite Hne, Hne', strip_idem.
  - unfold Validator.is_valid_username. now rewrite Hne, Hne', strip_idem.
  - rewrite (sanitize_plain (Str.strip s)); [apply strip_idem|].
    now rewrite strip_idem.
Qed.

Lemma sanitize_input_keeps_valid_targets_witness :
  Validator.sanitize_input "  jane.doe@example.org  " = "jane.doe@example.org".
Proof.
  destruct (sanitize_input_keeps_valid_targets "  jane.doe@example.org  ")
    as [E _]; [vm_compute; reflexivity|].
  rewrite E. vm_compute. reflexivity.
Defined.

Example sanitize_input_is_not_idempotent :
  Validator.sanitize_input "< bob" = " bob"
  /\ Validator.sanitize_input " bob" = "bob".
Proof. split; vm_compute; reflexivity. Qed.

(** ** The file of targets *)

Lemma contains_char c s :
  Text.contains (String c EmptyString) s
  = negb (Str.all_chars (fun d => negb (Ascii.eqb c d)) s).
Proof.
  induction s as [|d s IH]; [reflexivity|].
  cbn [Text.contains Text.startswith Str.all_chars]. rewrite IH.
  rewrite ?andb_true_r. destruct (Ascii.eqb c d); reflexivity.
Qed.

Lemma contains_iff_count c s :
  Text.contains (String c EmptyString) s = false <-> Str.count c s = 0.
Proof.
  rewrite contains_char. induction s as [|d s IH]; simpl; [tauto|].
  destruct (Ascii.eqb c d); simpl; [split; [discriminate|lia]|exact IH].
Qed.

Lemma valid_username_no_at t :
  Validator.is_valid_username t = true ->
  Text.contains "@" (Str.strip t) = false.
Proof.
  intros H. apply valid_username_iff in H. destruct H as [_ H].
  rewrite contains_char. apply negb_false_iff.
  revert H. apply all_chars_weaken. exact username_char_not_at.
Qed.

Lemma valid_email_has_at t :
  Validator.is_valid_email t = true ->
  Text.contains "@" (Str.strip t) = true.
Proof.
  intros H. apply valid_email_iff in H.
  destruct H as (local & dom & tld & -> & _).
  rewrite contains_char, all_chars_app. apply negb_true_iff.
  apply andb_false_iff. right. reflexivity.
Qed.

Lemma target_of_line_spec line :
  Validator.target_of_line line
  = if Validator.is_valid_email (Str.strip line)
       || Validator.is_valid_username (Str.strip line)
    then Some (Str.strip line) else None.
Proof.
  unfold Validator.target_of_line. cbv zeta.
  pose proof (strip_idem line) as Hi.
  remember (Str.strip line) as t eqn:Et. clear Et line.
  destruct (String.eqb t EmptyString) eqn:E.
  { apply String.eqb_eq in E. subst t. reflexivity. }
  cbn [orb].
  destruct (Validator.is_valid_email t) eqn:Ve;
    destruct (Validator.is_valid_username t) eqn:Vu; cbn [orb].
  - pose proof (valid_username_no_at t Vu) as H1.
    pose proof (valid_email_has_at t Ve) as H2. congruence.
  - pose proof (valid_email_chars t Ve) as Hq. rewrite Hi in Hq.
    rewrite (no_prefix _ "#" t Hq); [|reflexivity].
    pose proof (valid_email_has_at t Ve) as H2. rewrite Hi in H2.
    now rewrite H2.
  - pose proof (valid_username_chars t Vu) as Hq. rewrite Hi in Hq.
    rewrite (no_prefix _ "#" t Hq); [|reflexivity].
    pose proof (valid_username_no_at t Vu) as H1. rewrite Hi in H1.
    now rewrite H1.
  - destruct (Text.startswith "#" t); [reflexivity|].
    destruct (Text.contains "@" t); reflexivity.
Qed.

Lemma valid_targets_filter lines :
  Validator.valid_targets lines
  = filter (fun t => Validator.is_valid_email t || Validator.is_valid_username t)
      (map Str.strip lines).
Proof.
  induction lines as [|line lines IH]; [reflexivity|].
  cbn [Validator.valid_targets map filter]. rewrite target_of_line_spec, IH.
  destruct (Validator.is_valid_email (Str.strip line)
            || Validator.is_valid_username (Str.strip line)); reflexivity.
Qed.

(** X23: from a file that can be read, [validate_targets_from_file] returns
    the stripped lines that are a valid address or a valid username, in the
    order of the file and as often as they occur: the tests for blank lines,
    for comments and for an at sign decide nothing beyond that. *)
Theorem targets_are_the_valid_stripped_lines file_path lines :
  Validator.validate_targets_from_file file_path (Validator.Lines lines)
  = inr (filter
           (fun t => Validator.is_valid_email t || Validator.is_valid_username t)
           (map Str.strip lines)).
Proof. cbn [Validator.validate_targets_from_file]. now rewrite valid_targets_filter. Qed.

(** ** The domain of an address *)

Lemma split_no_sep sep s :
  Str.count sep s = 0 -> Str.split sep s = [s].
Proof.
  induction s as [|d s IH]; simpl; [reflexivity|].
  rewrite (Ascii.eqb_sym d sep).
  destruct (Ascii.eqb sep d); simpl; [discriminate|].
  intros H. now rewrite (IH H).
Qed.

Lemma split_at_first sep local rest :
  Str.count sep local = 0 ->
  Str.split sep (local ++ String sep rest)%string
  = local :: Str.split sep rest.
Proof.
  induction local as [|d local IH]; simpl.
  - now rewrite Ascii.eqb_refl.
  - rewrite (Ascii.eqb_sym d sep).
    destruct (Ascii.eqb sep d); simpl; [discriminate|].
    intros H. now rewrite (IH H).
Qed.

Lemma contains_at_after local rest :
  Text.contains "@" (local ++ String "@" rest)%string = true.
Proof.
  rewrite contains_char, all_chars_app. apply negb_true_iff.
  apply andb_false_iff. right. reflexivity.
Qed.

Lemma domain_of_plain email :
  Str.count "@" email = 0 -> EmailHunter.domain_of email = email.
Proof.
  intros H. unfold EmailHunter.domain_of.
  apply contains_iff_count in H. now rewrite H.
Qed.

Lemma domain_of_one_at local d :
  Str.count "@" local = 0 -> Str.count "@" d = 0 ->
  EmailHunter.domain_of (local ++ "@" ++ d)%string = d.
Proof.
  intros Hl Hd. unfold EmailHunter.domain_of.
  change (local ++ "@" ++ d)%string with (local ++ String "@" d)%string.
  rewrite contains_at_after, (split_at_first _ _ _ Hl), (split_no_sep _ _ Hd).
  reflexivity.
Qed.

Lemma domain_of_more_ats local d tail :
  Str.count "@" local = 0 -> Str.count "@" d = 0 ->
  EmailHunter.domain_of (local ++ "@" ++ d ++ "@" ++ tail)%string = d.
Proof.
  intros Hl Hd. unfold EmailHunter.domain_of.
  change (local ++ "@" ++ d ++ "@" ++ tail)%string
    with (local ++ String "@" (d ++ String "@" tail))%string.
  rewrite contains_at_after, (split_at_first _ _ _ Hl), (split_at_first _ _ _ Hd).
  reflexivity.
Qed.

(** X24: the domain [analyze_domain] looks up is the whole text when it has
    no at sign, and otherwise what stands between the first at sign and the
    second one (or the end): what follows a second at sign is dropped.  The
    resolver's answers play no part. *)
Theorem domain_is_between_the_first_two_at_signs resolve local d :
  Str.count "@" local = 0 -> Str.count "@" d = 0 ->
  EmailHunter.domain (EmailHunter.analyze_domain resolve local) = local
  /\ EmailHunter.domain
       (EmailHunter.analyze_domain resolve (local ++ "@" ++ d)%string) = d
  /\ forall tail,
       EmailHunter.domain
         (EmailHunter.analyze_domain resolve
            (local ++ "@" ++ d ++ "@" ++ tail)%string) = d.
Proof.
  intros Hl Hd. cbn [EmailHunter.analyze_domain EmailHunter.domain].
  split; [now apply domain_of_plain|].
  split; [now apply domain_of_one_at|].
  intros tail. now apply domain_of_more_ats.
Qed.

Lemma domain_is_between_the_first_two_at_signs_witness :
  EmailHunter.domain
    (EmailHunter.analyze_domain (fun _ _ => None) "jane@example.org@evil.test")
  = "example.org".
Proof.
  destruct (domain_is_between_the_first_two_at_signs
              (fun _ _ => None) "jane" "example.org") as (_ & _ & H);
    [reflexivity|reflexivity|].
  exact (H "evil.test").
Defined.

(** X25: for an address [is_valid_email] accepts, the stripped address is
    its local part, the one at sign it holds, and the domain
    [analyze_domain] works on; that domain ends in a dot and two or more
    letters. *)
Theorem valid_address_is_local_at_analyzed_domain resolve e :
  Validator.is_valid_email e = true ->
  Str.count "@" (Str.strip e) = 1
  /\ exists local dom tld,
       Str.strip e
       = (local ++ "@"
          ++ EmailHunter.domain (EmailHunter.analyze_domain resolve (Str.strip e)))%string
       /\ EmailHunter.domain (EmailHunter.analyze_domain resolve (Str.strip e))
          = (dom ++ "." ++ tld)%string
       /\ 2 <= String.length tld
       /\ Str.all_chars Validator.letter tld = true.
Proof.
  intros H. apply valid_email_iff in H.
  destruct H as (local & dom & tld & Heq & _ & Hl & _ & Hd & Ht1 & Ht2).
  assert (Cl : Str.count "@" local = 0).
  { apply (count_none (fun c => negb (Ascii.eqb "@" c))); [reflexivity|].
    revert Hl. apply all_chars_weaken. exact local_char_not_at. }
  assert (Cd : Str.count "@" (dom ++ "." ++ tld)%string = 0).
  { apply (count_none (fun c => negb (Ascii.eqb "@" c))); [reflexivity|].
    rewrite !all_chars_app.
    apply andb_true_iff; split; [|apply andb_true_iff; split; [reflexivity|]].
    - revert Hd. apply all_chars_weaken. intros c Hc.
      apply local_char_not_at. now apply host_char_is_local.
    - revert Ht2. apply all_chars_weaken. intros c Hc.
      apply local_char_not_at, host_char_is_local. now apply letter_is_host. }
  cbn [EmailHunter.analyze_domain EmailHunter.domain].
  rewrite Heq, (domain_of_one_at _ _ Cl Cd). split.
  - change (local ++ "@" ++ dom ++ "." ++ tld)%string
      with (local ++ String "@" (dom ++ "." ++ tld))%string.
    rewrite count_app. cbn [Str.count]. rewrite Ascii.eqb_refl, Cl, Cd.
    reflexivity.
  - exists local, dom, tld. repeat split; assumption.
Qed.

Lemma valid_address_is_local_at_analyzed_domain_witness :
  Validator.is_valid_email " jane@example.org " = true
  /\ Str.count "@" (Str.strip " jane@example.org ") = 1.
Proof.
  assert (H : Validator.is_valid_email " jane@example.org " = true)
    by (vm_compute; reflexivity).
  split; [exact H|].
  exact (proj1 (valid_address_is_local_at_analyzed_domain
                  (fun _ _ => None) " jane@example.org " H)).
Defined.

Example disposable_is_never_corporate :
  EmailHunter.is_disposable
    (EmailHunter.analyze_domain (fun _ _ => None) "x@mailinator.com") = true
  /\ EmailHunter.is_corporate
       (EmailHunter.analyze_domain (fun _ _ => None) "x@mailinator.com") = false
  /\ EmailHunter.is_corporate
       (EmailHunter.analyze_domain (fun _ _ => None) "x@Gmail.com") = true.
Proof. repeat split; vm_compute; reflexivity. Qed.

(** ** File names *)

Lemma all_chars_ext (p q : ascii -> bool) s :
  (forall c, p c = q c) -> Str.all_chars p s = Str.all_chars q s.
Proof.
  intros H. induction s as [|c s IH]; simpl; [reflexivity|].
  now rewrite H, IH.
Qed.

Lemma all_chars_and (p q : ascii -> bool) s :
  Str.all_chars (fun c => p c && q c) s
  = Str.all_chars p s && Str.all_chars q s.
Proof.
  induction s as [|c s IH]; simpl; [reflexivity|]. rewrite IH.
  destruct (p c), (q c), (Str.all_chars p s); reflexivity.
Qed.

Lemma all_chars_true s : Str.all_chars (fun _ => true) s = true.
Proof. induction s as [|c s IH]; simpl; [reflexivity|exact IH]. Qed.

Lemma any_char_contained chars s :
  existsb (fun char => Text.contains char s)
    (map (fun c => String c EmptyString) chars)
  = negb (Str.all_chars (fun c => negb (Str.has_char c chars)) s).
Proof.
  induction chars as [|d chars IH]; cbn [map existsb Str.has_char].
  - now rewrite all_chars_true.
  - rewrite IH, contains_char, <- negb_andb. f_equal.
    rewrite <- all_chars_and. apply all_chars_ext. intros c.
    now rewrite negb_orb, (Ascii.eqb_sym d c).
Qed.

(** X26: [is_safe_filename] accepts exactly the non-empty names that hold
    none of the nine characters of its list; dots are not on it, so a name
    made of dots alone is accepted. *)
Theorem safe_filename_has_none_of_the_nine filename :
  Validator.is_safe_filename filename = true
  <-> filename <> EmptyString
      /\ Str.all_chars
           (fun c =>
              negb (Str.has_char c
                      ["<"; ">"; ":"; ascii_of_nat 34; "|"; "?"; "*";
                       ascii_of_nat 92; "/"]%char))
           filename = true.
Proof.
  unfold Validator.is_safe_filename.
  destruct (String.eqb filename EmptyString) eqn:E.
  - apply String.eqb_eq in E. split; [discriminate|]. now intros [H _].
  - apply String.eqb_neq in E.
    change Validator.dangerous_chars
      with (map (fun c => String c EmptyString)
              ["<"; ">"; ":"; ascii_of_nat 34; "|"; "?"; "*";
               ascii_of_nat 92; "/"]%char).
    rewrite any_char_contained, negb_involutive. tauto.
Qed.

Example dots_are_a_safe_filename :
  Validator.is_safe_filename ".." = true
  /\ Validator.validate_file_path ".." = false
  /\ Validator.is_safe_filename "a/b" = false
  /\ Validator.validate_file_path "a/b" = true.
Proof. repeat split; vm_compute; reflexivity. Qed.

(** ** The adult platforms in a hunt over everything *)

Lemma selection_of_everything self :
  NoDup (map fst (UsernameHunter.general_sites self)) ->
  UsernameHunter.platforms_to_check self true
  = UsernameHunter.general_sites self.
Proof.
  intros Hnd. unfold UsernameHunter.platforms_to_check.
  rewrite selection_from by exact Hnd. cbn [app]. clear Hnd.
  generalize (UsernameHunter.general_sites self). intros catalog.
  rewrite (filter_ext _ (fun _ => true))
    by (intros entry; cbn [negb]; now rewrite andb_false_r).
  induction catalog as [|entry catalog IH]; [reflexivity|].
  cbn [filter]. now rewrite IH.
Qed.

Lemma subscripts_entries d keys st adult st' :
  UsernameHunter.subscripts d keys st = (inr adult, st') ->
  forall entry, In entry adult -> In entry d.
Proof.
  revert adult. induction keys as [|key keys IH]; intros adult.
  - intros [= <- _] entry [].
  - cbn [UsernameHunter.subscripts]. unfold bind, dict_item, ret, raise.
    destruct (dict_get d key) as [value|] eqn:E; cbv beta iota; [|discriminate].
    pose proof (subscripts_state d keys st) as [Hst _].
    destruct (UsernameHunter.subscripts d keys st) as [[e|rest] st1];
      cbn [fst snd] in *; [discriminate|].
    intros [= <- <-] entry [<-|Hin].
    + now apply dict_get_In.
    + now apply (IH rest eq_refl).
Qed.

Lemma username_hunt_exact username platforms st :
  user_agents (config st) <> [] ->
  exists returned st' delta,
    UsernameHunter.hunt_platforms username platforms st = (inr returned, st')
    /\ config st' = config st
    /\ trace st' = trace st ++ delta
    /\ requested delta = check_urls username platforms.
Proof.
  intros Ha.
  destruct (username_hunt_returns username platforms st Ha)
    as (returned & st' & Hrun & _).
  pose proof (hunt_requests_exact _ username_probe_step
                username_probe_requests username platforms st)
    as (delta & Ht & (Hcfg & _) & Hq).
  rewrite <- username_hunt_is_framed, Hrun in Ht, Hcfg. cbn [snd] in Ht, Hcfg.
  exists returned, st', delta.
  split; [exact Hrun|]. split; [exact Hcfg|]. split; [exact Ht|].
  rewrite Hq. destruct (user_agents (config st)); [congruence|reflexivity].
Qed.

Lemma check_urls_In username platforms u :
  In u (check_urls username platforms)
  <-> exists entry, In entry platforms
                    /\ format (check_url (snd entry)) username = inr u.
Proof.
  unfold check_urls. rewrite in_flat_map. split.
  - intros (entry & Hin & Hu). exists entry. split; [assumption|].
    destruct (format (check_url (snd entry)) username) as [e|v];
      [destruct Hu|].
    destruct Hu as [->|[]]. reflexivity.
  - intros (entry & Hin & Hu). exists entry. split; [assumption|].
    rewrite Hu. now left.
Qed.

Lemma count_occ_at_least_one (l : list string) u :
  In u l -> 1 <= count_occ string_dec l u.
Proof. intros H. now apply (count_occ_In string_dec). Qed.

(** X7: with [include_adult] on, the adult entries in place, check URLs
    with no replacement field but [{}] and a user agent to send under,
    [hunt_all_platforms] sends the requests of its five
    batches one after the other - all of [general_sites], the developer
    platforms, the forums, the gaming platforms, and the adult platforms
    again, which are entries of [general_sites]: every adult platform whose
    check URL can be formed is asked at least twice in one call. *)
Theorem adult_platforms_are_hunted_in_two_batches self username st :
  user_agents (config st) <> [] ->
  NoDup (map fst (UsernameHunter.general_sites self)) ->
  has_keys (UsernameHunter.general_sites self) UsernameHunter.adult_platforms ->
  plain_scope (UsernameHunter.general_sites self
               ++ UsernameHunter.developer_platforms self
               ++ UsernameHunter.forums self
               ++ UsernameHunter.gaming_platforms self) = true ->
  exists adult delta,
    map fst adult = UsernameHunter.adult_platforms
    /\ (forall entry, In entry adult ->
          In entry (UsernameHunter.general_sites self))
    /\ trace (snd (UsernameHunter.hunt_all_platforms self username true st))
       = trace st ++ delta
    /\ requested delta
       = check_urls username (UsernameHunter.general_sites self)
         ++ check_urls username (UsernameHunter.developer_platforms self)
         ++ check_urls username (UsernameHunter.forums self)
         ++ check_urls username (UsernameHunter.gaming_platforms self)
         ++ check_urls username adult
    /\ (forall u, In u (check_urls username adult) ->
          2 <= count_occ string_dec (requested delta) u).
Proof.
  intros Ha Hnd Hk _.
  unfold UsernameHunter.hunt_all_platforms, UsernameHunter.hunt_general_sites,
    UsernameHunter.hunt_developer_platforms, UsernameHunter.hunt_forums,
    UsernameHunter.hunt_gaming_platforms, UsernameHunter.hunt_adult_platforms.
  rewrite (selection_of_everything self Hnd). unfold bind.
  destruct (username_hunt_exact username (UsernameHunter.general_sites self)
              st Ha) as (r1 & st1 & d1 & -> & C1 & T1 & Q1).
  rewrite <- C1 in Ha.
  destruct (username_hunt_exact username
              (UsernameHunter.developer_platforms self) st1 Ha)
    as (r2 & st2 & d2 & -> & C2 & T2 & Q2).
  rewrite <- C2 in Ha.
  destruct (username_hunt_exact username (UsernameHunter.forums self) st2 Ha)
    as (r3 & st3 & d3 & -> & C3 & T3 & Q3).
  rewrite <- C3 in Ha.
  destruct (username_hunt_exact username
              (UsernameHunter.gaming_platforms self) st3 Ha)
    as (r4 & st4 & d4 & -> & C4 & T4 & Q4).
  rewrite <- C4 in Ha.
  destruct (subscripts_found (UsernameHunter.general_sites self)
              UsernameHunter.adult_platforms st4 Hk)
    as (adult & Hsub & Hmap).
  rewrite Hsub.
  destruct (username_hunt_exact username adult st4 Ha)
    as (r5 & st5 & d5 & -> & _ & T5 & Q5).
  unfold ret. cbn [snd].
  assert (Hin : forall entry, In entry adult ->
                  In entry (UsernameHunter.general_sites self))
    by exact (subscripts_entries _ _ _ _ _ Hsub).
  exists adult, (d1 ++ d2 ++ d3 ++ d4 ++ d5).
  split; [exact Hmap|]. split; [exact Hin|].
  split; [rewrite T5, T4, T3, T2, T1, <- !app_assoc; reflexivity|].
  assert (Hreq : requested (d1 ++ d2 ++ d3 ++ d4 ++ d5)
                 = check_urls username (UsernameHunter.general_sites self)
                   ++ check_urls username (UsernameHunter.developer_platforms self)
                   ++ check_urls username (UsernameHunter.forums self)
                   ++ check_urls username (UsernameHunter.gaming_platforms self)
                   ++ check_urls username adult)
    by (rewrite !requested_app; congruence).
  split; [exact Hreq|].
  intros u Hu. rewrite Hreq, !count_occ_app.
  assert (H1 : 1 <= count_occ string_dec
                      (check_urls username (UsernameHunter.general_sites self)) u).
  { apply count_occ_at_least_one. apply check_urls_In.
    apply check_urls_In in Hu. destruct Hu as (entry & He & Hf).
    exists entry. auto. }
  pose proof (count_occ_at_least_one _ u Hu) as H2. lia.
Qed.

Lemma adult_platforms_are_hunted_in_two_batches_witness :
  user_agents (config (lab (reply 404 (inr "gone")))) <> []
  /\ NoDup (map fst (UsernameHunter.general_sites UsernameHunter.init))
  /\ has_keys (UsernameHunter.general_sites UsernameHunter.init)
       UsernameHunter.adult_platforms
  /\ plain_scope
       (UsernameHunter.general_sites UsernameHunter.init
        ++ UsernameHunter.developer_platforms UsernameHunter.init
        ++ UsernameHunter.forums UsernameHunter.init
        ++ UsernameHunter.gaming_platforms UsernameHunter.init) = true
  /\ exists adult delta,
       map fst adult = UsernameHunter.adult_platforms
       /\ trace (snd (UsernameHunter.hunt_all_platforms UsernameHunter.init
                        "jane" true (lab (reply 404 (inr "gone")))))
          = trace (lab (reply 404 (inr "gone"))) ++ delta
       /\ forall u, In u (check_urls "jane" adult) ->
            2 <= count_occ string_dec (requested delta) u.
Proof.
  assert (Ha : user_agents (config (lab (reply 404 (inr "gone")))) <> [])
    by discriminate.
  assert (Hnd : NoDup (map fst (UsernameHunter.general_sites UsernameHunter.init))).
  { repeat (constructor; [simpl; intuition discriminate|]). constructor. }
  assert (Hk : has_keys (UsernameHunter.general_sites UsernameHunter.init)
                 UsernameHunter.adult_platforms).
  { intros key Hin. simpl in Hin.
    repeat (destruct Hin as [<-|Hin]; [vm_compute; discriminate|]).
    destruct Hin. }
  assert (Hplain : plain_scope
                     (UsernameHunter.general_sites UsernameHunter.init
                      ++ UsernameHunter.developer_platforms UsernameHunter.init
                      ++ UsernameHunter.forums UsernameHunter.init
                      ++ UsernameHunter.gaming_platforms UsernameHunter.init)
                   = true)
    by (vm_compute; reflexivity).
  split; [exact Ha|]. split; [exact Hnd|]. split; [exact Hk|].
  split; [exact Hplain|].
  destruct (adult_platforms_are_hunted_in_two_batches
              UsernameHunter.init "jane" (lab (reply 404 (inr "gone")))
              Ha Hnd Hk Hplain) as (adult & delta & Hmap & _ & Ht & _ & Htwice).
  exists adult, delta. split; [exact Hmap|]. split; [exact Ht|exact Htwice].
Defined.

(** The stock catalog: the ten adult platforms are asked in the first batch
    and in the last, so 53 requests go out for 43 platforms. *)
Example adult_requests_of_the_stock_catalog :
  count_occ string_dec
    (requested
       (trace (snd (UsernameHunter.hunt_all_platforms UsernameHunter.init
                      "jane" true (lab (reply 404 (inr "gone")))))))
    "https://manyvids.com/Profile/jane/Store/Videos/"
  = 2.
Proof. vm_compute. reflexivity. Qed.

(** ** Domain names *)

Lemma alnum_is_host c :
  Validator.alnum c = true -> Validator.host_char c = true.
Proof. every_char c. Qed.

Lemma label_char_is_host c :
  Validator.label_char c = true -> Validator.host_char c = true.
Proof. every_char c. Qed.

Lemma matches_eps s : Regex.Matches Regex.Eps s <-> s = EmptyString.
Proof.
  split.
  - intros H. now inversion H.
  - intros ->. constructor.
Qed.

Lemma matches_up_to_class p n s :
  Regex.Matches (Regex.up_to n (Regex.Class p)) s ->
  Str.all_chars p s = true /\ String.length s <= n.
Proof.
  revert s. induction n as [|n IH]; intros s; cbn [Regex.up_to].
  - intros H. apply matches_eps in H. subst s. split; [reflexivity|cbn; lia].
  - unfold Regex.opt. rewrite matches_alt, matches_eps, matches_seq.
    intros [->|(s1 & s2 & -> & H1 & H2)]; [split; [reflexivity|cbn; lia]|].
    apply matches_class in H1. destruct H1 as (c & -> & Hc).
    destruct (IH s2 H2) as [Ha Hlen]. cbn. rewrite Hc, Ha. split; [reflexivity|lia].
Qed.

(** One label and its dot: [[a-zA-Z0-9](?:[a-zA-Z0-9-]{0,61}[a-zA-Z0-9])?\.] *)
Lemma matches_label s :
  Regex.Matches
    (Regex.Seq (Regex.Class Validator.alnum)
       (Regex.Seq
          (Regex.opt
             (Regex.Seq (Regex.up_to 61 (Regex.Class Validator.label_char))
                (Regex.Class Validator.alnum)))
          (Regex.Class (Validator.is_char "."))))
    s ->
  exists body,
    s = (body ++ ".")%string /\ body <> EmptyString
    /\ Str.all_chars Validator.host_char body = true
    /\ String.length body <= 63.
Proof.
  intros H. apply matches_seq in H. destruct H as (s1 & s2 & -> & H1 & H2).
  apply matches_class in H1. destruct H1 as (a & -> & Ha).
  apply matches_seq in H2. destruct H2 as (mid & dot & -> & Hm & Hd).
  apply matches_class in Hd. destruct Hd as (d & -> & Hd).
  apply Ascii.eqb_eq in Hd. subst d.
  exists (String a mid). split; [reflexivity|]. split; [discriminate|].
  cbn [Str.all_chars String.length]. rewrite (alnum_is_host a Ha). cbn [andb].
  unfold Regex.opt in Hm. apply matches_alt in Hm.
  destruct Hm as [Hm|Hm].
  - apply matches_eps in Hm. subst mid. split; [reflexivity|cbn; lia].
  - apply matches_seq in Hm. destruct Hm as (u & b & -> & Hu & Hb).
    apply matches_class in Hb. destruct Hb as (c & -> & Hc).
    apply matches_up_to_class in Hu. destruct Hu as [Hu Hlen].
    rewrite all_chars_app, sapp_length. cbn [Str.all_chars String.length].
    rewrite (alnum_is_host c Hc).
    rewrite (all_chars_weaken _ _ u label_char_is_host Hu).
    split; [reflexivity|lia].
Qed.

Lemma matches_labels r s :
  (forall t, Regex.Matches r t ->
     exists body, t = (body ++ ".")%string /\ body <> EmptyString
                  /\ Str.all_chars Validator.host_char body = true) ->
  Regex.Matches (Regex.Star r) s ->
  s = EmptyString
  \/ exists body, s = (body ++ ".")%string /\ body <> EmptyString
                  /\ Str.all_chars Validator.host_char body = true.
Proof.
  intros Hr H. remember (Regex.Star r) as r' eqn:Er.
  induction H as [| | | | | |r0 s1 s2 H1 _ H2 IH2]; try discriminate.
  - now left.
  - injection Er as ->. right.
    destruct (Hr s1 H1) as (b1 & -> & Hn1 & Ha1).
    destruct (IH2 eq_refl) as [->|(b2 & -> & Hn2 & Ha2)].
    + exists b1. rewrite sapp_nil_r. auto.
    + exists (b1 ++ "." ++ b2)%string. rewrite !sapp_assoc.
      split; [reflexivity|]. split; [now destruct b1|].
      rewrite !all_chars_app, Ha1, Ha2. reflexivity.
Qed.

Lemma valid_domain_shape d :
  Validator.is_valid_domain d = true ->
  exists dom tld,
    Str.strip d = (dom ++ "." ++ tld)%string /\ dom <> EmptyString
    /\ Str.all_chars Validator.host_char dom = true
    /\ 2 <= String.length tld
    /\ Str.all_chars Validator.letter tld = true.
Proof.
  unfold Validator.is_valid_domain.
  destruct (String.eqb d EmptyString); [discriminate|].
  rewrite match_line_strip, fullmatch_spec. unfold Validator.domain_pattern.
  intros H. apply matches_seq in H. destruct H as (labels & tld & -> & Hl & Ht).
  apply matches_two_or_more_class in Ht. destruct Ht as [Ht1 Ht2].
  unfold Regex.plus in Hl. apply matches_seq in Hl.
  destruct Hl as (l1 & more & -> & H1 & Hm).
  apply matches_label in H1. destruct H1 as (b1 & -> & Hn1 & Ha1 & _).
  apply matches_labels in Hm.
  2:{ intros t Ht. apply matches_label in Ht.
      destruct Ht as (b & -> & Hn & Ha & _). eauto. }
  destruct Hm as [->|(b2 & -> & Hn2 & Ha2)].
  - exists b1, tld. rewrite sapp_nil_r, !sapp_assoc. auto.
  - exists (b1 ++ "." ++ b2)%string, tld. rewrite !sapp_assoc.
    split; [reflexivity|]. split; [now destruct b1|].
    rewrite !all_chars_app, Ha1, Ha2. auto.
Qed.

(** X27: whatever [is_valid_domain] accepts, [is_valid_email] accepts
    behind an at sign and any local part of its own alphabet: the domain,
    stripped, reads as labels of letters, digits and hyphens, a dot, and two
    or more letters. *)
Theorem valid_domain_is_a_valid_email_host d local :
  Validator.is_valid_domain d = true ->
  local <> EmptyString ->
  Str.all_chars Validator.local_char local = true ->
  Validator.is_valid_email (local ++ "@" ++ Str.strip d)%string = true.
Proof.
  intros Hd Hn Hl.
  destruct (valid_domain_shape d Hd) as (dom & tld & -> & Hn' & Ha & Ht1 & Ht2).
  apply valid_email_iff. exists local, dom, tld.
  split; [|auto 10].
  apply strip_spaceless. rewrite !all_chars_app.
  apply andb_true_iff; split; [|apply andb_true_iff; split; [reflexivity|]].
  { revert Hl. apply all_chars_weaken. intros c Hc.
    apply local_char_no_space. now rewrite Hc. }
  apply andb_true_iff; split; [|apply andb_true_iff; split; [reflexivity|]].
  { revert Ha. apply all_chars_weaken. intros c Hc.
    apply local_char_no_space. now rewrite (host_char_is_local c Hc). }
  revert Ht2. apply all_chars_weaken. intros c Hc.
  apply local_char_no_space.
  now rewrite (host_char_is_local c (letter_is_host c Hc)).
Qed.

Lemma valid_domain_is_a_valid_email_host_witness :
  Validator.is_valid_domain " mail.example.org" = true
  /\ Validator.is_valid_email "jane@mail.example.org" = true.
Proof.
  assert (H : Validator.is_valid_domain " mail.example.org" = true)
    by (vm_compute; reflexivity).
  split; [exact H|].
  apply (valid_domain_is_a_valid_email_host " mail.example.org" "jane" H);
    [discriminate|reflexivity].
Defined.
